(** * seller-apis: stock and price synchronisation for Ozon and Yandex Market

    A shallow embedding of [seller.py] (Ozon) and [market.py] (Yandex Market)
    and the properties of their transformation and orchestration code.

    Conventions of the embedding.
    - Python [str] values are [string]s (sequences of bytes, UTF-8 for text
      outside ASCII).  The characters [price_conversion] inspects (the digits
      and the point) are ASCII, and no byte of a multi-byte UTF-8 sequence
      is, so working on bytes agrees with working on code points; [int],
      which knows the digits and white space of every script, decodes the
      text.
    - A supplier row is the record [watch]; its three cells are strings, on
      which Python's [str(...)] is the identity.
    - Code that can raise returns a [result]; code that mutates the offer-id
      list returns the list it leaves behind next to its result.
    - Calls to the outside (HTTP requests, the supplier download, the clock,
      [print]) are events of a trace, answered by a [world]. *)

From Stdlib Require Import List String Ascii ZArith NArith Arith Bool Lia Permutation.
Import ListNotations.

Open Scope string_scope.
Open Scope list_scope.

(** ** Python exceptions and results *)

(** The exception classes the handlers of [main] tell apart, and the ones the
    embedded code raises itself.  [ReadTimeout] and [ConnectionError] are those
    of [requests.exceptions]; [HTTPError] is what [raise_for_status] raises.
    All of them derive from [Exception]; what does not ([KeyboardInterrupt]
    and the like) is left out. *)
Inductive exn : Type :=
| ReadTimeout
| ConnectionError
| HTTPError
| ValueError
| OtherException (name : string).

Inductive result (A : Type) : Type :=
| Ok (a : A)
| Raise (e : exn).
Arguments Ok {A} a.
Arguments Raise {A} e.

Definition result_bind {A B} (r : result A) (k : A -> result B) : result B :=
  match r with
  | Ok a => k a
  | Raise e => Raise e
  end.

(** ** Strings *)

Definition is_digit (c : ascii) : bool :=
  ((48 <=? N_of_ascii c) && (N_of_ascii c <=? 57))%N.

Definition digit_value (c : ascii) : Z := Z.of_N (N_of_ascii c) - 48.

(** [s.split(sep)] for a one-character separator: the pieces between the
    occurrences of [sep]; never empty. *)
Fixpoint py_split (sep : ascii) (s : string) : list string :=
  match s with
  | EmptyString => [EmptyString]
  | String c s' =>
      if Ascii.eqb c sep then EmptyString :: py_split sep s'
      else match py_split sep s' with
           | [] => [String c EmptyString]
           | piece :: pieces => String c piece :: pieces
           end
  end.

(** [re.sub("[^0-9]", "", s)]: every character outside [0-9] is dropped. *)
Fixpoint re_sub_non_digits (s : string) : string :=
  match s with
  | EmptyString => EmptyString
  | String c s' =>
      if is_digit c then String c (re_sub_non_digits s')
      else re_sub_non_digits s'
  end.

(** seller.py, [price_conversion]:
    [return re.sub("[^0-9]", "", price.split(".")[0])]. *)
Definition price_conversion (price : string) : string :=
  re_sub_non_digits (hd EmptyString (py_split "." price)).

(** A string made of digits only. *)
Fixpoint digits_only (s : string) : bool :=
  match s with
  | EmptyString => true
  | String c s' => is_digit c && digits_only s'
  end.

(** *** [int(s)] on a string

    CPython's [int] on a [str], as [PyLong_FromUnicodeObject] computes it in
    base 10 (checked against CPython 3.11, Unicode 14.0, with the default
    limit of 4300 digits).  A string that is not pure ASCII is first rewritten
    ([_PyUnicode_TransformDecimalAndSpaceToASCII]): a white-space character
    becomes a space, a decimal digit of any script its ASCII digit, and at
    any other character outside ASCII the text ends with a question mark.
    Then white space around the numeral is skipped, one sign is allowed, the
    digits may be grouped by single underscores, and a numeral of more than
    4300 digits is refused.  Every failure is a [ValueError]. *)

Definition is_ascii (c : ascii) : bool := (N_of_ascii c <? 128)%N.

(** The code points of a UTF-8 text; a byte that starts no character, or a
    character cut short, gives a code point outside Unicode. *)
Fixpoint utf8_decode (l : list ascii) : list N :=
  match l with
  | [] => []
  | b0 :: rest =>
      let n0 := N_of_ascii b0 in
      if (n0 <? 128)%N then n0 :: utf8_decode rest
      else if (n0 <? 192)%N then 1114112%N :: utf8_decode rest
      else
        match rest with
        | [] => [1114112%N]
        | b1 :: rest1 =>
            let n1 := (N_of_ascii b1 - 128)%N in
            if (n0 <? 224)%N
            then ((n0 - 192) * 64 + n1)%N :: utf8_decode rest1
            else
              match rest1 with
              | [] => [1114112%N]
              | b2 :: rest2 =>
                  let n2 := (N_of_ascii b2 - 128)%N in
                  if (n0 <? 240)%N
                  then ((n0 - 224) * 4096 + n1 * 64 + n2)%N
                       :: utf8_decode rest2
                  else
                    match rest2 with
                    | [] => [1114112%N]
                    | b3 :: rest3 =>
                        let n3 := (N_of_ascii b3 - 128)%N in
                        ((n0 - 240) * 262144 + n1 * 4096 + n2 * 64 + n3)%N
                        :: utf8_decode rest3
                    end
              end
        end
  end.

(** [Py_UNICODE_ISSPACE] outside ASCII. *)
Definition unicode_space (cp : N) : bool :=
  (existsb (N.eqb cp) [133; 160; 5760; 8232; 8233; 8239; 8287; 12288]
   || ((8192 <=? cp) && (cp <=? 8202)))%N.

(** The zeros of the decimal digits of Unicode 14.0; the digits one to nine
    of a script follow its zero. *)
Definition decimal_zeros : list N :=
  [48; 1632; 1776; 1984; 2406; 2534; 2662; 2790; 2918; 3046; 3174; 3302;
   3430; 3558; 3664; 3792; 3872; 4160; 4240; 6112; 6160; 6470; 6608; 6784;
   6800; 6992; 7088; 7232; 7248; 42528; 43216; 43264; 43472; 43504; 43600;
   44016; 65296; 66720; 68912; 69734; 69872; 69942; 70096; 70384; 70736;
   70864; 71248; 71360; 71472; 71904; 72016; 72784; 73040; 73120; 92768;
   92864; 93008; 120782; 120792; 120802; 120812; 120822; 123200; 123632;
   125264; 130032]%N.

(** [Py_UNICODE_TODECIMAL]. *)
Definition unicode_decimal (cp : N) : option N :=
  match find (fun zero => (zero <=? cp) && (cp <? zero + 10))%N decimal_zeros
  with
  | Some zero => Some (cp - zero)%N
  | None => None
  end.

(** The rewriting of a string that is not pure ASCII. *)
Fixpoint transform_decimal_and_space (l : list N) : list ascii :=
  match l with
  | [] => []
  | ch :: l' =>
      if (ch <? 127)%N then ascii_of_N ch :: transform_decimal_and_space l'
      else if unicode_space ch then " "%char :: transform_decimal_and_space l'
      else
        match unicode_decimal ch with
        | Some decimal =>
            ascii_of_N (48 + decimal) :: transform_decimal_and_space l'
        | None => ["?"%char]
        end
  end.

(** The ASCII text that the numeral is read from. *)
Definition int_text (s : string) : list ascii :=
  let bytes := list_ascii_of_string s in
  if forallb is_ascii bytes then bytes
  else transform_decimal_and_space (utf8_decode bytes).

(** [Py_ISSPACE]: the white space skipped around the numeral. *)
Definition is_space (c : ascii) : bool :=
  let n := N_of_ascii c in
  (((9 <=? n) && (n <=? 13)) || (n =? 32))%N.

Fixpoint lstrip (l : list ascii) : list ascii :=
  match l with
  | c :: l' => if is_space c then lstrip l' else l
  | [] => []
  end.

Definition strip (l : list ascii) : list ascii :=
  rev (lstrip (rev (lstrip l))).

(** The digits after the sign: [prev] tells whether the previous character was
    a digit, which an underscore and the end of the numeral both require. *)
Fixpoint int_digits (acc : Z) (prev : bool) (l : list ascii) : option Z :=
  match l with
  | [] => if prev then Some acc else None
  | c :: l' =>
      if is_digit c then int_digits (10 * acc + digit_value c) true l'
      else if Ascii.eqb c "_" then
             if prev then int_digits acc false l' else None
           else None
  end.

(** [sys.get_int_max_str_digits()], which the code leaves at its default. *)
Definition int_max_str_digits : nat := 4300.

Definition py_int (s : string) : result Z :=
  let unsigned l :=
    match int_digits 0 false l with
    | Some z =>
        if (List.length (filter is_digit l) <=? int_max_str_digits)%nat then Ok z
        else Raise ValueError
    | None => Raise ValueError
    end in
  match strip (int_text s) with
  | c :: l =>
      if Ascii.eqb c "-" then
        match unsigned l with Ok z => Ok (- z)%Z | Raise e => Raise e end
      else if Ascii.eqb c "+" then unsigned l
      else unsigned (c :: l)
  | [] => Raise ValueError
  end.

(** ** Lists the way Python uses them *)

(** [x in lst] for a list of strings. *)
Definition py_in (x : string) (lst : list string) : bool :=
  existsb (String.eqb x) lst.

(** [lst.remove(x)]: the first occurrence goes, and [ValueError] is raised
    when there is none. *)
Fixpoint list_remove (x : string) (lst : list string) : result (list string) :=
  match lst with
  | [] => Raise ValueError
  | y :: lst' =>
      if String.eqb y x then Ok lst'
      else match list_remove x lst' with
           | Ok rest => Ok (y :: rest)
           | Raise e => Raise e
           end
  end.

(** [range(start, stop, step)]: a zero step raises [ValueError], and the
    length is the one CPython computes. *)
Definition range_length (start stop step : Z) : Z :=
  if (0 <? step)%Z then
    if (start <? stop)%Z then ((stop - start - 1) / step + 1)%Z else 0%Z
  else
    if (stop <? start)%Z then ((start - stop - 1) / (- step) + 1)%Z else 0%Z.

Definition py_range (start stop step : Z) : result (list Z) :=
  if (step =? 0)%Z then Raise ValueError
  else Ok (map (fun k => (start + Z.of_nat k * step)%Z)
               (seq 0 (Z.to_nat (range_length start stop step)))).

(** [lst[lo:hi]]: a negative bound counts from the end, and both bounds are
    clamped to the list. *)
Definition py_slice {A : Type} (lst : list A) (lo hi : Z) : list A :=
  let len := Z.of_nat (List.length lst) in
  let clamp i := if (i <? 0)%Z then Z.max 0 (i + len) else Z.min i len in
  firstn (Z.to_nat (clamp hi - clamp lo)) (skipn (Z.to_nat (clamp lo)) lst).

(** seller.py, [divide]:
    [for i in range(0, len(lst), n): yield lst[i : i + n]].
    Every caller consumes the generator at once with [list(...)], and a slice
    is a fresh list, so the generator is the list of its chunks; the
    [ValueError] of a zero step is raised when the generator is consumed. *)
Definition divide {A : Type} (lst : list A) (n : Z) : result (list (list A)) :=
  result_bind (py_range 0 (Z.of_nat (List.length lst)) n)
    (fun indices => Ok (map (fun i => py_slice lst i (i + n)) indices)).

(** ** The supplier's rows *)

(** A row of the supplier's sheet as [download_stock] returns it: the cells
    under the columns "Код" (code), "Количество" (quantity) and "Цена"
    (price). *)
Record watch : Type := {
  Kod : string;
  Kolichestvo : string;
  Tsena : string
}.

(** ** Effects *)

(** A computation starts from the trace of the events so far and gives its
    outcome and the longer trace; [None] is a computation that never
    returns. *)
Definition M (E A : Type) : Type := list E -> option (result A * list E).

Definition ret {E A : Type} (a : A) : M E A := fun t => Some (Ok a, t).

Definition lift {E A : Type} (r : result A) : M E A := fun t => Some (r, t).

Definition diverge {E A : Type} : M E A := fun _ => None.

Definition bind {E A B : Type} (m : M E A) (k : A -> M E B) : M E B :=
  fun t =>
    match m t with
    | None => None
    | Some (Ok a, t') => k a t'
    | Some (Raise e, t') => Some (Raise e, t')
    end.

(** A call to the outside: the event is recorded and the world's answer to
    it, which may depend on everything that happened before, is the outcome. *)
Definition call {E A : Type} (ev : E) (answer : list E -> result A) : M E A :=
  fun t => Some (answer t, t ++ [ev]).

Declare Scope py_scope.
Delimit Scope py_scope with py.
Notation "x <- m ;; k" := (bind m (fun x => k))
  (at level 61, m at next level, right associativity) : py_scope.
Notation "m ;; k" := (bind m (fun _ => k))
  (at level 61, right associativity) : py_scope.

(** [for x in lst: body(x)]. *)
Fixpoint for_each {E A : Type} (lst : list A) (body : A -> M E unit) : M E unit :=
  match lst with
  | [] => ret tt
  | x :: lst' => bind (body x) (fun _ => for_each lst' body)
  end.

(** [try: body  except ... as error: handler(error)]. *)
Definition try_except {E A : Type} (body : M E A) (handler : exn -> M E A) : M E A :=
  fun t =>
    match body t with
    | None => None
    | Some (Ok a, t') => Some (Ok a, t')
    | Some (Raise e, t') => handler e t'
    end.

(** What is left of an [async def] function that is called and not awaited: a
    coroutine object holding a body that has not started. *)
Inductive coroutine (E A : Type) : Type :=
| Coroutine (body : M E A).
Arguments Coroutine {E A} body.

(** An expression statement: the value is computed and dropped.  For a
    coroutine object that means its body never runs. *)
Definition expression_statement {E A : Type} (value : A) : M E unit := ret tt.

(** [await c]: the body of the coroutine runs. *)
Definition await {E A : Type} (c : coroutine E A) : M E A :=
  match c with
  | Coroutine body => body
  end.

(** [list(filter(test, lst))] for a test that can raise. *)
Fixpoint filter_result {A : Type} (test : A -> result bool) (lst : list A)
  : result (list A) :=
  match lst with
  | [] => Ok []
  | x :: lst' =>
      match test x with
      | Raise e => Raise e
      | Ok keep =>
          match filter_result test lst' with
          | Raise e => Raise e
          | Ok rest => Ok (if keep then x :: rest else rest)
          end
      end
  end.

(** ** seller.py: Ozon *)

Module seller.

(** An entry of [result.items] in the answer of [/v2/product/list]; the code
    reads its "offer_id" only. *)
Record product : Type := {
  product_offer_id : string
}.

(** The "result" object of [/v2/product/list]: its "items", "total" and
    "last_id". *)
Record product_list_result : Type := {
  result_items : list product;
  result_total : Z;
  result_last_id : string
}.

(** [{"offer_id": ..., "stock": ...}]. *)
Record stock_item : Type := {
  offer_id : string;
  stock : Z
}.

(** The dictionary [create_prices] builds; its "price" is the string that
    [price_conversion] returns. *)
Record price_item : Type := {
  auto_action_enabled : string;
  currency_code : string;
  price_offer_id : string;
  old_price : string;
  price : string
}.

Inductive event : Type :=
| ProductListRequest (last_id client_id seller_token : string)
| ImportPricesRequest (prices : list price_item) (client_id seller_token : string)
| ImportStocksRequest (stocks : list stock_item) (client_id seller_token : string)
| DownloadStock
| Print (error : option exn) (text : string).

(** The outside: what each request is answered with after the events so far.
    An answer is the parsed body, or the exception that [requests] or
    [raise_for_status] raises.  The bodies of the two import requests are not
    read by any caller. *)
Record world : Type := {
  product_list_response :
    list event -> string -> string -> string -> result product_list_result;
  import_prices_response :
    list event -> list price_item -> string -> string -> result unit;
  import_stocks_response :
    list event -> list stock_item -> string -> string -> result unit;
  download_stock_response : list event -> result (list watch)
}.

Section Calls.
Variable w : world.
Local Open Scope py_scope.

Definition get_product_list (last_id client_id seller_token : string)
  : M event product_list_result :=
  call (ProductListRequest last_id client_id seller_token)
       (fun t => product_list_response w t last_id client_id seller_token).

Definition update_price (prices : list price_item) (client_id seller_token : string)
  : M event unit :=
  call (ImportPricesRequest prices client_id seller_token)
       (fun t => import_prices_response w t prices client_id seller_token).

Definition update_stocks (stocks : list stock_item) (client_id seller_token : string)
  : M event unit :=
  call (ImportStocksRequest stocks client_id seller_token)
       (fun t => import_stocks_response w t stocks client_id seller_token).

(** The download, the unpacking and the reading of the sheet, as one call. *)
Definition download_stock : M event (list watch) :=
  call DownloadStock (download_stock_response w).

Definition print (error : option exn) (text : string) : M event unit :=
  call (Print error text) (fun _ => Ok tt).

(** The [while True] loop of [get_offer_ids]; [fuel] bounds the number of
    page requests. *)
Fixpoint get_offer_ids_loop (fuel : nat) (client_id seller_token : string)
    (last_id : string) (product_list : list product) : M event (list product) :=
  match fuel with
  | O => diverge
  | S fuel' =>
      some_prod <- get_product_list last_id client_id seller_token ;;
      let product_list := product_list ++ result_items some_prod in
      if (result_total some_prod =? Z.of_nat (List.length product_list))%Z
      then ret product_list
      else get_offer_ids_loop fuel' client_id seller_token
             (result_last_id some_prod) product_list
  end.

Definition get_offer_ids (fuel : nat) (client_id seller_token : string)
  : M event (list string) :=
  product_list <- get_offer_ids_loop fuel client_id seller_token "" [] ;;
  ret (map product_offer_id product_list).

End Calls.

(** The first loop of [create_stocks], with the list [offer_ids] it mutates
    returned next to the outcome. *)
Fixpoint create_stocks_loop (watch_remnants : list watch)
    (stocks : list stock_item) (offer_ids : list string)
  : result (list stock_item) * list string :=
  match watch_remnants with
  | [] => (Ok stocks, offer_ids)
  | watch :: rest =>
      if py_in (Kod watch) offer_ids then
        let count := Kolichestvo watch in
        match (if count =? ">10" then Ok 100%Z
               else if count =? "1" then Ok 0%Z
               else py_int (Kolichestvo watch)) with
        | Raise e => (Raise e, offer_ids)
        | Ok stock =>
            let stocks :=
              stocks ++ [{| offer_id := Kod watch; stock := stock |}] in
            match list_remove (Kod watch) offer_ids with
            | Raise e => (Raise e, offer_ids)
            | Ok offer_ids => create_stocks_loop rest stocks offer_ids
            end
        end
      else create_stocks_loop rest stocks offer_ids
  end.

Definition create_stocks (watch_remnants : list watch) (offer_ids : list string)
  : result (list stock_item) * list string :=
  match create_stocks_loop watch_remnants [] offer_ids with
  | (Ok stocks, offer_ids) =>
      (Ok (stocks ++ map (fun offer_id => {| offer_id := offer_id; stock := 0 |})
                         offer_ids),
       offer_ids)
  | (Raise e, offer_ids) => (Raise e, offer_ids)
  end.

(** [create_prices] only reads [offer_ids]; the list it appends to is built
    front to back. *)
Fixpoint create_prices (watch_remnants : list watch) (offer_ids : list string)
  : list price_item :=
  match watch_remnants with
  | [] => []
  | watch :: rest =>
      if py_in (Kod watch) offer_ids then
        {| auto_action_enabled := "UNKNOWN";
           currency_code := "RUB";
           price_offer_id := Kod watch;
           old_price := "0";
           price := price_conversion (Tsena watch) |}
        :: create_prices rest offer_ids
      else create_prices rest offer_ids
  end.

Section Main.
Variable w : world.
Local Open Scope py_scope.

(** The block under [try:] in [main]. *)
Definition main_try (fuel : nat) (client_id seller_token : string)
  : M event unit :=
  offer_ids <- get_offer_ids w fuel client_id seller_token ;;
  watch_remnants <- download_stock w ;;
  let (outcome, offer_ids) := create_stocks watch_remnants offer_ids in
  stocks <- lift outcome ;;
  chunks <- lift (divide stocks 100) ;;
  for_each chunks
    (fun some_stock => update_stocks w some_stock client_id seller_token) ;;
  let prices := create_prices watch_remnants offer_ids in
  chunks <- lift (divide prices 900) ;;
  for_each chunks
    (fun some_price => update_price w some_price client_id seller_token).

(** The three [except] clauses of [main], in their order. *)
Definition main_except (error : exn) : M event unit :=
  match error with
  | ReadTimeout => print None "Превышено время ожидания..."
  | ConnectionError => print (Some error) "Ошибка соединения"
  | _ => print (Some error) "ERROR_2"
  end.

(** [main], after the two settings are read from the environment. *)
Definition main (fuel : nat) (client_id seller_token : string) : M event unit :=
  try_except (main_try fuel client_id seller_token) main_except.

(** [upload_prices] and [upload_stocks] are declared [async def]: a call
    builds a coroutine.  Neither file calls them. *)
Definition upload_prices (fuel : nat) (watch_remnants : list watch)
    (client_id seller_token : string) : coroutine event (list price_item) :=
  Coroutine
    (offer_ids <- get_offer_ids w fuel client_id seller_token ;;
     let prices := create_prices watch_remnants offer_ids in
     chunks <- lift (divide prices 1000) ;;
     for_each chunks
       (fun some_price => update_price w some_price client_id seller_token) ;;
     ret prices).

Definition upload_stocks (fuel : nat) (watch_remnants : list watch)
    (client_id seller_token : string)
  : coroutine event (list stock_item * list stock_item) :=
  Coroutine
    (offer_ids <- get_offer_ids w fuel client_id seller_token ;;
     let (outcome, offer_ids) := create_stocks watch_remnants offer_ids in
     stocks <- lift outcome ;;
     chunks <- lift (divide stocks 100) ;;
     for_each chunks
       (fun some_stock => update_stocks w some_stock client_id seller_token) ;;
     let not_empty :=
       filter (fun stock_ => negb (stock stock_ =? 0)%Z) stocks in
     ret (not_empty, stocks)).

End Main.

End seller.

(** ** market.py: Yandex Market *)

Module market.

(** An entry of [result.offerMappingEntries]; the code reads its
    "offer"."shopSku" only. *)
Record offer_t : Type := {
  shopSku : string
}.

Record offer_mapping_entry : Type := {
  offer : offer_t
}.

(** "paging": the token is absent ([None]) or a string. *)
Record paging_t : Type := {
  nextPageToken : option string
}.

(** The "result" object of [offer-mapping-entries]. *)
Record offer_mapping_result : Type := {
  offerMappingEntries : list offer_mapping_entry;
  paging : paging_t
}.

(** [{"count": ..., "type": "FIT", "updatedAt": ...}]. *)
Record stock_entry : Type := {
  count : Z;
  type_ : string;
  updatedAt : string
}.

(** [{"sku": ..., "warehouseId": ..., "items": [...]}]. *)
Record sku_stock : Type := {
  sku : string;
  warehouseId : string;
  items : list stock_entry
}.

(** [{"value": ..., "currencyId": "RUR"}]. *)
Record price_value : Type := {
  value : Z;
  currencyId : string
}.

(** [{"id": ..., "price": {...}}]. *)
Record price_item : Type := {
  id : string;
  price : price_value
}.

Inductive event : Type :=
| OfferMappingRequest (page campaign_id access_token : string)
| StocksRequest (stocks : list sku_stock) (campaign_id access_token : string)
| PricesRequest (prices : list price_item) (campaign_id access_token : string)
| DownloadStock
| Print (error : option exn) (text : string).

(** The outside.  [utcnow] is the clock as [create_stocks] formats it. *)
Record world : Type := {
  offer_mapping_response :
    list event -> string -> string -> string -> result offer_mapping_result;
  stocks_response :
    list event -> list sku_stock -> string -> string -> result unit;
  prices_response :
    list event -> list price_item -> string -> string -> result unit;
  download_stock_response : list event -> result (list watch);
  utcnow : list event -> string
}.

(** [create_stocks], with the list [offer_ids] it mutates returned next to the
    outcome; [date] is the clock it reads once, before the loops. *)
Fixpoint create_stocks_loop (date : string) (watch_remnants : list watch)
    (stocks : list sku_stock) (offer_ids : list string) (warehouse_id : string)
  : result (list sku_stock) * list string :=
  match watch_remnants with
  | [] => (Ok stocks, offer_ids)
  | watch :: rest =>
      if py_in (Kod watch) offer_ids then
        let count := Kolichestvo watch in
        match (if count =? ">10" then Ok 100%Z
               else if count =? "1" then Ok 0%Z
               else py_int (Kolichestvo watch)) with
        | Raise e => (Raise e, offer_ids)
        | Ok stock =>
            let stocks :=
              stocks ++ [{| sku := Kod watch;
                            warehouseId := warehouse_id;
                            items := [{| count := stock;
                                         type_ := "FIT";
                                         updatedAt := date |}] |}] in
            match list_remove (Kod watch) offer_ids with
            | Raise e => (Raise e, offer_ids)
            | Ok offer_ids =>
                create_stocks_loop date rest stocks offer_ids warehouse_id
            end
        end
      else create_stocks_loop date rest stocks offer_ids warehouse_id
  end.

Definition create_stocks (date : string) (watch_remnants : list watch)
    (offer_ids : list string) (warehouse_id : string)
  : result (list sku_stock) * list string :=
  match create_stocks_loop date watch_remnants [] offer_ids warehouse_id with
  | (Ok stocks, offer_ids) =>
      (Ok (stocks ++ map (fun offer_id =>
                            {| sku := offer_id;
                               warehouseId := warehouse_id;
                               items := [{| count := 0;
                                            type_ := "FIT";
                                            updatedAt := date |}] |})
                         offer_ids),
       offer_ids)
  | (Raise e, offer_ids) => (Raise e, offer_ids)
  end.

(** [create_prices]: the [int(...)] of a price without digits raises. *)
Fixpoint create_prices_loop (watch_remnants : list watch)
    (offer_ids : list string) (prices : list price_item)
  : result (list price_item) :=
  match watch_remnants with
  | [] => Ok prices
  | watch :: rest =>
      if py_in (Kod watch) offer_ids then
        match py_int (price_conversion (Tsena watch)) with
        | Raise e => Raise e
        | Ok v =>
            create_prices_loop rest offer_ids
              (prices ++ [{| id := Kod watch;
                             price := {| value := v; currencyId := "RUR" |} |}])
        end
      else create_prices_loop rest offer_ids prices
  end.

Definition create_prices (watch_remnants : list watch) (offer_ids : list string)
  : result (list price_item) :=
  create_prices_loop watch_remnants offer_ids [].

Section Calls.
Variable w : world.
Local Open Scope py_scope.

Definition get_product_list (page campaign_id access_token : string)
  : M event offer_mapping_result :=
  call (OfferMappingRequest page campaign_id access_token)
       (fun t => offer_mapping_response w t page campaign_id access_token).

Definition update_stocks (stocks : list sku_stock) (campaign_id access_token : string)
  : M event unit :=
  call (StocksRequest stocks campaign_id access_token)
       (fun t => stocks_response w t stocks campaign_id access_token).

Definition update_price (prices : list price_item) (campaign_id access_token : string)
  : M event unit :=
  call (PricesRequest prices campaign_id access_token)
       (fun t => prices_response w t prices campaign_id access_token).

(** [seller.download_stock], imported. *)
Definition download_stock : M event (list watch) :=
  call DownloadStock (download_stock_response w).

Definition print (error : option exn) (text : string) : M event unit :=
  call (Print error text) (fun _ => Ok tt).

Definition clock : M event string := fun t => Some (Ok (utcnow w t), t).

(** The [while True] loop of [get_offer_ids]; [fuel] bounds the number of
    page requests.  [if not page] holds of a missing token and of the empty
    string. *)
Fixpoint get_offer_ids_loop (fuel : nat) (campaign_id market_token : string)
    (page : string) (product_list : list offer_mapping_entry)
  : M event (list offer_mapping_entry) :=
  match fuel with
  | O => diverge
  | S fuel' =>
      some_prod <- get_product_list page campaign_id market_token ;;
      let product_list := product_list ++ offerMappingEntries some_prod in
      match nextPageToken (paging some_prod) with
      | None => ret product_list
      | Some page =>
          if page =? "" then ret product_list
          else get_offer_ids_loop fuel' campaign_id market_token page product_list
      end
  end.

Definition get_offer_ids (fuel : nat) (campaign_id market_token : string)
  : M event (list string) :=
  product_list <- get_offer_ids_loop fuel campaign_id market_token "" [] ;;
  ret (map (fun product => shopSku (offer product)) product_list).

(** [upload_prices] is declared [async def]: a call builds a coroutine. *)
Definition upload_prices (fuel : nat) (watch_remnants : list watch)
    (campaign_id market_token : string) : coroutine event (list price_item) :=
  Coroutine
    (offer_ids <- get_offer_ids fuel campaign_id market_token ;;
     prices <- lift (create_prices watch_remnants offer_ids) ;;
     chunks <- lift (divide prices 500) ;;
     for_each chunks
       (fun some_prices => update_price some_prices campaign_id market_token) ;;
     ret prices).

(** The block under [try:] in [main]; the two calls of [upload_prices] are
    expression statements. *)
Definition main_try (fuel : nat) (watch_remnants : list watch)
    (market_token campaign_fbs_id campaign_dbs_id : string)
    (warehouse_fbs_id warehouse_dbs_id : string) : M event unit :=
  offer_ids <- get_offer_ids fuel campaign_fbs_id market_token ;;
  date <- clock ;;
  let (outcome, offer_ids) :=
    create_stocks date watch_remnants offer_ids warehouse_fbs_id in
  stocks <- lift outcome ;;
  chunks <- lift (divide stocks 2000) ;;
  for_each chunks
    (fun some_stock => update_stocks some_stock campaign_fbs_id market_token) ;;
  expression_statement
    (upload_prices fuel watch_remnants campaign_fbs_id market_token) ;;
  offer_ids <- get_offer_ids fuel campaign_dbs_id market_token ;;
  date <- clock ;;
  let (outcome, offer_ids) :=
    create_stocks date watch_remnants offer_ids warehouse_dbs_id in
  stocks <- lift outcome ;;
  chunks <- lift (divide stocks 2000) ;;
  for_each chunks
    (fun some_stock => update_stocks some_stock campaign_dbs_id market_token) ;;
  expression_statement
    (upload_prices fuel watch_remnants campaign_dbs_id market_token).

(** The three [except] clauses of [main], in their order. *)
Definition main_except (error : exn) : M event unit :=
  match error with
  | ReadTimeout => print None "Превышено время ожидания..."
  | ConnectionError => print (Some error) "Ошибка соединения"
  | _ => print (Some error) "ERROR_2"
  end.

(** [main], after the five settings are read from the environment.  The
    download comes before the [try]. *)
Definition main (fuel : nat)
    (market_token campaign_fbs_id campaign_dbs_id : string)
    (warehouse_fbs_id warehouse_dbs_id : string) : M event unit :=
  watch_remnants <- download_stock ;;
  try_except
    (main_try fuel watch_remnants market_token campaign_fbs_id campaign_dbs_id
       warehouse_fbs_id warehouse_dbs_id)
    main_except.

(** [upload_stocks], declared [async def] too and called nowhere.  Its filter
    reads the first item of each record, which raises [IndexError] when there
    is none. *)
Definition upload_stocks (fuel : nat) (watch_remnants : list watch)
    (campaign_id market_token warehouse_id : string)
  : coroutine event (list sku_stock * list sku_stock) :=
  Coroutine
    (offer_ids <- get_offer_ids fuel campaign_id market_token ;;
     date <- clock ;;
     let (outcome, offer_ids) :=
       create_stocks date watch_remnants offer_ids warehouse_id in
     stocks <- lift outcome ;;
     chunks <- lift (divide stocks 2000) ;;
     for_each chunks
       (fun some_stock => update_stocks some_stock campaign_id market_token) ;;
     not_empty <-
       lift (filter_result
               (fun stock =>
                  match items stock with
                  | item :: _ => Ok (negb (count item =? 0)%Z)
                  | [] => Raise (OtherException "IndexError")
                  end)
               stocks) ;;
     ret (not_empty, stocks)).

End Calls.

End market.

(** ** What both [create_stocks] have in common

    The two functions differ in the dictionaries they build only.  The plan is
    the list of offer ids and counts they are built from; the properties of
    [create_stocks] are proved on the plan and carried over. *)

(** The translation of the quantity cell, as both loops spell it out. *)
Definition quantity_stock (count : string) : result Z :=
  if count =? ">10" then Ok 100%Z
  else if count =? "1" then Ok 0%Z
  else py_int count.

Fixpoint stock_plan_loop (watch_remnants : list watch)
    (plan : list (string * Z)) (offer_ids : list string)
  : result (list (string * Z)) * list string :=
  match watch_remnants with
  | [] => (Ok plan, offer_ids)
  | watch :: rest =>
      if py_in (Kod watch) offer_ids then
        match quantity_stock (Kolichestvo watch) with
        | Raise e => (Raise e, offer_ids)
        | Ok stock =>
            match list_remove (Kod watch) offer_ids with
            | Raise e => (Raise e, offer_ids)
            | Ok offer_ids' =>
                stock_plan_loop rest (plan ++ [(Kod watch, stock)]) offer_ids'
            end
        end
      else stock_plan_loop rest plan offer_ids
  end.

Definition stock_plan (watch_remnants : list watch) (offer_ids : list string)
  : result (list (string * Z)) * list string :=
  match stock_plan_loop watch_remnants [] offer_ids with
  | (Ok plan, offer_ids') =>
      (Ok (plan ++ map (fun offer_id => (offer_id, 0%Z)) offer_ids'), offer_ids')
  | (Raise e, offer_ids') => (Raise e, offer_ids')
  end.

Definition map_outcome {A B : Type} (f : A -> B)
    (outcome : result (list A) * list string) : result (list B) * list string :=
  match outcome with
  | (Ok l, offer_ids) => (Ok (map f l), offer_ids)
  | (Raise e, offer_ids) => (Raise e, offer_ids)
  end.

Definition seller_stock_item (entry : string * Z) : seller.stock_item :=
  {| seller.offer_id := fst entry; seller.stock := snd entry |}.

Definition market_sku_stock (date warehouse_id : string) (entry : string * Z)
  : market.sku_stock :=
  {| market.sku := fst entry;
     market.warehouseId := warehouse_id;
     market.items := [{| market.count := snd entry;
                         market.type_ := "FIT";
                         market.updatedAt := date |}] |}.

(** The count of a Yandex Market stock record: that of its first item, as
    [upload_stocks] reads it ([stock.get("items")[0].get("count")]). *)
Definition sku_count (s : market.sku_stock) : option Z :=
  match market.items s with
  | item :: _ => Some (market.count item)
  | [] => None
  end.

(** The offer ids that the supplier's sheet does not list. *)
Definition unmatched (watch_remnants : list watch) (offer_ids : list string)
  : list string :=
  filter (fun offer_id => negb (py_in offer_id (map Kod watch_remnants)))
         offer_ids.

(** ** The "price" entry as a JSON value *)

Inductive py_value : Type :=
| PyStr (s : string)
| PyInt (z : Z).

(** Ozon's "price" is the string [price_conversion] returns. *)
Definition seller_price_value (item : seller.price_item) : py_value :=
  PyStr (seller.price item).

(** Yandex Market's "price"."value" is the [int(...)] of that string. *)
Definition market_price_value (item : market.price_item) : py_value :=
  PyInt (market.value (market.price item)).

(** The number a string of digits reads as. *)
Definition decimal_value (s : string) : Z :=
  fold_left (fun acc c => (10 * acc + digit_value c)%Z)
            (list_ascii_of_string s) 0%Z.

(** ** Traces *)

(** Started from [t], the computation [m] only adds events that satisfy
    [P]. *)
Definition emits_from {E A : Type} (P : E -> Prop) (m : M E A) (t : list E)
  : Prop :=
  forall r t', m t = Some (r, t') -> exists evs, t' = t ++ evs /\ Forall P evs.

Definition seller_not_price_request (ev : seller.event) : Prop :=
  match ev with
  | seller.ImportPricesRequest _ _ _ => False
  | _ => True
  end.

Definition market_not_price_request (ev : market.event) : Prop :=
  match ev with
  | market.PricesRequest _ _ _ => False
  | _ => True
  end.

(** ** Servers that end the listing *)

(** Ozon answers the requests of [get_offer_ids], sent from the trace [t]
    with the cursor [last_id] after [seen] items, with the pages [pages]: the
    last page is the first whose "total" is the number of items so far. *)
Fixpoint seller_pages_served (w : seller.world) (client_id seller_token : string)
    (t : list seller.event) (last_id : string) (seen : nat)
    (pages : list seller.product_list_result) : Prop :=
  match pages with
  | [] => False
  | page :: rest =>
      seller.product_list_response w t last_id client_id seller_token = Ok page
      /\ let seen' := seen + List.length (seller.result_items page) in
         match rest with
         | [] => seller.result_total page = Z.of_nat seen'
         | _ :: _ =>
             seller.result_total page <> Z.of_nat seen'
             /\ seller_pages_served w client_id seller_token
                  (t ++ [seller.ProductListRequest last_id client_id seller_token])
                  (seller.result_last_id page) seen' rest
         end
  end.

(** Ozon answers with the pages [pages], none of which ends the listing, and
    the request after them raises [e]. *)
Fixpoint seller_pages_then_error (w : seller.world)
    (client_id seller_token : string)
    (t : list seller.event) (last_id : string) (seen : nat)
    (pages : list seller.product_list_result) (e : exn) : Prop :=
  match pages with
  | [] =>
      seller.product_list_response w t last_id client_id seller_token = Raise e
  | page :: rest =>
      seller.product_list_response w t last_id client_id seller_token = Ok page
      /\ let seen' := seen + List.length (seller.result_items page) in
         seller.result_total page <> Z.of_nat seen'
         /\ seller_pages_then_error w client_id seller_token
              (t ++ [seller.ProductListRequest last_id client_id seller_token])
              (seller.result_last_id page) seen' rest e
  end.

(** The requests that fetch the pages [pages], from the cursor [last_id]. *)
Fixpoint seller_page_requests (client_id seller_token last_id : string)
    (pages : list seller.product_list_result) : list seller.event :=
  match pages with
  | [] => []
  | page :: rest =>
      seller.ProductListRequest last_id client_id seller_token
      :: seller_page_requests client_id seller_token
           (seller.result_last_id page) rest
  end.

(** Yandex Market answers with the pages [pages]: the last page is the first
    without a next-page token (missing or empty). *)
Fixpoint market_pages_served (w : market.world) (campaign_id market_token : string)
    (t : list market.event) (page_token : string)
    (pages : list market.offer_mapping_result) : Prop :=
  match pages with
  | [] => False
  | page :: rest =>
      market.offer_mapping_response w t page_token campaign_id market_token
      = Ok page
      /\ match rest with
         | [] =>
             market.nextPageToken (market.paging page) = None
             \/ market.nextPageToken (market.paging page) = Some ""
         | _ :: _ =>
             exists next,
               market.nextPageToken (market.paging page) = Some next
               /\ next <> ""
               /\ market_pages_served w campaign_id market_token
                    (t ++ [market.OfferMappingRequest page_token campaign_id
                             market_token])
                    next rest
         end
  end.

Fixpoint market_pages_then_error (w : market.world)
    (campaign_id market_token : string)
    (t : list market.event) (page_token : string)
    (pages : list market.offer_mapping_result) (e : exn) : Prop :=
  match pages with
  | [] =>
      market.offer_mapping_response w t page_token campaign_id market_token
      = Raise e
  | page :: rest =>
      market.offer_mapping_response w t page_token campaign_id market_token
      = Ok page
      /\ exists next,
           market.nextPageToken (market.paging page) = Some next
           /\ next <> ""
           /\ market_pages_then_error w campaign_id market_token
                (t ++ [market.OfferMappingRequest page_token campaign_id
                         market_token])
                next rest e
  end.

(** The offer ids on the pages, in order. *)
Definition seller_page_offer_ids (pages : list seller.product_list_result)
  : list string :=
  map seller.product_offer_id (List.concat (map seller.result_items pages)).

Definition market_page_offer_ids (pages : list market.offer_mapping_result)
  : list string :=
  map (fun product => market.shopSku (market.offer product))
      (List.concat (map market.offerMappingEntries pages)).

(** The requests that fetch the pages [pages], from the token [page_token]. *)
Fixpoint market_page_requests (campaign_id market_token page_token : string)
    (pages : list market.offer_mapping_result) : list market.event :=
  match pages with
  | [] => []
  | page :: rest =>
      market.OfferMappingRequest page_token campaign_id market_token
      :: market_page_requests campaign_id market_token
           (match market.nextPageToken (market.paging page) with
            | Some next => next
            | None => ""
            end) rest
  end.

(** ** The price the price transformer is to emit

    The price transformer is described as emitting the "digits-only prefix of
    the price string before any decimal point".  The three definitions below
    spell these words out on their own, without [price_conversion]. *)

(** The price string before any decimal point. *)
Fixpoint spec_before_decimal_point (s : string) : string :=
  match s with
  | EmptyString => EmptyString
  | String c s' =>
      if Ascii.eqb c "." then EmptyString
      else String c (spec_before_decimal_point s')
  end.

(** The digits of a string, in their order. *)
Definition spec_digits (s : string) : string :=
  string_of_list_ascii
    (filter (fun c => existsb (Ascii.eqb c)
                        ["0"; "1"; "2"; "3"; "4"; "5"; "6"; "7"; "8"; "9"]%char)
            (list_ascii_of_string s)).

Definition spec_digits_before_point (price : string) : string :=
  spec_digits (spec_before_decimal_point price).

(** ** Requests that are accepted one after the other *)

(** Sent from the trace [t] on, each of the stock requests for [chunks] is
    accepted by Ozon at the moment it is made. *)
Fixpoint seller_stock_requests_accepted (w : seller.world)
    (client_id seller_token : string) (t : list seller.event)
    (chunks : list (list seller.stock_item)) : Prop :=
  match chunks with
  | [] => True
  | some_stock :: rest =>
      seller.import_stocks_response w t some_stock client_id seller_token
      = Ok tt
      /\ seller_stock_requests_accepted w client_id seller_token
           (t ++ [seller.ImportStocksRequest some_stock client_id
                    seller_token])
           rest
  end.

(** ** Sample data *)

(** The supplier record and the known offer ids of the end-to-end example. *)
Definition sample_watch : watch :=
  {| Kod := "A1"; Kolichestvo := ">10"; Tsena := "100.00" |}.

Definition sample_offer_ids : list string := ["A1"; "B2"].

(** Two supplier records with one code. *)
Definition twin_watches : list watch :=
  [{| Kod := "A1"; Kolichestvo := "5"; Tsena := "100.00" |};
   {| Kod := "A1"; Kolichestvo := "7"; Tsena := "120.00" |}].

(** An Ozon shop with the two sample offers on one page, a supplier sheet with
    the sample record, and requests that succeed. *)
Definition sample_seller_world : seller.world :=
  {| seller.product_list_response := fun _ _ _ _ =>
       Ok {| seller.result_items :=
               [{| seller.product_offer_id := "A1" |};
                {| seller.product_offer_id := "B2" |}];
             seller.result_total := 2;
             seller.result_last_id := "WzIsMl0=" |};
     seller.import_prices_response := fun _ _ _ _ => Ok tt;
     seller.import_stocks_response := fun _ _ _ _ => Ok tt;
     seller.download_stock_response := fun _ => Ok [sample_watch] |}.

(** The two sample offers on two pages of one item each. *)
Definition first_seller_page : seller.product_list_result :=
  {| seller.result_items := [{| seller.product_offer_id := "A1" |}];
     seller.result_total := 2;
     seller.result_last_id := "p1" |}.

Definition second_seller_page : seller.product_list_result :=
  {| seller.result_items := [{| seller.product_offer_id := "B2" |}];
     seller.result_total := 2;
     seller.result_last_id := "p2" |}.

Definition paged_seller_world : seller.world :=
  {| seller.product_list_response := fun _ last_id _ _ =>
       if last_id =? "" then Ok first_seller_page else Ok second_seller_page;
     seller.import_prices_response := fun _ _ _ _ => Ok tt;
     seller.import_stocks_response := fun _ _ _ _ => Ok tt;
     seller.download_stock_response := fun _ => Ok [sample_watch] |}.

(** The same shop, with a second page that times out. *)
Definition failing_seller_world : seller.world :=
  {| seller.product_list_response := fun _ last_id _ _ =>
       if last_id =? "" then Ok first_seller_page else Raise ReadTimeout;
     seller.import_prices_response := fun _ _ _ _ => Ok tt;
     seller.import_stocks_response := fun _ _ _ _ => Ok tt;
     seller.download_stock_response := fun _ => Ok [sample_watch] |}.

Definition first_market_page : market.offer_mapping_result :=
  {| market.offerMappingEntries :=
       [{| market.offer := {| market.shopSku := "A1" |} |}];
     market.paging := {| market.nextPageToken := Some "p1" |} |}.

Definition second_market_page : market.offer_mapping_result :=
  {| market.offerMappingEntries :=
       [{| market.offer := {| market.shopSku := "B2" |} |}];
     market.paging := {| market.nextPageToken := None |} |}.

Definition paged_market_world : market.world :=
  {| market.offer_mapping_response := fun _ page _ _ =>
       if page =? "" then Ok first_market_page else Ok second_market_page;
     market.stocks_response := fun _ _ _ _ => Ok tt;
     market.prices_response := fun _ _ _ _ => Ok tt;
     market.download_stock_response := fun _ => Ok [sample_watch];
     market.utcnow := fun _ => "2024-01-01T00:00:00Z" |}.

Definition failing_market_world : market.world :=
  {| market.offer_mapping_response := fun _ page _ _ =>
       if page =? "" then Ok first_market_page else Raise HTTPError;
     market.stocks_response := fun _ _ _ _ => Ok tt;
     market.prices_response := fun _ _ _ _ => Ok tt;
     market.download_stock_response := fun _ => Ok [sample_watch];
     market.utcnow := fun _ => "2024-01-01T00:00:00Z" |}.

(** The same shop on a day when the supplier's site cannot be reached. *)
Definition offline_supplier_world : market.world :=
  {| market.offer_mapping_response := fun _ page _ _ =>
       if page =? "" then Ok first_market_page else Ok second_market_page;
     market.stocks_response := fun _ _ _ _ => Ok tt;
     market.prices_response := fun _ _ _ _ => Ok tt;
     market.download_stock_response := fun _ => Raise ConnectionError;
     market.utcnow := fun _ => "2024-01-01T00:00:00Z" |}.

(** The Ozon shop on such a day. *)
Definition offline_seller_world : seller.world :=
  {| seller.product_list_response := fun _ last_id _ _ =>
       if last_id =? "" then Ok first_seller_page else Ok second_seller_page;
     seller.import_prices_response := fun _ _ _ _ => Ok tt;
     seller.import_stocks_response := fun _ _ _ _ => Ok tt;
     seller.download_stock_response := fun _ => Raise ConnectionError |}.

(** An Ozon shop that keeps answering with an empty page and a total of
    five. *)
Definition stalled_seller_world : seller.world :=
  {| seller.product_list_response := fun _ _ _ _ =>
       Ok {| seller.result_items := [];
             seller.result_total := 5;
             seller.result_last_id := "" |};
     seller.import_prices_response := fun _ _ _ _ => Ok tt;
     seller.import_stocks_response := fun _ _ _ _ => Ok tt;
     seller.download_stock_response := fun _ => Ok [sample_watch] |}.

(** A Yandex Market shop whose every page names a next page. *)
Definition endless_market_world : market.world :=
  {| market.offer_mapping_response := fun _ _ _ _ => Ok first_market_page;
     market.stocks_response := fun _ _ _ _ => Ok tt;
     market.prices_response := fun _ _ _ _ => Ok tt;
     market.download_stock_response := fun _ => Ok [sample_watch];
     market.utcnow := fun _ => "2024-01-01T00:00:00Z" |}.

(** The stock list of the sample record and offer ids. *)
Definition sample_stocks : list seller.stock_item :=
  [{| seller.offer_id := "A1"; seller.stock := 100 |};
   {| seller.offer_id := "B2"; seller.stock := 0 |}].

(** A sheet whose only row has a quantity that is no number. *)
Definition bad_quantity_watch : watch :=
  {| Kod := "A1"; Kolichestvo := "many"; Tsena := "100.00" |}.

Definition bad_quantity_market_world : market.world :=
  {| market.offer_mapping_response :=
       market.offer_mapping_response paged_market_world;
     market.stocks_response := fun _ _ _ _ => Ok tt;
     market.prices_response := fun _ _ _ _ => Ok tt;
     market.download_stock_response := fun _ => Ok [bad_quantity_watch];
     market.utcnow := fun _ => "2024-01-01T00:00:00Z" |}.

(** A larger Ozon shop: 250 offers, the first of them listed twice. *)
Definition large_offer_ids : list string :=
  "A1" :: "A1" :: repeat "B2" 248.

Definition large_stocks : list seller.stock_item :=
  {| seller.offer_id := "A1"; seller.stock := 100 |}
  :: {| seller.offer_id := "A1"; seller.stock := 0 |}
  :: repeat {| seller.offer_id := "B2"; seller.stock := 0 |} 248.

Definition is_stock_request (ev : seller.event) : bool :=
  match ev with
  | seller.ImportStocksRequest _ _ _ => true
  | _ => false
  end.

(** Ozon accepts the first stock request and cannot be reached after it. *)
Definition flaky_seller_world : seller.world :=
  {| seller.product_list_response := fun _ _ _ _ =>
       Ok {| seller.result_items :=
               map (fun offer_id => {| seller.product_offer_id := offer_id |})
                   large_offer_ids;
             seller.result_total := 250;
             seller.result_last_id := "" |};
     seller.import_prices_response := fun _ _ _ _ => Ok tt;
     seller.import_stocks_response := fun t _ _ _ =>
       if existsb is_stock_request t then Raise ConnectionError else Ok tt;
     seller.download_stock_response := fun _ => Ok [sample_watch] |}.

(** * Properties *)
Example price_conversion_plain : price_conversion "100.00" = "100".
Proof. reflexivity. Qed.

Example price_conversion_no_point : price_conversion "12 345" = "12345".
Proof. reflexivity. Qed.

Example price_conversion_second_point : price_conversion "1.2.3" = "1".
Proof. reflexivity. Qed.

Example py_int_examples :
  py_int "15" = Ok 15%Z /\ py_int " -7 " = Ok (-7)%Z /\ py_int "1_000" = Ok 1000%Z
  /\ py_int "" = Raise ValueError /\ py_int ">10" = Raise ValueError
  /\ py_int "1__0" = Raise ValueError /\ py_int "007" = Ok 7%Z.
Proof. repeat split. Qed.

(** [int] on white space and digits outside ASCII, on the control
    characters that only [str.strip] takes for white space, and at the limit
    on the number of digits. *)
Example py_int_unicode_examples :
  py_int "٣" = Ok 3%Z
  /\ py_int "१२३" = Ok 123%Z
  /\ py_int (String (ascii_of_nat 194) (String (ascii_of_nat 160) "5"))
     = Ok 5%Z
  /\ py_int (String (ascii_of_nat 28) "5") = Raise ValueError
  /\ py_int "5é" = Raise ValueError
  /\ py_int (string_of_list_ascii (repeat "0"%char 4300)) = Ok 0%Z
  /\ py_int (string_of_list_ascii (repeat "0"%char 4301)) = Raise ValueError.
Proof. repeat split; vm_compute; reflexivity. Qed.

(** ** Facts about the string functions *)

Lemma py_split_not_nil (sep : ascii) (s : string) : py_split sep s <> [].
Proof.
  destruct s as [|c s]; simpl; [discriminate|].
  destruct (Ascii.eqb c sep); [discriminate|].
  destruct (py_split sep s); discriminate.
Qed.

Lemma py_split_digits (s : string) :
  digits_only s = true -> py_split "." s = [s].
Proof.
  induction s as [|c s IH]; simpl; intros H; [reflexivity|].
  apply andb_true_iff in H as [Hc Hs].
  destruct (Ascii.eqb c ".") eqn:E.
  - apply Ascii.eqb_eq in E; subst c; discriminate Hc.
  - rewrite (IH Hs); reflexivity.
Qed.

Lemma re_sub_non_digits_digits (s : string) :
  digits_only s = true -> re_sub_non_digits s = s.
Proof.
  induction s as [|c s IH]; simpl; intros H; [reflexivity|].
  apply andb_true_iff in H as [Hc Hs].
  rewrite Hc, (IH Hs); reflexivity.
Qed.

Lemma re_sub_non_digits_only (s : string) :
  digits_only (re_sub_non_digits s) = true.
Proof.
  induction s as [|c s IH]; simpl; [reflexivity|].
  destruct (is_digit c) eqn:E; simpl; [rewrite E|]; exact IH.
Qed.

Lemma price_conversion_digits_only (price : string) :
  digits_only (price_conversion price) = true.
Proof. apply re_sub_non_digits_only. Qed.

Lemma price_conversion_fixes_digits (s : string) :
  digits_only s = true -> price_conversion s = s.
Proof.
  intros H; unfold price_conversion.
  rewrite (py_split_digits s H); simpl.
  apply re_sub_non_digits_digits, H.
Qed.

(** Idempotence proper: converting a converted price changes nothing. *)
Lemma price_conversion_idempotent (price : string) :
  price_conversion (price_conversion price) = price_conversion price.
Proof. apply price_conversion_fixes_digits, price_conversion_digits_only. Qed.

(** C4. [price_conversion] turns "5'990.00 руб." into "5990", and it returns
    every string made of digits only (such as "5990") as it is. *)
Theorem price_conversion_example_and_digits :
  price_conversion "5'990.00 руб." = "5990"
  /\ forall s : string, digits_only s = true -> price_conversion s = s.
Proof.
  split; [vm_compute; reflexivity|].
  exact price_conversion_fixes_digits.
Qed.

Lemma price_conversion_example_and_digits_witness :
  digits_only "5990" = true /\ price_conversion "5990" = "5990".
Proof.
  split; [reflexivity|].
  apply (proj2 price_conversion_example_and_digits "5990"); reflexivity.
Defined.

(** ** [divide] *)

Section Divide.
Context {A : Type}.
Implicit Types (lst : list A) (n k m : nat).


Lemma py_slice_chunk lst (i n : Z) :
  (0 <= i)%Z -> (0 < n)%Z ->
  py_slice lst i (i + n) = firstn (Z.to_nat n) (skipn (Z.to_nat i) lst).
Proof.
  intros Hi Hn; unfold py_slice.
  destruct (Z.ltb_spec i 0); [lia|].
  destruct (Z.ltb_spec (i + n) 0); [lia|].
  destruct (Z.le_gt_cases i (Z.of_nat (List.length lst))) as [Hle|Hgt].
  - rewrite (Z.min_l i) by lia.
    destruct (Z.le_gt_cases (i + n) (Z.of_nat (List.length lst))).
    + rewrite Z.min_l by lia. f_equal; lia.
    + rewrite Z.min_r by lia.
      rewrite !firstn_all2; [reflexivity| |]; rewrite length_skipn; lia.
  - rewrite (Z.min_r i) by lia.
    rewrite (skipn_all2 lst (n := Z.to_nat (Z.of_nat (List.length lst)))) by lia.
    rewrite (skipn_all2 lst (n := Z.to_nat i)) by lia.
    now rewrite !firstn_nil.
Qed.

Lemma divide_chunks_nat lst n :
  0 < n ->
  divide lst (Z.of_nat n) =
  Ok (map (fun k => firstn n (skipn (k * n) lst))
          (seq 0 (Z.to_nat (range_length 0 (Z.of_nat (List.length lst))
                                         (Z.of_nat n))))).
Proof.
  intros Hn; unfold divide, py_range.
  destruct (Z.eqb_spec (Z.of_nat n) 0); [lia|]; simpl.
  f_equal. rewrite map_map. apply map_ext; intros k.
  rewrite py_slice_chunk by lia.
  f_equal; [lia|]. f_equal; lia.
Qed.

Lemma range_length_ceiling (len n : nat) :
  0 < n ->
  let m := Z.to_nat (range_length 0 (Z.of_nat len) (Z.of_nat n)) in
  len <= m * n /\ (0 < m -> (m - 1) * n < len) /\ (len = 0 -> m = 0).
Proof.
  intros Hn m; subst m; unfold range_length.
  destruct (Z.ltb_spec 0 (Z.of_nat n)); [|lia].
  destruct (Z.ltb_spec 0 (Z.of_nat len)).
  - rewrite Z.sub_0_r.
    set (q := ((Z.of_nat len - 1) / Z.of_nat n)%Z).
    assert (Hq : (0 <= q)%Z) by (apply Z.div_pos; lia).
    pose proof (Z.div_mod (Z.of_nat len - 1) (Z.of_nat n) ltac:(lia)) as Hd.
    pose proof (Z.mod_pos_bound (Z.of_nat len - 1) (Z.of_nat n) ltac:(lia)) as Hm.
    fold q in Hd.
    replace (Z.to_nat (q + 1)) with (S (Z.to_nat q)) by lia.
    split; [|split; [|lia]].
    + apply Nat2Z.inj_le. rewrite Nat2Z.inj_mul, Nat2Z.inj_succ, Z2Nat.id by lia. nia.
    + intros _. apply Nat2Z.inj_lt.
      replace (S (Z.to_nat q) - 1) with (Z.to_nat q) by lia.
      rewrite Nat2Z.inj_mul, Z2Nat.id by lia. nia.
  - simpl. repeat split; lia.
Qed.

Lemma concat_chunks lst n m :
  List.concat (map (fun k => firstn n (skipn (k * n) lst)) (seq 0 m)) = firstn (m * n) lst.
Proof.
  induction m as [|m IH]; [reflexivity|].
  rewrite seq_S, map_app, concat_app, IH; simpl.
  rewrite app_nil_r.
  rewrite <- (firstn_skipn (m * n) (firstn (n + m * n) lst)).
  rewrite firstn_firstn, Nat.min_l by lia.
  f_equal. rewrite firstn_skipn_comm. f_equal. f_equal; lia.
Qed.

Lemma length_chunk lst n k :
  List.length (firstn n (skipn (k * n) lst)) = Nat.min n (List.length lst - k * n).
Proof. now rewrite length_firstn, length_skipn. Qed.

(** A positive chunk size: [divide] returns, and the chunks put together are
    the list. *)
Lemma divide_concat lst (n : Z) :
  (0 < n)%Z ->
  exists chunks, divide lst n = Ok chunks /\ List.concat chunks = lst.
Proof.
  intros Hn.
  assert (Hn' : 0 < Z.to_nat n) by lia.
  pose proof (divide_chunks_nat lst (Z.to_nat n) Hn') as Hd.
  pose proof (range_length_ceiling (List.length lst) (Z.to_nat n) Hn') as Hm.
  rewrite Z2Nat.id in Hd, Hm by lia.
  simpl in Hm. destruct Hm as (Hcover & _).
  eexists; split; [exact Hd|].
  rewrite concat_chunks. apply firstn_all2; lia.
Qed.

End Divide.

(** C5. For a chunk size [n > 0], [divide lst n] returns chunks that put
    together give [lst] back, none longer than [n] and all but possibly the
    last of exactly [n] elements; 2500 elements in chunks of 1000 give chunks
    of 1000, 1000 and 500 elements. *)
Theorem divide_spec :
  forall (A : Type) (lst : list A) (n : Z),
    (0 < n)%Z ->
    exists chunks : list (list A),
      divide lst n = Ok chunks
      /\ List.concat chunks = lst
      /\ Forall (fun c => (Z.of_nat (List.length c) <= n)%Z) chunks
      /\ (forall i c, nth_error chunks i = Some c -> S i < List.length chunks ->
                      Z.of_nat (List.length c) = n)
      /\ (List.length lst = 2500 -> n = 1000%Z ->
          map (@List.length A) chunks = [1000; 1000; 500]).
Proof.
  intros A lst n Hn.
  assert (Hn' : 0 < Z.to_nat n) by lia.
  pose proof (divide_chunks_nat lst (Z.to_nat n) Hn') as Hd.
  pose proof (range_length_ceiling (List.length lst) (Z.to_nat n) Hn') as Hm.
  rewrite Z2Nat.id in Hd, Hm by lia.
  set (m := Z.to_nat (range_length 0 (Z.of_nat (List.length lst)) n)) in *.
  simpl in Hm. destruct Hm as (Hcover & Hfull & _).
  eexists; split; [exact Hd|].
  split; [|split; [|split]].
  - rewrite concat_chunks. apply firstn_all2; lia.
  - apply Forall_forall; intros c Hc.
    apply in_map_iff in Hc as (k & <- & _).
    rewrite length_chunk; lia.
  - intros i c Hi Hlast.
    rewrite length_map, length_seq in Hlast.
    rewrite nth_error_map in Hi.
    destruct (nth_error (seq 0 m) i) as [k|] eqn:Hk; [|discriminate].
    assert (Hik : k = i).
    { pose proof (nth_error_nth' (seq 0 m) 0 (n := i)) as Hnth.
      rewrite length_seq in Hnth. rewrite Hnth in Hk by lia.
      rewrite seq_nth in Hk by lia. now inversion Hk. }
    subst k. inversion Hi; subst c. rewrite length_chunk.
    assert ((S i) * Z.to_nat n <= (m - 1) * Z.to_nat n)
      by (apply Nat.mul_le_mono_r; lia).
    simpl in H. lia.
  - intros Hlen ->. subst m. rewrite Hlen.
    rewrite map_map.
    erewrite map_ext by (intros k; apply length_chunk).
    rewrite Hlen. vm_compute. reflexivity.
Qed.

Lemma divide_spec_witness :
  (0 < 2)%Z /\
  exists chunks : list (list nat),
    divide [1; 2; 3; 4; 5] 2 = Ok chunks
    /\ List.concat chunks = [1; 2; 3; 4; 5]
    /\ Forall (fun c => (Z.of_nat (List.length c) <= 2)%Z) chunks
    /\ (forall i c, nth_error chunks i = Some c -> S i < List.length chunks ->
                    Z.of_nat (List.length c) = 2%Z)
    /\ (List.length [1; 2; 3; 4; 5] = 2500 -> 2%Z = 1000%Z ->
        map (@List.length nat) chunks = [1000; 1000; 500]).
Proof.
  split; [lia|].
  apply (divide_spec nat [1; 2; 3; 4; 5] 2). lia.
Defined.

Example divide_five_by_two :
  divide [1; 2; 3; 4; 5] 2 = Ok [[1; 2]; [3; 4]; [5]].
Proof. reflexivity. Qed.

Example divide_zero_step : divide [1; 2; 3] 0 = Raise ValueError.
Proof. reflexivity. Qed.

Example divide_negative_step : divide [1; 2; 3] (-1) = Ok [].
Proof. reflexivity. Qed.

Example divide_empty : divide (@nil nat) 900 = Ok [].
Proof. reflexivity. Qed.

Example divide_2500_by_1000 :
  match divide (repeat tt 2500) 1000 with
  | Ok chunks => map (@List.length unit) chunks = [1000; 1000; 500]
  | Raise _ => False
  end.
Proof. vm_compute. reflexivity. Qed.

(** ** The offer-id list *)

Lemma py_in_In (x : string) (l : list string) : py_in x l = true <-> In x l.
Proof.
  unfold py_in. rewrite existsb_exists. split.
  - intros (y & Hy & E). apply String.eqb_eq in E. now subst.
  - intros H. exists x. split; [exact H | apply String.eqb_refl].
Qed.

Lemma py_in_false (x : string) (l : list string) :
  py_in x l = false <-> ~ In x l.
Proof.
  rewrite <- py_in_In. destruct (py_in x l); split; congruence.
Qed.

Lemma list_remove_ok (x : string) (l : list string) :
  In x l -> exists l', list_remove x l = Ok l'.
Proof.
  induction l as [|y l IH]; simpl; [tauto|]. intros H.
  destruct (String.eqb_spec y x) as [->|Hne]; [eauto|].
  destruct IH as (l' & ->); [intuition congruence | eauto].
Qed.

Lemma list_remove_perm (x : string) (l l' : list string) :
  list_remove x l = Ok l' -> Permutation l (x :: l').
Proof.
  revert l'; induction l as [|y l IH]; simpl; intros l' H; [discriminate|].
  destruct (String.eqb_spec y x) as [->|Hne].
  - inversion H; subst; reflexivity.
  - destruct (list_remove x l) as [r|e]; inversion H; subst.
    rewrite (IH r eq_refl). apply perm_swap.
Qed.

Lemma list_remove_count (x y : string) (l l' : list string) :
  list_remove x l = Ok l' ->
  count_occ string_dec l y =
  (if string_dec x y then 1 else 0) + count_occ string_dec l' y.
Proof.
  intros H.
  pose proof (list_remove_perm _ _ _ H) as P.
  rewrite (proj1 (Permutation_count_occ string_dec _ _) P y). simpl.
  destruct (string_dec x y); reflexivity.
Qed.

Lemma list_remove_nodup (x : string) (l l' : list string) :
  NoDup l -> list_remove x l = Ok l' ->
  NoDup l' /\ l' = filter (fun y => negb (y =? x)) l.
Proof.
  revert l'; induction l as [|y l IH]; simpl; intros l' ND H; [discriminate|].
  inversion ND as [|? ? Hy ND']; subst.
  destruct (String.eqb_spec y x) as [->|Hne]; simpl.
  - inversion H; subst. split; [assumption|].
    symmetry. apply forallb_filter_id, forallb_forall. intros z Hz.
    apply negb_true_iff.
    destruct (String.eqb_spec z x); [subst; contradiction | reflexivity].
  - destruct (list_remove x l) as [r|e] eqn:E; inversion H; subst.
    destruct (IH r ND' eq_refl) as (NDr & Er). split.
    + constructor; [|assumption]. rewrite Er, filter_In. tauto.
    + now rewrite <- Er.
Qed.

(** ** The stock plan *)

(** Both [create_stocks] build their dictionaries from the plan. *)
Lemma seller_create_stocks_loop_plan watch_remnants plan offer_ids :
  seller.create_stocks_loop watch_remnants (map seller_stock_item plan) offer_ids
  = map_outcome seller_stock_item (stock_plan_loop watch_remnants plan offer_ids).
Proof.
  revert plan offer_ids.
  induction watch_remnants as [|watch rest IH]; intros plan offer_ids; simpl;
    [reflexivity|].
  destruct (py_in (Kod watch) offer_ids); [|apply IH].
  unfold quantity_stock.
  destruct (if Kolichestvo watch =? ">10" then _ else _) as [z|e];
    [|reflexivity].
  destruct (list_remove (Kod watch) offer_ids) as [ids|e]; [|reflexivity].
  rewrite <- IH, map_app. reflexivity.
Qed.

Lemma seller_create_stocks_plan watch_remnants offer_ids :
  seller.create_stocks watch_remnants offer_ids
  = map_outcome seller_stock_item (stock_plan watch_remnants offer_ids).
Proof.
  unfold seller.create_stocks, stock_plan.
  pose proof (seller_create_stocks_loop_plan watch_remnants [] offer_ids)
    as Hloop.
  simpl in Hloop; rewrite Hloop.
  destruct (stock_plan_loop watch_remnants [] offer_ids) as [[plan|e] ids];
    simpl; [|reflexivity].
  now rewrite map_app, map_map.
Qed.

Lemma market_create_stocks_loop_plan date watch_remnants plan offer_ids wh :
  market.create_stocks_loop date watch_remnants
    (map (market_sku_stock date wh) plan) offer_ids wh
  = map_outcome (market_sku_stock date wh)
      (stock_plan_loop watch_remnants plan offer_ids).
Proof.
  revert plan offer_ids.
  induction watch_remnants as [|watch rest IH]; intros plan offer_ids; simpl;
    [reflexivity|].
  destruct (py_in (Kod watch) offer_ids); [|apply IH].
  unfold quantity_stock.
  destruct (if Kolichestvo watch =? ">10" then _ else _) as [z|e];
    [|reflexivity].
  destruct (list_remove (Kod watch) offer_ids) as [ids|e]; [|reflexivity].
  rewrite <- IH, map_app. reflexivity.
Qed.

Lemma market_create_stocks_plan date watch_remnants offer_ids wh :
  market.create_stocks date watch_remnants offer_ids wh
  = map_outcome (market_sku_stock date wh) (stock_plan watch_remnants offer_ids).
Proof.
  unfold market.create_stocks, stock_plan.
  pose proof (market_create_stocks_loop_plan date watch_remnants [] offer_ids wh)
    as Hloop.
  simpl in Hloop; rewrite Hloop.
  destruct (stock_plan_loop watch_remnants [] offer_ids) as [[plan|e] ids];
    simpl; [|reflexivity].
  now rewrite map_app, map_map.
Qed.

Lemma map_outcome_ok {A B : Type} (f : A -> B) outcome out ids :
  map_outcome f outcome = (Ok out, ids) ->
  exists plan, outcome = (Ok plan, ids) /\ out = map f plan.
Proof.
  destruct outcome as [[plan|e] ids0]; simpl; intros H; inversion H; eauto.
Qed.

(** One round of the loop, when the code is in the list. *)
Ltac loop_step watch offer_ids :=
  simpl;
  let Hin := fresh "Hin" in
  destruct (py_in (Kod watch) offer_ids) eqn:Hin;
  [ let z := fresh "z" in
    let Hq := fresh "Hq" in
    let ids1 := fresh "ids1" in
    let Hrm := fresh "Hrm" in
    destruct (quantity_stock (Kolichestvo watch)) as [z|?] eqn:Hq;
    [ destruct (list_remove (Kod watch) offer_ids) as [ids1|?] eqn:Hrm | ]
  | ].

Lemma stock_plan_loop_app pre post plan offer_ids :
  stock_plan_loop (pre ++ post) plan offer_ids =
  match stock_plan_loop pre plan offer_ids with
  | (Ok plan', offer_ids') => stock_plan_loop post plan' offer_ids'
  | (Raise e, offer_ids') => (Raise e, offer_ids')
  end.
Proof.
  revert plan offer_ids.
  induction pre as [|watch pre IH]; intros plan offer_ids; [reflexivity|].
  loop_step watch offer_ids; auto.
Qed.

(** The plan only grows. *)
Lemma stock_plan_loop_keeps w plan offer_ids plan' ids' entry :
  stock_plan_loop w plan offer_ids = (Ok plan', ids') ->
  In entry plan -> In entry plan'.
Proof.
  revert plan offer_ids.
  induction w as [|watch w IH]; intros plan offer_ids.
  - simpl; intros H; inversion H; subst; auto.
  - loop_step watch offer_ids; intros H Hentry; try discriminate.
    + eapply IH; [exact H|]. apply in_or_app; auto.
    + eapply IH; eauto.
Qed.

(** The offer ids of the plan and the ids left are the ids given. *)
Lemma stock_plan_loop_perm w plan offer_ids plan' ids' :
  stock_plan_loop w plan offer_ids = (Ok plan', ids') ->
  Permutation (map fst plan' ++ ids') (map fst plan ++ offer_ids).
Proof.
  revert plan offer_ids.
  induction w as [|watch w IH]; intros plan offer_ids.
  - simpl; intros H; inversion H; subst; reflexivity.
  - loop_step watch offer_ids; intros H; try discriminate.
    + rewrite (IH _ _ H), map_app, <- app_assoc. simpl.
      apply Permutation_app_head. symmetry. now apply list_remove_perm.
    + apply (IH _ _ H).
Qed.

(** What is left of each offer id. *)
Lemma stock_plan_loop_count w plan offer_ids plan' ids' x :
  stock_plan_loop w plan offer_ids = (Ok plan', ids') ->
  count_occ string_dec ids' x
  = count_occ string_dec offer_ids x - count_occ string_dec (map Kod w) x.
Proof.
  revert plan offer_ids.
  induction w as [|watch w IH]; intros plan offer_ids.
  - simpl; intros H; inversion H; subst; lia.
  - loop_step watch offer_ids; intros H; try discriminate.
    + rewrite (IH _ _ H), (list_remove_count _ x _ _ Hrm).
      destruct (string_dec (Kod watch) x); lia.
    + rewrite (IH _ _ H).
      destruct (string_dec (Kod watch) x) as [<-|]; [|reflexivity].
      apply py_in_false in Hin.
      apply (count_occ_not_In string_dec) in Hin. lia.
Qed.

(** Where the entries of the plan come from. *)
Lemma stock_plan_loop_origin w plan offer_ids plan' ids' entry :
  stock_plan_loop w plan offer_ids = (Ok plan', ids') ->
  In entry plan' ->
  In entry plan \/
  exists watch, In watch w /\ fst entry = Kod watch
                /\ quantity_stock (Kolichestvo watch) = Ok (snd entry).
Proof.
  revert plan offer_ids.
  induction w as [|watch w IH]; intros plan offer_ids.
  - simpl; intros H; inversion H; subst; auto.
  - loop_step watch offer_ids; intros H Hentry; try discriminate.
    + destruct (IH _ _ H Hentry) as [Hold|(w0 & Hw0 & Hrest)].
      * apply in_app_or in Hold as [Hold|[<-|[]]]; [auto|].
        right. exists watch. simpl. auto.
      * right. exists w0. simpl. auto.
    + destruct (IH _ _ H Hentry) as [Hold|(w0 & Hw0 & Hrest)]; [auto|].
      right. exists w0. simpl. auto.
Qed.

(** The loop returns when every quantity it reads can be translated. *)
Lemma stock_plan_loop_returns w plan offer_ids :
  (forall watch, In watch w ->
                 exists z, quantity_stock (Kolichestvo watch) = Ok z) ->
  exists plan' ids', stock_plan_loop w plan offer_ids = (Ok plan', ids').
Proof.
  revert plan offer_ids.
  induction w as [|watch w IH]; intros plan offer_ids Hq; [simpl; eauto|].
  assert (Hw : forall w0, In w0 w ->
                          exists z, quantity_stock (Kolichestvo w0) = Ok z)
    by (intros; apply Hq; simpl; auto).
  destruct (Hq watch) as (z0 & Hz0); [simpl; auto|].
  loop_step watch offer_ids; auto; try congruence.
  apply py_in_In, (list_remove_ok (Kod watch)) in Hin as (l' & El').
  congruence.
Qed.

Lemma filter_twice {A : Type} (f g : A -> bool) (l : list A) :
  filter f (filter g l) = filter (fun x => g x && f x) l.
Proof.
  induction l as [|x l IH]; simpl; [reflexivity|].
  destruct (g x); simpl; [destruct (f x)|]; now rewrite IH.
Qed.

(** With distinct offer ids, the ids left are the unmatched ones, in order. *)
Lemma stock_plan_loop_unmatched w plan offer_ids plan' ids' :
  NoDup offer_ids ->
  stock_plan_loop w plan offer_ids = (Ok plan', ids') ->
  ids' = unmatched w offer_ids.
Proof.
  unfold unmatched. revert plan offer_ids.
  induction w as [|watch w IH]; intros plan offer_ids ND.
  - simpl; intros H; inversion H; subst.
    symmetry. apply forallb_filter_id, forallb_forall. reflexivity.
  - loop_step watch offer_ids; intros H; try discriminate.
    + destruct (list_remove_nodup _ _ _ ND Hrm) as (ND1 & E1).
      rewrite (IH _ _ ND1 H), E1, filter_twice.
      apply filter_ext; intros y. simpl.
      now destruct (y =? Kod watch)%string.
    + rewrite (IH _ _ ND H).
      apply filter_ext_in; intros y Hy. simpl.
      destruct (String.eqb_spec y (Kod watch)) as [->|]; [|reflexivity].
      apply py_in_false in Hin. contradiction.
Qed.

(** ** [create_stocks] *)

Lemma stock_plan_inv w ids plan ids' :
  stock_plan w ids = (Ok plan, ids') ->
  exists matched,
    stock_plan_loop w [] ids = (Ok matched, ids')
    /\ plan = matched ++ map (fun offer_id => (offer_id, 0%Z)) ids'.
Proof.
  unfold stock_plan.
  destruct (stock_plan_loop w [] ids) as [[matched|e] ids0]; intros H;
    inversion H; subst; eauto.
Qed.

Lemma stock_plan_offer_ids w ids plan ids' :
  stock_plan w ids = (Ok plan, ids') -> Permutation (map fst plan) ids.
Proof.
  intros H. apply stock_plan_inv in H as (matched & Hloop & ->).
  rewrite map_app, map_map; simpl. rewrite map_id.
  apply (stock_plan_loop_perm _ _ _ _ _ Hloop).
Qed.

Lemma stock_plan_zero w ids plan ids' entry :
  stock_plan w ids = (Ok plan, ids') ->
  In entry plan -> ~ In (fst entry) (map Kod w) -> snd entry = 0%Z.
Proof.
  intros H Hentry Hcode. apply stock_plan_inv in H as (matched & Hloop & ->).
  apply in_app_or in Hentry as [Hm|Hz].
  - destruct (stock_plan_loop_origin _ _ _ _ _ _ Hloop Hm)
      as [[]|(watch & Hw & Hk & _)].
    exfalso. apply Hcode. rewrite Hk. now apply in_map.
  - apply in_map_iff in Hz as (x & <- & _). reflexivity.
Qed.

Lemma stock_plan_emits pre watch post ids plan ids' :
  stock_plan (pre ++ watch :: post) ids = (Ok plan, ids') ->
  count_occ string_dec (map Kod pre) (Kod watch)
  < count_occ string_dec ids (Kod watch) ->
  exists z, quantity_stock (Kolichestvo watch) = Ok z
            /\ In (Kod watch, z) plan.
Proof.
  intros H Hleft. apply stock_plan_inv in H as (matched & Hloop & ->).
  rewrite stock_plan_loop_app in Hloop.
  destruct (stock_plan_loop pre [] ids) as [[plan1|e] ids1] eqn:Hpre;
    [|discriminate].
  pose proof (stock_plan_loop_count _ _ _ _ _ (Kod watch) Hpre) as Hcount.
  assert (Hin : py_in (Kod watch) ids1 = true).
  { apply py_in_In, (count_occ_In string_dec). lia. }
  simpl in Hloop. rewrite Hin in Hloop.
  destruct (quantity_stock (Kolichestvo watch)) as [z|e]; [|discriminate].
  destruct (list_remove (Kod watch) ids1) as [ids2|e]; [|discriminate].
  exists z. split; [reflexivity|].
  apply in_or_app. left.
  eapply stock_plan_loop_keeps; [exact Hloop|].
  apply in_or_app. right. simpl. auto.
Qed.

Lemma stock_plan_returns w ids :
  (forall watch, In watch w ->
                 exists z, quantity_stock (Kolichestvo watch) = Ok z) ->
  exists plan ids', stock_plan w ids = (Ok plan, ids').
Proof.
  intros Hq. unfold stock_plan.
  destruct (stock_plan_loop_returns w [] ids Hq) as (matched & ids' & ->).
  eauto.
Qed.

Lemma stock_plan_unmatched w ids plan ids' :
  NoDup ids -> stock_plan w ids = (Ok plan, ids') -> ids' = unmatched w ids.
Proof.
  intros ND H. apply stock_plan_inv in H as (matched & Hloop & _).
  apply (stock_plan_loop_unmatched _ _ _ _ _ ND Hloop).
Qed.

Lemma quantity_stock_table (count : string) (z : Z) :
  quantity_stock count = Ok z ->
  (count = ">10" -> z = 100%Z)
  /\ (count = "1" -> z = 0%Z)
  /\ (count <> ">10" -> count <> "1" -> py_int count = Ok z).
Proof.
  unfold quantity_stock.
  destruct (String.eqb_spec count ">10") as [->|H10].
  - intros H; inversion H; subst. repeat split; congruence.
  - destruct (String.eqb_spec count "1") as [->|H1].
    + intros H; inversion H; subst. repeat split; congruence.
    + intros H. repeat split; congruence.
Qed.

Lemma unmatched_none_left w ids :
  forall watch, In watch w -> ~ In (Kod watch) (unmatched w ids).
Proof.
  intros watch Hw Hin. apply filter_In in Hin as (_ & Hno).
  apply negb_true_iff, py_in_false in Hno. apply Hno. now apply in_map.
Qed.

Lemma seller_create_prices_nil w ids :
  (forall watch, In watch w -> ~ In (Kod watch) ids) ->
  seller.create_prices w ids = [].
Proof.
  induction w as [|watch w IH]; intros H; simpl; [reflexivity|].
  destruct (py_in (Kod watch) ids) eqn:Hin.
  - apply py_in_In in Hin. exfalso. apply (H watch); simpl; auto.
  - apply IH. intros w0 Hw0. apply H. simpl; auto.
Qed.

(** C1. When [create_stocks] returns, every offer id occurs in the stock
    update list as often as in the list of known offer ids, hence exactly once
    when the known ids are distinct; a record whose offer id is no supplier
    record's code has count 0. *)
Theorem create_stocks_offer_ids :
  (forall w ids out ids',
      seller.create_stocks w ids = (Ok out, ids') ->
      (forall x, count_occ string_dec (map seller.offer_id out) x
                 = count_occ string_dec ids x)
      /\ (NoDup ids -> forall x, In x ids ->
            count_occ string_dec (map seller.offer_id out) x = 1)
      /\ (forall item, In item out ->
            ~ In (seller.offer_id item) (map Kod w) ->
            seller.stock item = 0%Z))
  /\ (forall date w ids wh out ids',
      market.create_stocks date w ids wh = (Ok out, ids') ->
      (forall x, count_occ string_dec (map market.sku out) x
                 = count_occ string_dec ids x)
      /\ (NoDup ids -> forall x, In x ids ->
            count_occ string_dec (map market.sku out) x = 1)
      /\ (forall item, In item out ->
            ~ In (market.sku item) (map Kod w) ->
            sku_count item = Some 0%Z)).
Proof.
  assert (Hplan : forall w ids plan ids',
             stock_plan w ids = (Ok plan, ids') ->
             (forall x, count_occ string_dec (map fst plan) x
                        = count_occ string_dec ids x)
             /\ (NoDup ids -> forall x, In x ids ->
                   count_occ string_dec (map fst plan) x = 1)).
  { intros w ids plan ids' H.
    pose proof (stock_plan_offer_ids _ _ _ _ H) as P.
    assert (Hc : forall x, count_occ string_dec (map fst plan) x
                           = count_occ string_dec ids x)
      by (intros x; now apply Permutation_count_occ).
    split; [exact Hc|].
    intros ND x Hx. rewrite Hc.
    pose proof (proj1 (NoDup_count_occ string_dec ids) ND x).
    apply (count_occ_In string_dec) in Hx. lia. }
  split.
  - intros w ids out ids' H. rewrite seller_create_stocks_plan in H.
    apply map_outcome_ok in H as (plan & Hp & ->).
    destruct (Hplan _ _ _ _ Hp) as (Hc & H1).
    rewrite map_map; simpl. repeat split; auto.
    intros item Hitem Hcode. apply in_map_iff in Hitem as (entry & <- & He).
    apply (stock_plan_zero _ _ _ _ _ Hp He Hcode).
  - intros date w ids wh out ids' H. rewrite market_create_stocks_plan in H.
    apply map_outcome_ok in H as (plan & Hp & ->).
    destruct (Hplan _ _ _ _ Hp) as (Hc & H1).
    rewrite map_map; simpl. repeat split; auto.
    intros item Hitem Hcode. apply in_map_iff in Hitem as (entry & <- & He).
    unfold sku_count; simpl. f_equal.
    apply (stock_plan_zero _ _ _ _ _ Hp He Hcode).
Qed.

Lemma create_stocks_offer_ids_witness :
  seller.create_stocks [sample_watch] sample_offer_ids
  = (Ok [{| seller.offer_id := "A1"; seller.stock := 100 |};
         {| seller.offer_id := "B2"; seller.stock := 0 |}], ["B2"])
  /\ count_occ string_dec ["A1"; "B2"] "B2" = 1
  /\ seller.stock {| seller.offer_id := "B2"; seller.stock := 0 |} = 0%Z
  /\ sku_count (market_sku_stock "2024-01-01T00:00:00Z" "7" ("B2", 0%Z))
     = Some 0%Z.
Proof.
  split; [reflexivity|].
  destruct (proj1 create_stocks_offer_ids [sample_watch] sample_offer_ids
              _ _ eq_refl) as (_ & Honce & Hzero).
  destruct (proj2 create_stocks_offer_ids "2024-01-01T00:00:00Z"
              [sample_watch] sample_offer_ids "7" _ _ eq_refl)
    as (_ & _ & Hzero').
  split; [|split].
  - apply (Honce ltac:(repeat constructor; simpl; intuition discriminate) "B2").
    simpl; auto.
  - apply Hzero; simpl; [auto | intuition discriminate].
  - apply Hzero'; simpl; [auto | intuition discriminate].
Defined.

(** The end-to-end example of the stock transformer. *)
Example create_stocks_end_to_end :
  fst (seller.create_stocks [sample_watch] sample_offer_ids)
  = Ok [{| seller.offer_id := "A1"; seller.stock := 100 |};
        {| seller.offer_id := "B2"; seller.stock := 0 |}].
Proof. reflexivity. Qed.

(** An offer id listed twice is emitted twice. *)
Lemma create_stocks_repeated_offer_id :
  let ids := ["A1"; "A1"] in
  exists out ids',
    seller.create_stocks [] ids = (Ok out, ids')
    /\ In "A1" ids
    /\ count_occ string_dec (map seller.offer_id out) "A1" = 2
    /\ count_occ string_dec (map seller.offer_id out) "A1" <> 1.
Proof.
  simpl. do 2 eexists. split; [reflexivity|].
  split; [simpl; auto|]. split; [reflexivity | discriminate].
Qed.

(** A row whose code is no longer in the list changes nothing. *)
Lemma stock_plan_skips pre watch post ids :
  count_occ string_dec ids (Kod watch)
  <= count_occ string_dec (map Kod pre) (Kod watch) ->
  stock_plan (pre ++ watch :: post) ids = stock_plan (pre ++ post) ids.
Proof.
  intros Hgone. unfold stock_plan.
  rewrite !stock_plan_loop_app.
  destruct (stock_plan_loop pre [] ids) as [[plan1|e] ids1] eqn:Hpre;
    [|reflexivity].
  pose proof (stock_plan_loop_count _ _ _ _ _ (Kod watch) Hpre) as Hcount.
  assert (Hin : py_in (Kod watch) ids1 = false).
  { apply py_in_false. intros Hin.
    apply (count_occ_In string_dec) in Hin. lia. }
  simpl. now rewrite Hin.
Qed.

(** C2. When [create_stocks] returns, a supplier record whose code is still in
    the offer-id list when the loop reaches it (the list holds the code more
    often than the records before it carry it) gets a stock record with count
    100 for the quantity ">10", 0 for "1", and the integer the quantity parses
    to otherwise.  A record whose code is no longer in the list when the loop
    reaches it is skipped: [create_stocks] gives what it gives on the sheet
    without that record.  [create_stocks] returns when every quantity is
    ">10", "1" or parses. *)
Theorem create_stocks_quantity :
  (forall pre watch post ids out ids',
      seller.create_stocks (pre ++ watch :: post) ids = (Ok out, ids') ->
      count_occ string_dec (map Kod pre) (Kod watch)
      < count_occ string_dec ids (Kod watch) ->
      exists z,
        In {| seller.offer_id := Kod watch; seller.stock := z |} out
        /\ (Kolichestvo watch = ">10" -> z = 100%Z)
        /\ (Kolichestvo watch = "1" -> z = 0%Z)
        /\ (Kolichestvo watch <> ">10" -> Kolichestvo watch <> "1" ->
            py_int (Kolichestvo watch) = Ok z))
  /\ (forall date pre watch post ids wh out ids',
      market.create_stocks date (pre ++ watch :: post) ids wh = (Ok out, ids') ->
      count_occ string_dec (map Kod pre) (Kod watch)
      < count_occ string_dec ids (Kod watch) ->
      exists z,
        In {| market.sku := Kod watch;
              market.warehouseId := wh;
              market.items := [{| market.count := z;
                                  market.type_ := "FIT";
                                  market.updatedAt := date |}] |} out
        /\ (Kolichestvo watch = ">10" -> z = 100%Z)
        /\ (Kolichestvo watch = "1" -> z = 0%Z)
        /\ (Kolichestvo watch <> ">10" -> Kolichestvo watch <> "1" ->
            py_int (Kolichestvo watch) = Ok z))
  /\ (forall date wh pre watch post ids,
      count_occ string_dec ids (Kod watch)
      <= count_occ string_dec (map Kod pre) (Kod watch) ->
      seller.create_stocks (pre ++ watch :: post) ids
      = seller.create_stocks (pre ++ post) ids
      /\ market.create_stocks date (pre ++ watch :: post) ids wh
         = market.create_stocks date (pre ++ post) ids wh)
  /\ (forall date w ids wh,
      (forall watch, In watch w ->
         Kolichestvo watch = ">10" \/ Kolichestvo watch = "1"
         \/ exists z, py_int (Kolichestvo watch) = Ok z) ->
      (exists out ids', seller.create_stocks w ids = (Ok out, ids'))
      /\ (exists out ids', market.create_stocks date w ids wh = (Ok out, ids'))).
Proof.
  split; [|split; [|split]].
  - intros pre watch post ids out ids' H Hleft.
    rewrite seller_create_stocks_plan in H.
    apply map_outcome_ok in H as (plan & Hp & ->).
    destruct (stock_plan_emits _ _ _ _ _ _ Hp Hleft) as (z & Hq & Hin).
    exists z. split; [|now apply quantity_stock_table].
    apply (in_map seller_stock_item) in Hin. exact Hin.
  - intros date pre watch post ids wh out ids' H Hleft.
    rewrite market_create_stocks_plan in H.
    apply map_outcome_ok in H as (plan & Hp & ->).
    destruct (stock_plan_emits _ _ _ _ _ _ Hp Hleft) as (z & Hq & Hin).
    exists z. split; [|now apply quantity_stock_table].
    apply (in_map (market_sku_stock date wh)) in Hin. exact Hin.
  - intros date wh pre watch post ids Hgone.
    rewrite !seller_create_stocks_plan, !market_create_stocks_plan.
    now rewrite (stock_plan_skips _ _ _ _ Hgone).
  - intros date w ids wh Hq.
    assert (Hq' : forall watch, In watch w ->
                    exists z, quantity_stock (Kolichestvo watch) = Ok z).
    { intros watch Hw. unfold quantity_stock.
      destruct (String.eqb_spec (Kolichestvo watch) ">10"); [eauto|].
      destruct (String.eqb_spec (Kolichestvo watch) "1"); [eauto|].
      destruct (Hq watch Hw) as [E|[E|E]]; [contradiction|contradiction|exact E]. }
    destruct (stock_plan_returns w ids Hq') as (plan & ids' & Hp).
    rewrite seller_create_stocks_plan, market_create_stocks_plan, Hp.
    simpl. split; eauto.
Qed.

Lemma create_stocks_quantity_witness :
  seller.create_stocks ([] ++ sample_watch :: []) sample_offer_ids
  = (Ok [{| seller.offer_id := "A1"; seller.stock := 100 |};
         {| seller.offer_id := "B2"; seller.stock := 0 |}], ["B2"])
  /\ count_occ string_dec (map Kod []) (Kod sample_watch)
     < count_occ string_dec sample_offer_ids (Kod sample_watch)
  /\ (exists z,
        In {| seller.offer_id := "A1"; seller.stock := z |}
           [{| seller.offer_id := "A1"; seller.stock := 100 |};
            {| seller.offer_id := "B2"; seller.stock := 0 |}]
        /\ (Kolichestvo sample_watch = ">10" -> z = 100%Z)
        /\ (Kolichestvo sample_watch = "1" -> z = 0%Z)
        /\ (Kolichestvo sample_watch <> ">10" ->
            Kolichestvo sample_watch <> "1" ->
            py_int (Kolichestvo sample_watch) = Ok z))
  /\ seller.create_stocks
       ([{| Kod := "A1"; Kolichestvo := "5"; Tsena := "100.00" |}]
        ++ {| Kod := "A1"; Kolichestvo := "7"; Tsena := "120.00" |} :: [])
       ["A1"]
     = seller.create_stocks
         ([{| Kod := "A1"; Kolichestvo := "5"; Tsena := "100.00" |}] ++ [])
         ["A1"]
  /\ (exists out ids',
        seller.create_stocks [sample_watch] sample_offer_ids = (Ok out, ids')).
Proof.
  destruct create_stocks_quantity as (Hseller & _ & Hskip & Hreturns).
  split; [reflexivity|]. split; [vm_compute; lia|].
  split; [|split].
  - apply (Hseller [] sample_watch [] sample_offer_ids _ ["B2"] eq_refl).
    vm_compute; lia.
  - apply (Hskip "" "" [{| Kod := "A1"; Kolichestvo := "5";
                           Tsena := "100.00" |}]
             {| Kod := "A1"; Kolichestvo := "7"; Tsena := "120.00" |} []
             ["A1"]).
    vm_compute; lia.
  - apply (Hreturns "" [sample_watch] sample_offer_ids "").
    intros watch [<-|[]]. left. reflexivity.
Defined.

(** The second of two supplier records with one code gets no stock record. *)
Lemma create_stocks_second_record_skipped :
  let ids := ["A1"] in
  let second := {| Kod := "A1"; Kolichestvo := "7"; Tsena := "120.00" |} in
  exists out ids',
    seller.create_stocks twin_watches ids = (Ok out, ids')
    /\ In second twin_watches
    /\ In (Kod second) ids
    /\ py_int (Kolichestvo second) = Ok 7%Z
    /\ out = [{| seller.offer_id := "A1"; seller.stock := 5 |}]
    /\ ~ In {| seller.offer_id := "A1"; seller.stock := 7 |} out.
Proof.
  simpl. do 2 eexists. split; [reflexivity|].
  repeat split; simpl; auto.
  intros [H|[]]; discriminate.
Qed.

(** C9. When [create_stocks] returns, it has removed from a list of distinct
    offer ids exactly the ids that are some supplier record's code, and the
    rest is left in its order; whether the ids are distinct or not, an id that
    is no supplier record's code is left as often as it was there. *)
Theorem create_stocks_consumes_offer_ids :
  (forall w ids out ids',
      seller.create_stocks w ids = (Ok out, ids') ->
      (NoDup ids ->
       ids' = unmatched w ids
       /\ forall x, In x ids' <-> In x ids /\ ~ In x (map Kod w))
      /\ (forall x, ~ In x (map Kod w) ->
            count_occ string_dec ids' x = count_occ string_dec ids x))
  /\ (forall date w ids wh out ids',
      market.create_stocks date w ids wh = (Ok out, ids') ->
      (NoDup ids ->
       ids' = unmatched w ids
       /\ forall x, In x ids' <-> In x ids /\ ~ In x (map Kod w))
      /\ (forall x, ~ In x (map Kod w) ->
            count_occ string_dec ids' x = count_occ string_dec ids x)).
Proof.
  assert (Hplan : forall w ids plan ids',
             stock_plan w ids = (Ok plan, ids') ->
             (NoDup ids ->
              ids' = unmatched w ids
              /\ forall x, In x ids' <-> In x ids /\ ~ In x (map Kod w))
             /\ (forall x, ~ In x (map Kod w) ->
                   count_occ string_dec ids' x = count_occ string_dec ids x)).
  { intros w ids plan ids' Hp. split.
    - intros ND. pose proof (stock_plan_unmatched _ _ _ _ ND Hp) as ->.
      split; [reflexivity|]. intros x. unfold unmatched.
      rewrite filter_In, negb_true_iff, py_in_false. reflexivity.
    - intros x Hx. apply stock_plan_inv in Hp as (matched & Hloop & _).
      rewrite (stock_plan_loop_count _ _ _ _ _ x Hloop).
      apply (count_occ_not_In string_dec) in Hx. lia. }
  split.
  - intros w ids out ids' H. rewrite seller_create_stocks_plan in H.
    apply map_outcome_ok in H as (plan & Hp & _). eauto.
  - intros date w ids wh out ids' H. rewrite market_create_stocks_plan in H.
    apply map_outcome_ok in H as (plan & Hp & _). eauto.
Qed.

Lemma create_stocks_consumes_offer_ids_witness :
  seller.create_stocks [sample_watch] sample_offer_ids
  = (Ok [{| seller.offer_id := "A1"; seller.stock := 100 |};
         {| seller.offer_id := "B2"; seller.stock := 0 |}], ["B2"])
  /\ NoDup sample_offer_ids
  /\ ["B2"] = unmatched [sample_watch] sample_offer_ids
  /\ count_occ string_dec ["B2"] "B2"
     = count_occ string_dec sample_offer_ids "B2".
Proof.
  assert (ND : NoDup sample_offer_ids)
    by (repeat constructor; simpl; intuition discriminate).
  split; [reflexivity|]. split; [exact ND|].
  destruct (proj1 create_stocks_consumes_offer_ids [sample_watch]
              sample_offer_ids _ _ eq_refl) as (Hdistinct & Hkept).
  split.
  - apply (Hdistinct ND).
  - apply Hkept. simpl; intuition discriminate.
Defined.

(** Of an offer id listed twice and matched once, one copy is left. *)
Lemma create_stocks_leaves_matched_offer_id :
  let ids := ["A1"; "A1"] in
  exists out ids',
    seller.create_stocks [sample_watch] ids = (Ok out, ids')
    /\ ids' = ["A1"]
    /\ unmatched [sample_watch] ids = []
    /\ ids' <> unmatched [sample_watch] ids
    /\ In "A1" ids' /\ In "A1" (map Kod [sample_watch]).
Proof.
  simpl. do 2 eexists. split; [reflexivity|].
  repeat split; simpl; auto. discriminate.
Qed.

(** ** Traces of the computations *)

Section Emits.
Context {E : Type} (P : E -> Prop).

Lemma emits_ret {A : Type} (a : A) t : emits_from P (ret a) t.
Proof.
  intros r t' H. inversion H; subst. exists []. now rewrite app_nil_r.
Qed.

Lemma emits_lift {A : Type} (r : result A) t : emits_from P (lift r) t.
Proof.
  intros r' t' H. inversion H; subst. exists []. now rewrite app_nil_r.
Qed.

Lemma emits_call {A : Type} (ev : E) (answer : list E -> result A) t :
  P ev -> emits_from P (call ev answer) t.
Proof.
  intros Hev r t' H. inversion H; subst. exists [ev]. auto.
Qed.

Lemma emits_bind {A B : Type} (m : M E A) (k : A -> M E B) t :
  emits_from P m t ->
  (forall a t1, m t = Some (Ok a, t1) -> emits_from P (k a) t1) ->
  emits_from P (bind m k) t.
Proof.
  intros Hm Hk r t' H. unfold bind in H.
  destruct (m t) as [[[a|e] t1]|] eqn:Em; [| |discriminate].
  - destruct (Hm _ _ Em) as (evs1 & -> & F1).
    destruct (Hk a _ eq_refl _ _ H) as (evs2 & -> & F2).
    exists (evs1 ++ evs2). rewrite app_assoc. split; [reflexivity|].
    apply Forall_app; auto.
  - inversion H; subst. apply (Hm _ _ Em).
Qed.

Lemma emits_for_each {A : Type} (l : list A) (body : A -> M E unit) :
  (forall x t, emits_from P (body x) t) ->
  forall t, emits_from P (for_each l body) t.
Proof.
  intros Hbody. induction l as [|x l IH]; intros t; simpl.
  - apply emits_ret.
  - apply emits_bind; [apply Hbody|]. intros _ t1 _. apply IH.
Qed.

Lemma emits_try_except {A : Type} (body : M E A) (handler : exn -> M E A) t :
  emits_from P body t ->
  (forall e t1, emits_from P (handler e) t1) ->
  emits_from P (try_except body handler) t.
Proof.
  intros Hb Hh r t' H. unfold try_except in H.
  destruct (body t) as [[[a|e] t1]|] eqn:Eb; [| |discriminate].
  - inversion H; subst. apply (Hb _ _ Eb).
  - destruct (Hb _ _ Eb) as (evs1 & -> & F1).
    destruct (Hh e _ _ _ H) as (evs2 & -> & F2).
    exists (evs1 ++ evs2). rewrite app_assoc. split; [reflexivity|].
    apply Forall_app; auto.
Qed.

End Emits.

Lemma seller_get_offer_ids_emits w fuel client_id seller_token t :
  emits_from seller_not_price_request
    (seller.get_offer_ids w fuel client_id seller_token) t.
Proof.
  unfold seller.get_offer_ids.
  apply emits_bind; [|intros; apply emits_ret].
  generalize (@nil seller.product) as product_list.
  generalize ""%string as last_id. revert t.
  induction fuel as [|fuel IH]; intros t last_id product_list; simpl.
  - intros r t' H. discriminate.
  - apply emits_bind; [apply emits_call; exact I|].
    intros page t1 _.
    destruct (_ =? _)%Z; [apply emits_ret | apply IH].
Qed.

Lemma seller_main_except_emits (error : exn) t :
  emits_from seller_not_price_request (seller.main_except error) t.
Proof. destruct error; apply emits_call; exact I. Qed.

(** C10. For distinct offer ids, once [create_stocks] has returned no supplier
    record has its code in the list that is left, and [create_prices] on that
    list returns the empty list; [seller.main] composes the two in this way,
    so it sends no price request when the shop lists distinct offer ids. *)
Theorem create_prices_after_create_stocks :
  (forall w ids out ids',
      NoDup ids ->
      seller.create_stocks w ids = (Ok out, ids') ->
      (forall watch, In watch w -> ~ In (Kod watch) ids')
      /\ seller.create_prices w ids' = [])
  /\ (forall world fuel client_id seller_token t r t',
      (forall ids t1,
          seller.get_offer_ids world fuel client_id seller_token t
          = Some (Ok ids, t1) -> NoDup ids) ->
      seller.main world fuel client_id seller_token t = Some (r, t') ->
      exists evs, t' = t ++ evs /\ Forall seller_not_price_request evs).
Proof.
  assert (Hpure : forall w ids out ids',
             NoDup ids ->
             seller.create_stocks w ids = (Ok out, ids') ->
             (forall watch, In watch w -> ~ In (Kod watch) ids')
             /\ seller.create_prices w ids' = []).
  { intros w ids out ids' ND H.
    rewrite seller_create_stocks_plan in H.
    apply map_outcome_ok in H as (plan & Hp & _).
    pose proof (stock_plan_unmatched _ _ _ _ ND Hp) as ->.
    split; [apply unmatched_none_left|].
    apply seller_create_prices_nil, unmatched_none_left. }
  split; [exact Hpure|].
  intros world fuel client_id seller_token t r t' Hids.
  revert r t'. change (emits_from seller_not_price_request
                         (seller.main world fuel client_id seller_token) t).
  unfold seller.main, seller.main_try.
  apply emits_try_except; [|intros; apply seller_main_except_emits].
  apply emits_bind; [apply seller_get_offer_ids_emits|].
  intros ids t1 Hget. apply Hids in Hget as ND.
  apply emits_bind; [apply emits_call; exact I|].
  intros watch_remnants t2 _.
  destruct (seller.create_stocks watch_remnants ids) as [outcome ids'] eqn:Hcs.
  apply emits_bind; [apply emits_lift|]. intros stocks t3 Hlift.
  inversion Hlift; subst.
  destruct (Hpure _ _ _ _ ND Hcs) as (_ & Hnil). rewrite Hnil.
  apply emits_bind; [apply emits_lift|]. intros chunks t4 _.
  apply emits_bind.
  - apply emits_for_each. intros; apply emits_call; exact I.
  - intros _ t5 _. apply emits_bind; [apply emits_lift|].
    intros chunks' t6 Hdiv. inversion Hdiv; subst. apply emits_ret.
Qed.

Lemma create_prices_after_create_stocks_witness :
  NoDup sample_offer_ids
  /\ seller.create_stocks [sample_watch] sample_offer_ids
     = (Ok [{| seller.offer_id := "A1"; seller.stock := 100 |};
            {| seller.offer_id := "B2"; seller.stock := 0 |}], ["B2"])
  /\ seller.create_prices [sample_watch] ["B2"] = []
  /\ seller.main sample_seller_world 1 "client" "token" []
     = Some (Ok tt,
             [seller.ProductListRequest "" "client" "token";
              seller.DownloadStock;
              seller.ImportStocksRequest
                [{| seller.offer_id := "A1"; seller.stock := 100 |};
                 {| seller.offer_id := "B2"; seller.stock := 0 |}]
                "client" "token"])
  /\ exists evs,
       [seller.ProductListRequest "" "client" "token";
        seller.DownloadStock;
        seller.ImportStocksRequest
          [{| seller.offer_id := "A1"; seller.stock := 100 |};
           {| seller.offer_id := "B2"; seller.stock := 0 |}]
          "client" "token"] = [] ++ evs
       /\ Forall seller_not_price_request evs.
Proof.
  assert (ND : NoDup sample_offer_ids)
    by (repeat constructor; simpl; intuition discriminate).
  split; [exact ND|]. split; [reflexivity|].
  split.
  - apply (proj1 create_prices_after_create_stocks [sample_watch]
             sample_offer_ids _ ["B2"] ND eq_refl).
  - split; [reflexivity|].
    apply (proj2 create_prices_after_create_stocks sample_seller_world 1
             "client" "token" [] (Ok tt)).
    + intros ids t1 H. vm_compute in H. inversion H; subst. exact ND.
    + reflexivity.
Defined.

(** With an offer id listed twice and matched once, prices are produced. *)
Lemma create_prices_after_create_stocks_repeated_id :
  let ids := ["A1"; "A1"] in
  exists out ids',
    seller.create_stocks [sample_watch] ids = (Ok out, ids')
    /\ In (Kod sample_watch) ids'
    /\ seller.create_prices [sample_watch] ids'
       = [{| seller.auto_action_enabled := "UNKNOWN";
             seller.currency_code := "RUB";
             seller.price_offer_id := "A1";
             seller.old_price := "0";
             seller.price := "100" |}]
    /\ seller.create_prices [sample_watch] ids' <> [].
Proof.
  simpl. do 2 eexists. split; [reflexivity|].
  repeat split; simpl; auto. discriminate.
Qed.

(** ** [int] on strings of digits *)

Lemma digits_only_Forall (s : string) :
  digits_only s = true <->
  Forall (fun c => is_digit c = true) (list_ascii_of_string s).
Proof.
  induction s as [|c s IH]; simpl.
  - split; auto.
  - rewrite andb_true_iff, IH. split.
    + intros [Hc Hs]; auto.
    + intros H; inversion H; auto.
Qed.

Lemma is_digit_plain (c : ascii) :
  is_digit c = true ->
  is_space c = false /\ Ascii.eqb c "-" = false /\ Ascii.eqb c "+" = false.
Proof.
  unfold is_digit, is_space. intros H.
  apply andb_true_iff in H as [Hlo Hhi].
  apply N.leb_le in Hlo, Hhi.
  repeat split.
  - apply orb_false_iff; split.
    + apply andb_false_iff. right. apply N.leb_gt. lia.
    + apply N.eqb_neq. lia.
  - apply Ascii.eqb_neq. intros ->. vm_compute in Hlo. now apply Hlo.
  - apply Ascii.eqb_neq. intros ->. vm_compute in Hlo. now apply Hlo.
Qed.

Lemma is_digit_ascii (c : ascii) : is_digit c = true -> is_ascii c = true.
Proof.
  unfold is_digit, is_ascii. intros H.
  apply andb_true_iff in H as [_ Hhi]. apply N.leb_le in Hhi.
  apply N.ltb_lt. lia.
Qed.

(** A string of digits is read as it is. *)
Lemma int_text_digits (s : string) :
  digits_only s = true -> int_text s = list_ascii_of_string s.
Proof.
  intros H. unfold int_text.
  replace (forallb is_ascii (list_ascii_of_string s)) with true; [reflexivity|].
  symmetry. apply forallb_forall. intros c Hc.
  apply digits_only_Forall in H. rewrite Forall_forall in H.
  apply is_digit_ascii, H, Hc.
Qed.

Lemma lstrip_digits (l : list ascii) :
  Forall (fun c => is_digit c = true) l -> lstrip l = l.
Proof.
  intros H. destruct H as [|c l Hc _]; simpl; [reflexivity|].
  now rewrite (proj1 (is_digit_plain c Hc)).
Qed.

Lemma strip_digits (l : list ascii) :
  Forall (fun c => is_digit c = true) l -> strip l = l.
Proof.
  intros H. unfold strip.
  rewrite (lstrip_digits l H), lstrip_digits by now apply Forall_rev.
  apply rev_involutive.
Qed.

Lemma int_digits_digits (l : list ascii) (acc : Z) :
  Forall (fun c => is_digit c = true) l ->
  int_digits acc true l
  = Some (fold_left (fun a c => (10 * a + digit_value c)%Z) l acc).
Proof.
  intros H. revert acc.
  induction H as [|c l Hc _ IH]; intros acc; simpl; [reflexivity|].
  rewrite Hc. apply IH.
Qed.

Lemma digit_value_bounds (c : ascii) :
  is_digit c = true -> (0 <= digit_value c <= 9)%Z.
Proof.
  unfold is_digit, digit_value. intros H.
  apply andb_true_iff in H as [Hlo Hhi].
  apply N.leb_le in Hlo, Hhi. lia.
Qed.

Lemma fold_digits_nonneg (l : list ascii) (acc : Z) :
  Forall (fun c => is_digit c = true) l ->
  (0 <= acc)%Z ->
  (0 <= fold_left (fun a c => (10 * a + digit_value c)%Z) l acc)%Z.
Proof.
  intros H. revert acc.
  induction H as [|c l Hc _ IH]; intros acc Hacc; cbn [fold_left];
    [exact Hacc|].
  apply IH. pose proof (digit_value_bounds c Hc). lia.
Qed.

Lemma filter_digits_all (l : list ascii) :
  Forall (fun c => is_digit c = true) l -> filter is_digit l = l.
Proof.
  intros H. apply forallb_filter_id, forallb_forall.
  now rewrite Forall_forall in H.
Qed.

Lemma length_list_ascii_of_string (s : string) :
  List.length (list_ascii_of_string s) = String.length s.
Proof. induction s as [|c s IH]; simpl; congruence. Qed.

(** [int] on a non-empty string of digits: the number it reads as, unless
    there are more digits than the limit allows. *)
Lemma py_int_digits_cases (s : string) :
  digits_only s = true -> s <> "" ->
  py_int s = if (String.length s <=? int_max_str_digits)%nat
             then Ok (decimal_value s) else Raise ValueError.
Proof.
  intros Hd Hne. unfold py_int, decimal_value.
  rewrite (int_text_digits s Hd).
  apply digits_only_Forall in Hd.
  rewrite (strip_digits _ Hd).
  rewrite <- (length_list_ascii_of_string s).
  destruct s as [|c s]; [congruence|].
  cbn [list_ascii_of_string] in *.
  inversion Hd as [|? ? Hc Hs]; subst.
  destruct (is_digit_plain c Hc) as (_ & -> & ->).
  rewrite (filter_digits_all _ Hd).
  cbn [int_digits fold_left]. rewrite Hc, (int_digits_digits _ _ Hs).
  reflexivity.
Qed.

Lemma decimal_value_nonneg (s : string) :
  digits_only s = true -> (0 <= decimal_value s)%Z.
Proof.
  intros Hd. apply digits_only_Forall in Hd.
  apply (fold_digits_nonneg _ _ Hd). lia.
Qed.

(** On a non-empty string of at most 4300 digits [int] returns the number it
    reads as. *)
Lemma py_int_digits (s : string) :
  digits_only s = true -> s <> "" ->
  String.length s <= int_max_str_digits ->
  py_int s = Ok (decimal_value s) /\ (0 <= decimal_value s)%Z.
Proof.
  intros Hd Hne Hlen. rewrite (py_int_digits_cases s Hd Hne).
  apply Nat.leb_le in Hlen. rewrite Hlen.
  split; [reflexivity | now apply decimal_value_nonneg].
Qed.

(** What [int] returns on a string of digits is the number it reads as, and
    then the string is neither empty nor longer than the limit. *)
Lemma py_int_digits_value (s : string) (v : Z) :
  digits_only s = true -> py_int s = Ok v ->
  v = decimal_value s /\ (0 <= v)%Z
  /\ s <> "" /\ String.length s <= int_max_str_digits.
Proof.
  intros Hd Hv.
  destruct (string_dec s "") as [->|Hne]; [discriminate Hv|].
  rewrite (py_int_digits_cases s Hd Hne) in Hv.
  destruct (Nat.leb_spec (String.length s) int_max_str_digits);
    [|discriminate].
  inversion Hv; subst. repeat split; auto. now apply decimal_value_nonneg.
Qed.

Lemma py_int_raises (s : string) (e : exn) :
  py_int s = Raise e -> e = ValueError.
Proof.
  unfold py_int.
  destruct (strip (int_text s)) as [|c l]; [congruence|].
  destruct (Ascii.eqb c "-"); [|destruct (Ascii.eqb c "+")];
    (destruct (int_digits 0 false _);
     [destruct (_ <=? _)%nat|]; congruence).
Qed.

(** [price_conversion] gives the digits before the decimal point. *)
Lemma price_conversion_spec (price : string) :
  price_conversion price = spec_digits_before_point price.
Proof.
  unfold price_conversion, spec_digits_before_point.
  assert (Hhd : hd EmptyString (py_split "." price)
                = spec_before_decimal_point price).
  { induction price as [|c s IH]; simpl; [reflexivity|].
    destruct (Ascii.eqb c "."); [reflexivity|].
    pose proof (py_split_not_nil "." s) as Hnil.
    destruct (py_split "." s) as [|piece pieces]; [congruence|].
    simpl in *. now rewrite IH. }
  rewrite Hhd. generalize (spec_before_decimal_point price) as s. clear.
  induction s as [|c s IH]; [reflexivity|].
  assert (Hc : existsb (Ascii.eqb c)
                 ["0"; "1"; "2"; "3"; "4"; "5"; "6"; "7"; "8"; "9"]%char
               = is_digit c).
  { destruct c as [[] [] [] [] [] [] [] []]; reflexivity. }
  unfold spec_digits in *.
  cbn [re_sub_non_digits list_ascii_of_string filter]. cbv beta.
  rewrite Hc. destruct (is_digit c);
    cbn [string_of_list_ascii]; now rewrite IH.
Qed.

(** ** [create_prices] *)

Lemma seller_create_prices_in w ids watch :
  In watch w -> In (Kod watch) ids ->
  In {| seller.auto_action_enabled := "UNKNOWN";
        seller.currency_code := "RUB";
        seller.price_offer_id := Kod watch;
        seller.old_price := "0";
        seller.price := price_conversion (Tsena watch) |}
     (seller.create_prices w ids).
Proof.
  intros Hw Hid. apply py_in_In in Hid.
  induction w as [|w0 w IH]; simpl in *; [contradiction|].
  destruct Hw as [->|Hw].
  - rewrite Hid. simpl; auto.
  - destruct (py_in (Kod w0) ids); simpl; auto.
Qed.

Lemma market_create_prices_loop_ok w ids prices out :
  market.create_prices_loop w ids prices = Ok out ->
  (forall item, In item prices -> In item out)
  /\ forall watch, In watch w -> In (Kod watch) ids ->
       exists v, py_int (price_conversion (Tsena watch)) = Ok v
                 /\ In {| market.id := Kod watch;
                          market.price := {| market.value := v;
                                             market.currencyId := "RUR" |} |}
                       out.
Proof.
  revert prices.
  induction w as [|w0 w IH]; intros prices H; simpl in H.
  - inversion H; subst. split; [auto|]. intros ? [].
  - destruct (py_in (Kod w0) ids) eqn:Hin.
    + destruct (py_int (price_conversion (Tsena w0))) as [v|e] eqn:Hv;
        [|discriminate].
      destruct (IH _ H) as (Hkeep & Hrest). split.
      * intros item Hitem. apply Hkeep, in_or_app; auto.
      * intros watch [->|Hw] Hid; [|auto].
        exists v. split; [exact Hv|].
        apply Hkeep, in_or_app. right. simpl; auto.
    + destruct (IH _ H) as (Hkeep & Hrest). split; [exact Hkeep|].
      intros watch [->|Hw] Hid; [|auto].
      apply py_in_In in Hid. congruence.
Qed.

Lemma market_create_prices_loop_returns w ids prices :
  (forall watch, In watch w -> In (Kod watch) ids ->
                 price_conversion (Tsena watch) <> ""
                 /\ String.length (price_conversion (Tsena watch))
                    <= int_max_str_digits) ->
  exists out, market.create_prices_loop w ids prices = Ok out.
Proof.
  revert prices.
  induction w as [|w0 w IH]; intros prices H; simpl; [eauto|].
  assert (Hw : forall watch, In watch w -> In (Kod watch) ids ->
                             price_conversion (Tsena watch) <> ""
                             /\ String.length (price_conversion (Tsena watch))
                                <= int_max_str_digits)
    by (intros; apply H; simpl; auto).
  destruct (py_in (Kod w0) ids) eqn:Hin; [|auto].
  apply py_in_In in Hin.
  destruct (H w0 (or_introl eq_refl) Hin) as (Hne & Hlen).
  destruct (py_int_digits (price_conversion (Tsena w0))
              (price_conversion_digits_only _) Hne Hlen) as (-> & _).
  auto.
Qed.

Lemma market_create_prices_loop_raises w ids prices e :
  market.create_prices_loop w ids prices = Raise e -> e = ValueError.
Proof.
  revert prices.
  induction w as [|w0 w IH]; intros prices H; simpl in H; [discriminate|].
  destruct (py_in (Kod w0) ids); [|eauto].
  destruct (py_int (price_conversion (Tsena w0))) as [v|e'] eqn:Hv; [eauto|].
  inversion H; subst. apply (py_int_raises _ _ Hv).
Qed.

(** C3. For every supplier record whose code is a known offer id, Ozon's
    [create_prices] emits a record whose price is the string of the digits of
    the price before its first decimal point (not parsed); Yandex Market's
    [create_prices], when it returns, emits a record whose price value is the
    integer these digits read as.  It returns when each such price has at
    least one and at most 4300 digits before its first point, and raises
    [ValueError] when one has none or more than 4300. *)
Theorem create_prices_price :
  (forall w ids watch,
      In watch w -> In (Kod watch) ids ->
      exists item,
        In item (seller.create_prices w ids)
        /\ seller.price_offer_id item = Kod watch
        /\ seller_price_value item
           = PyStr (spec_digits_before_point (Tsena watch)))
  /\ (forall w ids out watch,
      market.create_prices w ids = Ok out ->
      In watch w -> In (Kod watch) ids ->
      exists item,
        In item out
        /\ market.id item = Kod watch
        /\ market_price_value item
           = PyInt (decimal_value (spec_digits_before_point (Tsena watch)))
        /\ (0 <= market.value (market.price item))%Z
        /\ spec_digits_before_point (Tsena watch) <> ""
        /\ String.length (spec_digits_before_point (Tsena watch)) <= 4300)
  /\ (forall w ids,
      (forall watch, In watch w -> In (Kod watch) ids ->
         spec_digits_before_point (Tsena watch) <> ""
         /\ String.length (spec_digits_before_point (Tsena watch)) <= 4300) ->
      exists out, market.create_prices w ids = Ok out)
  /\ (forall w ids watch,
      In watch w -> In (Kod watch) ids ->
      spec_digits_before_point (Tsena watch) = ""
      \/ 4300 < String.length (spec_digits_before_point (Tsena watch)) ->
      market.create_prices w ids = Raise ValueError).
Proof.
  split; [|split; [|split]].
  - intros w ids watch Hw Hid. eexists. split.
    + apply (seller_create_prices_in _ _ _ Hw Hid).
    + unfold seller_price_value. simpl.
      now rewrite price_conversion_spec.
  - intros w ids out watch H Hw Hid.
    destruct (market_create_prices_loop_ok _ _ _ _ H) as (_ & Hall).
    destruct (Hall watch Hw Hid) as (v & Hv & Hin).
    eexists. split; [exact Hin|].
    destruct (py_int_digits_value _ _ (price_conversion_digits_only _) Hv)
      as (-> & Hpos & Hne & Hlen).
    unfold market_price_value. simpl.
    rewrite <- price_conversion_spec. auto.
  - intros w ids H. apply market_create_prices_loop_returns.
    intros watch Hw Hid. rewrite price_conversion_spec.
    apply (H watch Hw Hid).
  - intros w ids watch Hw Hid Hbad.
    destruct (market.create_prices w ids) as [out|e] eqn:H.
    + destruct (market_create_prices_loop_ok _ _ _ _ H) as (_ & Hall).
      destruct (Hall watch Hw Hid) as (v & Hv & _).
      destruct (py_int_digits_value _ _ (price_conversion_digits_only _) Hv)
        as (_ & _ & Hne & Hlen).
      rewrite price_conversion_spec in Hne, Hlen.
      unfold int_max_str_digits in Hlen.
      destruct Hbad as [E|Hlong]; [contradiction | lia].
    + now rewrite (market_create_prices_loop_raises _ _ _ _ H).
Qed.

Lemma create_prices_price_witness :
  In sample_watch [sample_watch]
  /\ In (Kod sample_watch) sample_offer_ids
  /\ market.create_prices [sample_watch] sample_offer_ids
     = Ok [{| market.id := "A1";
              market.price := {| market.value := 100;
                                 market.currencyId := "RUR" |} |}]
  /\ (exists item,
        In item (seller.create_prices [sample_watch] sample_offer_ids)
        /\ seller.price_offer_id item = "A1"
        /\ seller_price_value item = PyStr "100")
  /\ (exists item,
        In item [{| market.id := "A1";
                    market.price := {| market.value := 100;
                                       market.currencyId := "RUR" |} |}]
        /\ market.id item = "A1"
        /\ market_price_value item = PyInt 100
        /\ (0 <= market.value (market.price item))%Z
        /\ "100" <> ""
        /\ String.length "100" <= 4300)
  /\ (exists out,
        market.create_prices [sample_watch] sample_offer_ids = Ok out)
  /\ market.create_prices
       [{| Kod := "A1"; Kolichestvo := "3"; Tsena := ".50" |}] sample_offer_ids
     = Raise ValueError.
Proof.
  assert (Hw : In sample_watch [sample_watch]) by (simpl; auto).
  assert (Hid : In (Kod sample_watch) sample_offer_ids) by (simpl; auto).
  destruct create_prices_price as (Hseller & Hmarket & Hreturns & Hraise).
  split; [exact Hw|]. split; [exact Hid|]. split; [reflexivity|].
  split; [|split; [|split]].
  - apply (Hseller [sample_watch] sample_offer_ids sample_watch Hw Hid).
  - apply (Hmarket [sample_watch] sample_offer_ids _ sample_watch eq_refl Hw Hid).
  - apply (Hreturns [sample_watch] sample_offer_ids).
    intros watch [<-|[]] _. split; [discriminate | vm_compute; lia].
  - apply (Hraise _ sample_offer_ids
             {| Kod := "A1"; Kolichestvo := "3"; Tsena := ".50" |});
      simpl; auto.
Defined.

(** The words "digits before the decimal point", on prices as the supplier
    writes them. *)
Example spec_digits_before_point_examples :
  spec_digits_before_point "5'990.00 руб." = "5990"
  /\ spec_digits_before_point "100.00" = "100"
  /\ spec_digits_before_point "12 345" = "12345"
  /\ spec_digits_before_point ".50" = ""
  /\ decimal_value "5990" = 5990%Z
  /\ decimal_value "007" = 7%Z.
Proof. repeat split. Qed.

(** Ozon's price is a string, and it is empty for a price without digits
    before the point, where no integer is to be had. *)
Lemma seller_price_is_string :
  let ids := ["A1"] in
  let w := [sample_watch; {| Kod := "A1"; Kolichestvo := "3"; Tsena := ".50" |}] in
  Forall (fun watch => In (Kod watch) ids) w
  /\ seller.create_prices w ids
     = [{| seller.auto_action_enabled := "UNKNOWN";
           seller.currency_code := "RUB";
           seller.price_offer_id := "A1";
           seller.old_price := "0";
           seller.price := "100" |};
        {| seller.auto_action_enabled := "UNKNOWN";
           seller.currency_code := "RUB";
           seller.price_offer_id := "A1";
           seller.old_price := "0";
           seller.price := "" |}]
  /\ (forall item z, In item (seller.create_prices w ids) ->
                     seller_price_value item <> PyInt z)
  /\ py_int (price_conversion ".50") = Raise ValueError
  /\ market.create_prices w ids = Raise ValueError.
Proof.
  simpl. split; [repeat constructor; simpl; auto|].
  split; [reflexivity|]. split; [|split; reflexivity].
  intros item z _. discriminate.
Qed.

(** ** [get_offer_ids] *)

Lemma seller_loop_served w client_id seller_token pages :
  forall t last_id product_list fuel,
    seller_pages_served w client_id seller_token t last_id
      (List.length product_list) pages ->
    List.length pages <= fuel ->
    seller.get_offer_ids_loop w fuel client_id seller_token last_id
      product_list t
    = Some (Ok (product_list ++ List.concat (map seller.result_items pages)),
            t ++ seller_page_requests client_id seller_token last_id pages).
Proof.
  induction pages as [|page rest IH]; intros t last_id product_list fuel Hs Hf;
    [destruct Hs|].
  destruct fuel as [|fuel]; [simpl in Hf; lia|].
  destruct Hs as (Hresp & Hrest).
  cbn [seller.get_offer_ids_loop].
  unfold bind at 1, seller.get_product_list, call. rewrite Hresp.
  rewrite length_app.
  destruct rest as [|page' rest'].
  - rewrite Hrest, Z.eqb_refl. simpl. now rewrite app_nil_r.
  - destruct Hrest as (Hne & Hnext).
    apply Z.eqb_neq in Hne. rewrite Hne.
    rewrite <- length_app in Hnext.
    rewrite (IH _ _ _ fuel Hnext) by (simpl in *; lia).
    cbn [map List.concat seller_page_requests].
    now rewrite <- !app_assoc.
Qed.

Lemma seller_loop_error w client_id seller_token pages e :
  forall t last_id product_list fuel,
    seller_pages_then_error w client_id seller_token t last_id
      (List.length product_list) pages e ->
    List.length pages < fuel ->
    exists t',
      seller.get_offer_ids_loop w fuel client_id seller_token last_id
        product_list t = Some (Raise e, t').
Proof.
  induction pages as [|page rest IH]; intros t last_id product_list fuel Hs Hf;
    (destruct fuel as [|fuel]; [simpl in Hf; lia|]);
    cbn [seller.get_offer_ids_loop];
    unfold bind at 1, seller.get_product_list, call.
  - simpl in Hs. rewrite Hs. eauto.
  - destruct Hs as (Hresp & Hne & Hnext). rewrite Hresp.
    rewrite length_app. apply Z.eqb_neq in Hne. rewrite Hne.
    rewrite <- length_app in Hnext.
    apply (IH _ _ _ fuel Hnext). simpl in Hf. lia.
Qed.

Lemma market_loop_served w campaign_id market_token pages :
  forall t page_token product_list fuel,
    market_pages_served w campaign_id market_token t page_token pages ->
    List.length pages <= fuel ->
    market.get_offer_ids_loop w fuel campaign_id market_token page_token
      product_list t
    = Some (Ok (product_list
                ++ List.concat (map market.offerMappingEntries pages)),
            t ++ market_page_requests campaign_id market_token page_token
                   pages).
Proof.
  induction pages as [|page rest IH]; intros t page_token product_list fuel Hs Hf;
    [destruct Hs|].
  destruct fuel as [|fuel]; [simpl in Hf; lia|].
  destruct Hs as (Hresp & Hrest).
  cbn [market.get_offer_ids_loop].
  unfold bind at 1, market.get_product_list, call. rewrite Hresp.
  destruct rest as [|page' rest'].
  - destruct Hrest as [-> | ->]; simpl; now rewrite app_nil_r.
  - destruct Hrest as (next & Htok & Hne & Hnext). rewrite Htok.
    apply String.eqb_neq in Hne. rewrite Hne.
    rewrite (IH _ _ _ fuel Hnext) by (simpl in *; lia).
    cbn [map List.concat market_page_requests]. rewrite Htok.
    now rewrite <- !app_assoc.
Qed.

Lemma market_loop_error w campaign_id market_token pages e :
  forall t page_token product_list fuel,
    market_pages_then_error w campaign_id market_token t page_token pages e ->
    List.length pages < fuel ->
    exists t',
      market.get_offer_ids_loop w fuel campaign_id market_token page_token
        product_list t = Some (Raise e, t').
Proof.
  induction pages as [|page rest IH]; intros t page_token product_list fuel Hs Hf;
    (destruct fuel as [|fuel]; [simpl in Hf; lia|]);
    cbn [market.get_offer_ids_loop];
    unfold bind at 1, market.get_product_list, call.
  - simpl in Hs. rewrite Hs. eauto.
  - destruct Hs as (Hresp & next & Htok & Hne & Hnext). rewrite Hresp, Htok.
    apply String.eqb_neq in Hne. rewrite Hne.
    apply (IH _ _ _ fuel Hnext). simpl in Hf. lia.
Qed.

(** C8. When the server answers page after page and ends the listing (Ozon
    by a "total" equal to the number of items received, Yandex Market by a
    page without a next-page token), [get_offer_ids] returns, after as many
    requests as there are pages, the offer ids of all the pages in order.
    When a page request raises before that, [get_offer_ids] raises the same
    exception. *)
Theorem get_offer_ids_terminates :
  (forall w client_id seller_token t pages fuel,
      seller_pages_served w client_id seller_token t "" 0 pages ->
      List.length pages <= fuel ->
      seller.get_offer_ids w fuel client_id seller_token t
      = Some (Ok (seller_page_offer_ids pages),
              t ++ seller_page_requests client_id seller_token "" pages))
  /\ (forall w client_id seller_token t pages e fuel,
      seller_pages_then_error w client_id seller_token t "" 0 pages e ->
      List.length pages < fuel ->
      exists t',
        seller.get_offer_ids w fuel client_id seller_token t
        = Some (Raise e, t'))
  /\ (forall w campaign_id market_token t pages fuel,
      market_pages_served w campaign_id market_token t "" pages ->
      List.length pages <= fuel ->
      market.get_offer_ids w fuel campaign_id market_token t
      = Some (Ok (market_page_offer_ids pages),
              t ++ market_page_requests campaign_id market_token "" pages))
  /\ (forall w campaign_id market_token t pages e fuel,
      market_pages_then_error w campaign_id market_token t "" pages e ->
      List.length pages < fuel ->
      exists t',
        market.get_offer_ids w fuel campaign_id market_token t
        = Some (Raise e, t')).
Proof.
  split; [|split; [|split]].
  - intros w client_id seller_token t pages fuel Hs Hf.
    unfold seller.get_offer_ids, bind.
    now rewrite (seller_loop_served _ _ _ pages t "" [] fuel Hs Hf).
  - intros w client_id seller_token t pages e fuel Hs Hf.
    unfold seller.get_offer_ids, bind.
    destruct (seller_loop_error _ _ _ pages e t "" [] fuel Hs Hf) as (t' & ->).
    eauto.
  - intros w campaign_id market_token t pages fuel Hs Hf.
    unfold market.get_offer_ids, bind.
    now rewrite (market_loop_served _ _ _ pages t "" [] fuel Hs Hf).
  - intros w campaign_id market_token t pages e fuel Hs Hf.
    unfold market.get_offer_ids, bind.
    destruct (market_loop_error _ _ _ pages e t "" [] fuel Hs Hf) as (t' & ->).
    eauto.
Qed.

Lemma get_offer_ids_terminates_witness :
  seller_pages_served paged_seller_world "client" "token" [] "" 0
    [first_seller_page; second_seller_page]
  /\ seller.get_offer_ids paged_seller_world 2 "client" "token" []
     = Some (Ok ["A1"; "B2"],
             [seller.ProductListRequest "" "client" "token";
              seller.ProductListRequest "p1" "client" "token"])
  /\ seller_pages_then_error failing_seller_world "client" "token" [] "" 0
       [first_seller_page] ReadTimeout
  /\ (exists t',
        seller.get_offer_ids failing_seller_world 2 "client" "token" []
        = Some (Raise ReadTimeout, t'))
  /\ market_pages_served paged_market_world "campaign" "token" [] ""
       [first_market_page; second_market_page]
  /\ market.get_offer_ids paged_market_world 2 "campaign" "token" []
     = Some (Ok ["A1"; "B2"],
             [market.OfferMappingRequest "" "campaign" "token";
              market.OfferMappingRequest "p1" "campaign" "token"])
  /\ market_pages_then_error failing_market_world "campaign" "token" [] ""
       [first_market_page] HTTPError
  /\ (exists t',
        market.get_offer_ids failing_market_world 2 "campaign" "token" []
        = Some (Raise HTTPError, t')).
Proof.
  assert (H1 : seller_pages_served paged_seller_world "client" "token" [] "" 0
                 [first_seller_page; second_seller_page]).
  { simpl. repeat split. discriminate. }
  assert (H2 : seller_pages_then_error failing_seller_world "client" "token"
                 [] "" 0 [first_seller_page] ReadTimeout).
  { simpl. repeat split. discriminate. }
  assert (H3 : market_pages_served paged_market_world "campaign" "token" [] ""
                 [first_market_page; second_market_page]).
  { simpl. split; [reflexivity|]. exists "p1". repeat split; auto.
    discriminate. }
  assert (H4 : market_pages_then_error failing_market_world "campaign" "token"
                 [] "" [first_market_page] HTTPError).
  { simpl. split; [reflexivity|]. exists "p1". repeat split. discriminate. }
  destruct get_offer_ids_terminates as (Ts & Es & Tm & Em).
  split; [exact H1|]. split.
  { apply (Ts paged_seller_world "client" "token" [] _ 2 H1). simpl; lia. }
  split; [exact H2|]. split.
  { apply (Es failing_seller_world "client" "token" [] _ _ 2 H2). simpl; lia. }
  split; [exact H3|]. split.
  { apply (Tm paged_market_world "campaign" "token" [] _ 2 H3). simpl; lia. }
  split; [exact H4|].
  apply (Em failing_market_world "campaign" "token" [] _ _ 2 H4). simpl; lia.
Defined.

(** ** [main] *)

Lemma market_get_offer_ids_emits w fuel campaign_id market_token t :
  emits_from market_not_price_request
    (market.get_offer_ids w fuel campaign_id market_token) t.
Proof.
  unfold market.get_offer_ids.
  apply emits_bind; [|intros; apply emits_ret].
  generalize (@nil market.offer_mapping_entry) as product_list.
  generalize ""%string as page. revert t.
  induction fuel as [|fuel IH]; intros t page product_list; simpl.
  - intros r t' H. discriminate.
  - apply emits_bind; [apply emits_call; exact I|].
    intros some_prod t1 _.
    destruct (market.nextPageToken (market.paging some_prod)) as [next|];
      [|apply emits_ret].
    destruct (next =? ""); [apply emits_ret | apply IH].
Qed.

Lemma market_campaign_emits w fuel watch_remnants campaign_id market_token
    warehouse_id (k : unit -> M market.event unit) t :
  (forall u t1, emits_from market_not_price_request (k u) t1) ->
  emits_from market_not_price_request
    (bind (market.get_offer_ids w fuel campaign_id market_token)
       (fun offer_ids =>
          bind (market.clock w)
            (fun date =>
               let (outcome, _) :=
                 market.create_stocks date watch_remnants offer_ids
                   warehouse_id in
               bind (lift outcome)
                 (fun stocks =>
                    bind (lift (divide stocks 2000))
                      (fun chunks =>
                         bind (for_each chunks
                                 (fun some_stock =>
                                    market.update_stocks w some_stock
                                      campaign_id market_token))
                           k))))) t.
Proof.
  intros Hk.
  apply emits_bind; [apply market_get_offer_ids_emits|]. intros ids t1 _.
  apply emits_bind.
  { intros r t' H. inversion H; subst. exists []. now rewrite app_nil_r. }
  intros date t2 _.
  destruct (market.create_stocks date watch_remnants ids warehouse_id)
    as [outcome ids'].
  apply emits_bind; [apply emits_lift|]. intros stocks t3 _.
  apply emits_bind; [apply emits_lift|]. intros chunks t4 _.
  apply emits_bind.
  { apply emits_for_each. intros; apply emits_call; exact I. }
  intros u t5 _. apply Hk.
Qed.

(** Whatever the world, [market.main] sends no price request. *)
Lemma market_main_no_price_request w fuel market_token campaign_fbs_id
    campaign_dbs_id warehouse_fbs_id warehouse_dbs_id t :
  emits_from market_not_price_request
    (market.main w fuel market_token campaign_fbs_id campaign_dbs_id
       warehouse_fbs_id warehouse_dbs_id) t.
Proof.
  unfold market.main, market.main_try.
  apply emits_bind; [apply emits_call; exact I|]. intros watch_remnants t1 _.
  apply emits_try_except.
  - apply market_campaign_emits. intros u t2.
    apply emits_bind; [apply emits_ret|]. intros _ t3 _.
    apply market_campaign_emits. intros u' t4. apply emits_ret.
  - intros e t2. destruct e; apply emits_call; exact I.
Qed.

(** [seller.main] returns normally whenever it returns: what is raised inside
    it is printed and goes no further. *)
Lemma seller_main_swallows w fuel client_id seller_token t r t' :
  seller.main w fuel client_id seller_token t = Some (r, t') -> r = Ok tt.
Proof.
  unfold seller.main, try_except.
  destruct (seller.main_try w fuel client_id seller_token t)
    as [[[[]|e] t1]|]; intros H.
  - now inversion H.
  - destruct e; inversion H; reflexivity.
  - discriminate.
Qed.

(** After an exception, [seller.main] prints once and does nothing else. *)
Lemma seller_main_prints_once w fuel client_id seller_token t e t1 :
  seller.main_try w fuel client_id seller_token t = Some (Raise e, t1) ->
  exists error text,
    seller.main w fuel client_id seller_token t
    = Some (Ok tt, t1 ++ [seller.Print error text]).
Proof.
  intros H. unfold seller.main, try_except. rewrite H.
  destruct e; unfold seller.main_except, seller.print, call; eauto.
Qed.

(** [market.main] returns normally unless the download raises, and then the
    exception leaves [main]. *)
Lemma market_main_outcome w fuel market_token campaign_fbs_id campaign_dbs_id
    warehouse_fbs_id warehouse_dbs_id t r t' :
  market.main w fuel market_token campaign_fbs_id campaign_dbs_id
    warehouse_fbs_id warehouse_dbs_id t = Some (r, t') ->
  match market.download_stock_response w t with
  | Ok _ => r = Ok tt
  | Raise e => r = Raise e /\ t' = t ++ [market.DownloadStock]
  end.
Proof.
  unfold market.main, bind at 1, market.download_stock, call.
  destruct (market.download_stock_response w t) as [watch_remnants|e].
  - unfold try_except.
    destruct (market.main_try _ _ _ _ _ _ _ _ _) as [[[[]|e] t1]|];
      intros H.
    + now inversion H.
    + destruct e; inversion H; reflexivity.
    + discriminate.
  - intros H. inversion H; auto.
Qed.

(** Uploading a non-empty price list in [seller.main]'s way sends a request
    with its first chunk. *)
Lemma for_each_update_price_returns w client_id seller_token chunks t :
  exists r t',
    for_each chunks
      (fun some_price => seller.update_price w some_price client_id seller_token)
      t = Some (r, t').
Proof.
  revert t. induction chunks as [|c chunks IH]; intros t; simpl.
  - unfold ret. eauto.
  - unfold bind, seller.update_price, call.
    destruct (seller.import_prices_response w t c client_id seller_token);
      [apply IH | eauto].
Qed.

Lemma seller_price_upload_sends w client_id seller_token prices t :
  prices <> [] ->
  exists first rest r t',
    divide prices 900 = Ok (first :: rest)
    /\ for_each (first :: rest)
         (fun some_price =>
            seller.update_price w some_price client_id seller_token) t
       = Some (r, t')
    /\ In (seller.ImportPricesRequest first client_id seller_token) t'.
Proof.
  intros Hne.
  destruct (divide_concat prices 900 ltac:(lia)) as (chunks & Hd & Hcat).
  destruct chunks as [|first rest]; [simpl in Hcat; congruence|].
  exists first, rest.
  destruct (for_each_update_price_returns w client_id seller_token
              (first :: rest) t) as (r & t' & Hrun).
  exists r, t'. split; [exact Hd|]. split; [exact Hrun|].
  simpl in Hrun. unfold bind at 1, seller.update_price at 1, call in Hrun.
  destruct (seller.import_prices_response w t first client_id seller_token).
  - assert (Hem : emits_from (fun _ => True)
                    (for_each rest
                       (fun some_price =>
                          seller.update_price w some_price client_id
                            seller_token))
                    (t ++ [seller.ImportPricesRequest first client_id
                             seller_token])).
    { apply emits_for_each. intros; apply emits_call; exact I. }
    destruct (Hem _ _ Hrun) as (evs & -> & _).
    apply in_or_app. left. apply in_or_app. right. simpl; auto.
  - inversion Hrun; subst. apply in_or_app. right. simpl; auto.
Qed.

(** C6. [market.main] lists the offer ids, transforms and uploads the stock
    of both campaigns and stops there: with a supplier record whose price
    [create_prices] turns into a non-empty price list, the run sends no price
    request, because [upload_prices] is called and never awaited. *)
Theorem market_main_uploads_no_prices :
  market.create_prices [sample_watch] ["A1"; "B2"]
  = Ok [{| market.id := "A1";
           market.price := {| market.value := 100;
                              market.currencyId := "RUR" |} |}]
  /\ market.main paged_market_world 2 "token" "fbs" "dbs" "w1" "w2" []
     = Some
         (Ok tt,
          [market.DownloadStock;
           market.OfferMappingRequest "" "fbs" "token";
           market.OfferMappingRequest "p1" "fbs" "token";
           market.StocksRequest
             [market_sku_stock "2024-01-01T00:00:00Z" "w1" ("A1", 100%Z);
              market_sku_stock "2024-01-01T00:00:00Z" "w1" ("B2", 0%Z)]
             "fbs" "token";
           market.OfferMappingRequest "" "dbs" "token";
           market.OfferMappingRequest "p1" "dbs" "token";
           market.StocksRequest
             [market_sku_stock "2024-01-01T00:00:00Z" "w2" ("A1", 100%Z);
              market_sku_stock "2024-01-01T00:00:00Z" "w2" ("B2", 0%Z)]
             "dbs" "token"]).
Proof. split; reflexivity. Qed.

(** C7. When the supplier's site cannot be reached, the exception leaves
    [market.main], which downloads before its [try]: nothing is caught and
    nothing is printed.  [seller.main], which downloads inside its [try],
    prints the error and returns. *)
Theorem market_main_download_error_escapes :
  market.main offline_supplier_world 2 "token" "fbs" "dbs" "w1" "w2" []
  = Some (Raise ConnectionError, [market.DownloadStock])
  /\ seller.main offline_seller_world 2 "client" "token" []
     = Some (Ok tt,
             [seller.ProductListRequest "" "client" "token";
              seller.ProductListRequest "p1" "client" "token";
              seller.DownloadStock;
              seller.Print (Some ConnectionError) "Ошибка соединения"]).
Proof. split; reflexivity. Qed.

(** A page request that times out in [seller.main]: one message, no retry. *)
Example seller_main_read_timeout :
  seller.main failing_seller_world 2 "client" "token" []
  = Some (Ok tt,
          [seller.ProductListRequest "" "client" "token";
           seller.ProductListRequest "p1" "client" "token";
           seller.Print None "Превышено время ожидания..."]).
Proof. reflexivity. Qed.

(** A quantity that is no number: the [ValueError] of [create_stocks] ends up
    in the last [except] clause. *)
Example create_stocks_bad_quantity :
  seller.create_stocks
    [{| Kod := "A1"; Kolichestvo := "many"; Tsena := "100.00" |}]
    sample_offer_ids
  = (Raise ValueError, sample_offer_ids).
Proof. reflexivity. Qed.

(** * Further properties *)

(** ** [divide] outside positive chunk sizes, and the number of chunks *)

(** X1. A chunk size of zero makes [divide] raise [ValueError]; a negative
    chunk size makes it return no chunk at all, whatever the list holds. *)
Theorem divide_without_positive_step :
  forall (A : Type) (lst : list A) (n : Z),
    (n = 0%Z -> divide lst n = Raise ValueError)
    /\ ((n < 0)%Z -> divide lst n = Ok []).
Proof.
  intros A lst n. split.
  - intros ->. reflexivity.
  - intros Hn. unfold divide, py_range, range_length.
    destruct (Z.eqb_spec n 0); [lia|].
    destruct (Z.ltb_spec 0 n); [lia|].
    destruct (Z.ltb_spec (Z.of_nat (List.length lst)) 0); [lia|].
    reflexivity.
Qed.

Lemma divide_without_positive_step_witness :
  divide [1; 2; 3] 0 = Raise ValueError /\ divide [1; 2; 3] (-2) = Ok [].
Proof.
  split.
  - apply (proj1 (divide_without_positive_step nat [1; 2; 3] 0)). reflexivity.
  - apply (proj2 (divide_without_positive_step nat [1; 2; 3] (-2))). lia.
Defined.

(** X2. For a chunk size [n > 0], [divide] returns the length of the list
    divided by [n], rounded up, many chunks, and none of them is empty; an
    empty list gives no chunk. *)
Theorem divide_chunk_count :
  forall (A : Type) (lst : list A) (n : Z),
    (0 < n)%Z ->
    exists chunks : list (list A),
      divide lst n = Ok chunks
      /\ Z.of_nat (List.length chunks)
         = ((Z.of_nat (List.length lst) + n - 1) / n)%Z
      /\ Forall (fun c => c <> []) chunks
      /\ (lst = [] -> chunks = []).
Proof.
  intros A lst n Hn.
  assert (Hn' : 0 < Z.to_nat n) by lia.
  pose proof (divide_chunks_nat lst (Z.to_nat n) Hn') as Hd.
  pose proof (range_length_ceiling (List.length lst) (Z.to_nat n) Hn') as Hm.
  rewrite Z2Nat.id in Hd, Hm by lia.
  simpl in Hm. destruct Hm as (Hcover & Hfull & Hzero).
  eexists; split; [exact Hd|].
  split; [|split].
  - rewrite length_map, length_seq. unfold range_length.
    destruct (Z.ltb_spec 0 n); [|lia].
    destruct (Z.ltb_spec 0 (Z.of_nat (List.length lst))) as [Hpos|Hnil].
    + rewrite Z.sub_0_r.
      assert (0 <= (Z.of_nat (List.length lst) - 1) / n)%Z
        by (apply Z.div_pos; lia).
      rewrite Z2Nat.id by lia.
      replace (Z.of_nat (List.length lst) + n - 1)%Z
        with (Z.of_nat (List.length lst) - 1 + 1 * n)%Z by lia.
      now rewrite Z.div_add by lia.
    + replace (Z.of_nat (List.length lst)) with 0%Z by lia.
      simpl. symmetry. apply Z.div_small. lia.
  - apply Forall_forall. intros c Hc.
    apply in_map_iff in Hc as (k & <- & Hk). apply in_seq in Hk.
    intros Hnil. apply (f_equal (@List.length A)) in Hnil.
    rewrite length_chunk in Hnil. simpl in Hnil.
    assert (k * Z.to_nat n <= (Z.to_nat
              (range_length 0 (Z.of_nat (List.length lst)) n) - 1)
            * Z.to_nat n) by (apply Nat.mul_le_mono_r; lia).
    lia.
  - intros ->. now rewrite (Hzero eq_refl).
Qed.

Lemma divide_chunk_count_witness :
  (0 < 100)%Z
  /\ exists chunks : list (list nat),
       divide (seq 0 250) 100 = Ok chunks
       /\ Z.of_nat (List.length chunks)
          = ((Z.of_nat (List.length (seq 0 250)) + 100 - 1) / 100)%Z
       /\ Forall (fun c => c <> []) chunks
       /\ (seq 0 250 = [] -> chunks = []).
Proof.
  split; [lia|]. apply (divide_chunk_count nat (seq 0 250) 100). lia.
Defined.

(** ** [price_conversion] *)

Lemma py_split_first_piece (a b : string) :
  hd EmptyString (py_split "." (a ++ String "." b))
  = hd EmptyString (py_split "." a).
Proof.
  induction a as [|c a IH]; simpl; [reflexivity|].
  destruct (Ascii.eqb c "."); [reflexivity|].
  pose proof (py_split_not_nil "." (a ++ String "." b)) as H1.
  pose proof (py_split_not_nil "." a) as H2.
  destruct (py_split "." (a ++ String "." b)) as [|p1 r1]; [congruence|].
  destruct (py_split "." a) as [|p2 r2]; [congruence|].
  simpl in *. now rewrite IH.
Qed.

(** X3. What [price_conversion] returns is made of digits only, and
    converting it once more changes nothing. *)
Theorem price_conversion_normal_form :
  forall price : string,
    digits_only (price_conversion price) = true
    /\ price_conversion (price_conversion price) = price_conversion price.
Proof.
  intros price. split.
  - apply re_sub_non_digits_only.
  - apply price_conversion_fixes_digits, re_sub_non_digits_only.
Qed.

(** X4. [price_conversion] ignores a point and everything after it: a price
    followed by a point and any text is converted like the price alone. *)
Theorem price_conversion_ignores_after_point :
  forall a b : string,
    price_conversion (a ++ String "." b) = price_conversion a.
Proof.
  intros a b. unfold price_conversion. now rewrite py_split_first_piece.
Qed.

Example price_conversion_thousands_point :
  price_conversion "5.990,00" = "5".
Proof. reflexivity. Qed.

(** ** [create_stocks]: both marketplaces, order, failure *)

Lemma map_outcome_raise {A B : Type} (f : A -> B) outcome e ids :
  map_outcome f outcome = (Raise e, ids) -> outcome = (Raise e, ids).
Proof.
  destruct outcome as [[plan|e0] ids0]; simpl; intros H; inversion H;
    reflexivity.
Qed.

Lemma stock_plan_raise w ids e ids' :
  stock_plan w ids = (Raise e, ids') ->
  stock_plan_loop w [] ids = (Raise e, ids').
Proof.
  unfold stock_plan.
  destruct (stock_plan_loop w [] ids) as [[plan|e0] ids0]; intros H;
    inversion H; reflexivity.
Qed.

Lemma list_remove_raises (x : string) (l : list string) (e : exn) :
  list_remove x l = Raise e -> e = ValueError /\ ~ In x l.
Proof.
  induction l as [|y l IH]; simpl; intros H.
  - inversion H. auto.
  - destruct (String.eqb_spec y x) as [->|Hne]; [discriminate|].
    destruct (list_remove x l) as [r|e0]; [discriminate|].
    inversion H; subst. destruct (IH eq_refl) as (-> & Hno).
    split; [reflexivity|]. intros [E|Hin]; auto.
Qed.

Lemma quantity_stock_raises (count : string) (e : exn) :
  quantity_stock count = Raise e ->
  e = ValueError /\ count <> ">10" /\ count <> "1"
  /\ py_int count = Raise ValueError.
Proof.
  unfold quantity_stock.
  destruct (String.eqb_spec count ">10"); [discriminate|].
  destruct (String.eqb_spec count "1"); [discriminate|].
  intros H. pose proof (py_int_raises _ _ H) as ->. auto.
Qed.

(** Whatever the outcome, the loop only takes offer ids away. *)
Lemma stock_plan_loop_shrinks w plan ids outcome ids' x :
  stock_plan_loop w plan ids = (outcome, ids') ->
  count_occ string_dec ids' x <= count_occ string_dec ids x.
Proof.
  revert plan ids.
  induction w as [|watch w IH]; intros plan ids.
  - simpl; intros H; inversion H; subst; lia.
  - loop_step watch ids; intros H.
    + apply IH in H. rewrite (list_remove_count _ x _ _ Hrm). lia.
    + inversion H; subst; lia.
    + inversion H; subst; lia.
    + apply (IH _ _ H).
Qed.

(** A failure of the loop comes from a listed row whose quantity is no
    number. *)
Lemma stock_plan_loop_failure w plan ids e ids' :
  stock_plan_loop w plan ids = (Raise e, ids') ->
  e = ValueError
  /\ exists watch,
       In watch w /\ In (Kod watch) ids
       /\ Kolichestvo watch <> ">10" /\ Kolichestvo watch <> "1"
       /\ py_int (Kolichestvo watch) = Raise ValueError.
Proof.
  revert plan ids.
  induction w as [|watch w IH]; intros plan ids.
  - simpl; intros H; inversion H.
  - loop_step watch ids; intros H.
    + destruct (IH _ _ H) as (-> & w0 & Hw0 & Hid & Hrest).
      split; [reflexivity|]. exists w0. split; [simpl; auto|].
      split; [|exact Hrest].
      apply (count_occ_In string_dec).
      apply (count_occ_In string_dec) in Hid.
      rewrite (list_remove_count _ (Kod w0) _ _ Hrm). lia.
    + apply py_in_In in Hin.
      destruct (list_remove_ok _ _ Hin) as (l' & Hl'). congruence.
    + inversion H; subst.
      destruct (quantity_stock_raises _ _ Hq) as (-> & H10 & H1 & Hint).
      split; [reflexivity|]. exists watch. simpl.
      apply py_in_In in Hin. auto.
    + destruct (IH _ _ H) as (-> & w0 & Hw0 & Hrest).
      split; [reflexivity|]. exists w0. simpl. tauto.
Qed.

(** With distinct codes in the sheet, the plan lists the matched codes in the
    order of the sheet. *)
Lemma stock_plan_loop_order w plan ids plan' ids' :
  NoDup (map Kod w) ->
  stock_plan_loop w plan ids = (Ok plan', ids') ->
  map fst plan' = map fst plan ++ filter (fun c => py_in c ids) (map Kod w).
Proof.
  revert plan ids.
  induction w as [|watch w IH]; intros plan ids ND.
  - simpl; intros H; inversion H; subst. now rewrite app_nil_r.
  - inversion ND as [|? ? Hfresh ND']; subst.
    loop_step watch ids; intros H; try discriminate.
    + rewrite (IH _ _ ND' H), map_app, <- app_assoc. simpl.
      do 2 f_equal. apply filter_ext_in. intros y Hy.
      assert (Hne : y <> Kod watch) by (intros ->; contradiction).
      pose proof (list_remove_perm _ _ _ Hrm) as P.
      destruct (py_in y ids1) eqn:E1; destruct (py_in y ids) eqn:E2;
        try reflexivity.
      * apply py_in_In in E1. apply py_in_false in E2.
        exfalso. apply E2. apply (Permutation_in _ (Permutation_sym P)).
        simpl; auto.
      * apply py_in_In in E2. apply py_in_false in E1.
        apply (Permutation_in _ P) in E2 as [E|E]; [congruence|contradiction].
    + apply (IH _ _ ND' H).
Qed.

(** X5. On the same sheet and offer ids the two [create_stocks] fail
    together or return together, leave the same offer ids, and emit the same
    offer ids with the same counts in the same order. *)
Theorem create_stocks_marketplaces_agree :
  forall (date wh : string) (w : list watch) (ids : list string),
    match seller.create_stocks w ids, market.create_stocks date w ids wh with
    | (Ok s_out, s_ids), (Ok m_out, m_ids) =>
        s_ids = m_ids
        /\ map (fun item => (seller.offer_id item, Some (seller.stock item)))
               s_out
           = map (fun item => (market.sku item, sku_count item)) m_out
    | (Raise e1, s_ids), (Raise e2, m_ids) => e1 = e2 /\ s_ids = m_ids
    | _, _ => False
    end.
Proof.
  intros date wh w ids.
  rewrite seller_create_stocks_plan, market_create_stocks_plan.
  destruct (stock_plan w ids) as [[plan|e] ids']; simpl; [|auto].
  split; [reflexivity|]. rewrite !map_map. reflexivity.
Qed.

(** X6. When [create_stocks] returns, the stock list has as many records as
    there were known offer ids; when the codes of the sheet are distinct, the
    records come in this order: the codes of the sheet that are known offer
    ids, in the order of the sheet, then the offer ids left over, in the order
    of the listing. *)
Theorem create_stocks_order :
  (forall w ids out ids',
      seller.create_stocks w ids = (Ok out, ids') ->
      List.length out = List.length ids
      /\ (NoDup (map Kod w) ->
          map seller.offer_id out
          = filter (fun c => py_in c ids) (map Kod w) ++ ids'))
  /\ (forall date w ids wh out ids',
      market.create_stocks date w ids wh = (Ok out, ids') ->
      List.length out = List.length ids
      /\ (NoDup (map Kod w) ->
          map market.sku out
          = filter (fun c => py_in c ids) (map Kod w) ++ ids')).
Proof.
  assert (Hplan : forall w ids plan ids',
             stock_plan w ids = (Ok plan, ids') ->
             List.length plan = List.length ids
             /\ (NoDup (map Kod w) ->
                 map fst plan
                 = filter (fun c => py_in c ids) (map Kod w) ++ ids')).
  { intros w ids plan ids' Hp. split.
    - rewrite <- (length_map fst).
      apply Permutation_length, (stock_plan_offer_ids _ _ _ _ Hp).
    - intros ND. apply stock_plan_inv in Hp as (matched & Hloop & ->).
      rewrite map_app, map_map; simpl. rewrite map_id.
      now rewrite (stock_plan_loop_order _ _ _ _ _ ND Hloop). }
  split.
  - intros w ids out ids' H. rewrite seller_create_stocks_plan in H.
    apply map_outcome_ok in H as (plan & Hp & ->).
    destruct (Hplan _ _ _ _ Hp) as (Hlen & Hord).
    rewrite length_map, map_map. auto.
  - intros date w ids wh out ids' H. rewrite market_create_stocks_plan in H.
    apply map_outcome_ok in H as (plan & Hp & ->).
    destruct (Hplan _ _ _ _ Hp) as (Hlen & Hord).
    rewrite length_map, map_map. auto.
Qed.

Lemma create_stocks_order_witness :
  seller.create_stocks [sample_watch] sample_offer_ids
  = (Ok [{| seller.offer_id := "A1"; seller.stock := 100 |};
         {| seller.offer_id := "B2"; seller.stock := 0 |}], ["B2"])
  /\ NoDup (map Kod [sample_watch])
  /\ List.length [{| seller.offer_id := "A1"; seller.stock := 100 |};
                  {| seller.offer_id := "B2"; seller.stock := 0 |}]
     = List.length sample_offer_ids
  /\ ["A1"; "B2"]
     = filter (fun c => py_in c sample_offer_ids) (map Kod [sample_watch])
       ++ ["B2"].
Proof.
  assert (ND : NoDup (map Kod [sample_watch]))
    by (repeat constructor; simpl; intuition discriminate).
  split; [reflexivity|]. split; [exact ND|].
  destruct (proj1 create_stocks_order [sample_watch] sample_offer_ids _ _
              eq_refl) as (Hlen & Hord).
  split; [exact Hlen | exact (Hord ND)].
Defined.

(** Where the loop fails: at a row whose code is in the list the rows before
    it have left, on the translation of its quantity. *)
Lemma stock_plan_loop_failure_point w plan ids e ids' :
  stock_plan_loop w plan ids = (Raise e, ids') ->
  exists pre bad post plan1,
    w = pre ++ bad :: post
    /\ stock_plan_loop pre plan ids = (Ok plan1, ids')
    /\ py_in (Kod bad) ids' = true
    /\ quantity_stock (Kolichestvo bad) = Raise e.
Proof.
  revert plan ids.
  induction w as [|watch w IH]; intros plan ids.
  - simpl; intros H; inversion H.
  - loop_step watch ids; intros H.
    + destruct (IH _ _ H) as (pre & bad & post & plan1 & -> & Hpre & Hrest).
      exists (watch :: pre), bad, post, plan1. split; [reflexivity|].
      split; [|exact Hrest]. simpl. now rewrite Hin, Hq, Hrm.
    + apply py_in_In in Hin.
      destruct (list_remove_ok _ _ Hin) as (l' & Hl'). congruence.
    + inversion H; subst.
      exists [], watch, w, plan. simpl. auto.
    + destruct (IH _ _ H) as (pre & bad & post & plan1 & -> & Hpre & Hrest).
      exists (watch :: pre), bad, post, plan1. split; [reflexivity|].
      split; [|exact Hrest]. simpl. now rewrite Hin.
Qed.

Lemma stock_plan_fails pre bad post ids plan ids' e :
  stock_plan pre ids = (Ok plan, ids') ->
  py_in (Kod bad) ids' = true ->
  quantity_stock (Kolichestvo bad) = Raise e ->
  stock_plan (pre ++ bad :: post) ids = (Raise e, ids').
Proof.
  intros Hp Hin Hq. apply stock_plan_inv in Hp as (matched & Hloop & _).
  unfold stock_plan. rewrite stock_plan_loop_app, Hloop.
  simpl. now rewrite Hin, Hq.
Qed.

Lemma quantity_stock_raise_iff (count : string) :
  quantity_stock count = Raise ValueError <->
  count <> ">10" /\ count <> "1" /\ py_int count = Raise ValueError.
Proof.
  split.
  - intros H. apply (quantity_stock_raises _ _ H).
  - intros (H10 & H1 & Hint). unfold quantity_stock.
    destruct (String.eqb_spec count ">10"); [contradiction|].
    destruct (String.eqb_spec count "1"); [contradiction|]. exact Hint.
Qed.

(** X7. [create_stocks] fails exactly when it reaches a row whose code is in
    the working list and whose quantity is neither ">10" nor "1" nor accepted
    by [int]: it then raises the [ValueError] of [int] and leaves the list
    that [create_stocks] leaves on the rows before that row, so the offer ids
    consumed before the failure stay consumed and nothing else changes.
    [offer_ids.remove] never makes it fail: on a sheet whose quantities are
    all ">10", "1" or accepted by [int] it returns. *)
Theorem create_stocks_failure :
  (forall w ids e ids',
      seller.create_stocks w ids = (Raise e, ids') ->
      e = ValueError
      /\ exists pre bad post out,
           w = pre ++ bad :: post
           /\ seller.create_stocks pre ids = (Ok out, ids')
           /\ In (Kod bad) ids'
           /\ Kolichestvo bad <> ">10" /\ Kolichestvo bad <> "1"
           /\ py_int (Kolichestvo bad) = Raise ValueError)
  /\ (forall pre bad post ids out ids',
      seller.create_stocks pre ids = (Ok out, ids') ->
      In (Kod bad) ids' ->
      Kolichestvo bad <> ">10" -> Kolichestvo bad <> "1" ->
      py_int (Kolichestvo bad) = Raise ValueError ->
      seller.create_stocks (pre ++ bad :: post) ids = (Raise ValueError, ids'))
  /\ (forall date w ids wh e ids',
      market.create_stocks date w ids wh = (Raise e, ids') ->
      e = ValueError
      /\ exists pre bad post out,
           w = pre ++ bad :: post
           /\ market.create_stocks date pre ids wh = (Ok out, ids')
           /\ In (Kod bad) ids'
           /\ Kolichestvo bad <> ">10" /\ Kolichestvo bad <> "1"
           /\ py_int (Kolichestvo bad) = Raise ValueError)
  /\ (forall date pre bad post ids wh out ids',
      market.create_stocks date pre ids wh = (Ok out, ids') ->
      In (Kod bad) ids' ->
      Kolichestvo bad <> ">10" -> Kolichestvo bad <> "1" ->
      py_int (Kolichestvo bad) = Raise ValueError ->
      market.create_stocks date (pre ++ bad :: post) ids wh
      = (Raise ValueError, ids'))
  /\ (forall date w ids wh,
      (forall watch, In watch w ->
         Kolichestvo watch = ">10" \/ Kolichestvo watch = "1"
         \/ exists z, py_int (Kolichestvo watch) = Ok z) ->
      (exists out ids', seller.create_stocks w ids = (Ok out, ids'))
      /\ (exists out ids', market.create_stocks date w ids wh = (Ok out, ids'))).
Proof.
  assert (Hfail : forall w ids e ids',
             stock_plan w ids = (Raise e, ids') ->
             e = ValueError
             /\ exists pre bad post plan,
                  w = pre ++ bad :: post
                  /\ stock_plan pre ids = (Ok plan, ids')
                  /\ In (Kod bad) ids'
                  /\ Kolichestvo bad <> ">10" /\ Kolichestvo bad <> "1"
                  /\ py_int (Kolichestvo bad) = Raise ValueError).
  { intros w ids e ids' Hp. apply stock_plan_raise in Hp.
    destruct (stock_plan_loop_failure_point _ _ _ _ _ Hp)
      as (pre & bad & post & plan1 & -> & Hpre & Hin & Hq).
    destruct (quantity_stock_raises _ _ Hq) as (-> & H10 & H1 & Hint).
    split; [reflexivity|].
    exists pre, bad, post. eexists. split; [reflexivity|].
    split; [unfold stock_plan; rewrite Hpre; reflexivity|].
    apply py_in_In in Hin. auto. }
  split; [|split; [|split; [|split]]].
  - intros w ids e ids' H. rewrite seller_create_stocks_plan in H.
    apply map_outcome_raise in H.
    destruct (Hfail _ _ _ _ H)
      as (-> & pre & bad & post & plan & -> & Hp & Hrest).
    split; [reflexivity|]. exists pre, bad, post. eexists.
    split; [reflexivity|]. split; [|exact Hrest].
    rewrite seller_create_stocks_plan, Hp. reflexivity.
  - intros pre bad post ids out ids' H Hin H10 H1 Hint.
    rewrite seller_create_stocks_plan in H.
    apply map_outcome_ok in H as (plan & Hp & _).
    rewrite seller_create_stocks_plan.
    rewrite (stock_plan_fails pre bad post ids plan ids' ValueError Hp);
      [reflexivity | now apply py_in_In
       | now apply quantity_stock_raise_iff].
  - intros date w ids wh e ids' H. rewrite market_create_stocks_plan in H.
    apply map_outcome_raise in H.
    destruct (Hfail _ _ _ _ H)
      as (-> & pre & bad & post & plan & -> & Hp & Hrest).
    split; [reflexivity|]. exists pre, bad, post. eexists.
    split; [reflexivity|]. split; [|exact Hrest].
    rewrite market_create_stocks_plan, Hp. reflexivity.
  - intros date pre bad post ids wh out ids' H Hin H10 H1 Hint.
    rewrite market_create_stocks_plan in H.
    apply map_outcome_ok in H as (plan & Hp & _).
    rewrite market_create_stocks_plan.
    rewrite (stock_plan_fails pre bad post ids plan ids' ValueError Hp);
      [reflexivity | now apply py_in_In
       | now apply quantity_stock_raise_iff].
  - intros date w ids wh Hq.
    assert (Hq' : forall watch, In watch w ->
                    exists z, quantity_stock (Kolichestvo watch) = Ok z).
    { intros watch Hw. unfold quantity_stock.
      destruct (String.eqb_spec (Kolichestvo watch) ">10"); [eauto|].
      destruct (String.eqb_spec (Kolichestvo watch) "1"); [eauto|].
      destruct (Hq watch Hw) as [E|[E|E]];
        [contradiction|contradiction|exact E]. }
    destruct (stock_plan_returns w ids Hq') as (plan & ids' & Hp).
    rewrite seller_create_stocks_plan, market_create_stocks_plan, Hp.
    simpl. split; eauto.
Qed.

Lemma create_stocks_failure_witness :
  seller.create_stocks
    ([sample_watch]
     ++ {| Kod := "B2"; Kolichestvo := "many"; Tsena := "100.00" |} :: [])
    sample_offer_ids
  = (Raise ValueError, ["B2"])
  /\ seller.create_stocks [sample_watch] sample_offer_ids
     = (Ok sample_stocks, ["B2"])
  /\ (exists pre bad post out,
        [sample_watch]
        ++ {| Kod := "B2"; Kolichestvo := "many"; Tsena := "100.00" |} :: []
        = pre ++ bad :: post
        /\ seller.create_stocks pre sample_offer_ids = (Ok out, ["B2"])
        /\ In (Kod bad) ["B2"]
        /\ Kolichestvo bad <> ">10" /\ Kolichestvo bad <> "1"
        /\ py_int (Kolichestvo bad) = Raise ValueError)
  /\ (exists out ids',
        seller.create_stocks [sample_watch] sample_offer_ids = (Ok out, ids')).
Proof.
  destruct create_stocks_failure as (Hfail & Hconv & _ & _ & Hreturns).
  assert (Hrun : seller.create_stocks
                   ([sample_watch]
                    ++ {| Kod := "B2"; Kolichestvo := "many";
                          Tsena := "100.00" |} :: [])
                   sample_offer_ids
                 = (Raise ValueError, ["B2"])).
  { apply (Hconv [sample_watch]
             {| Kod := "B2"; Kolichestvo := "many"; Tsena := "100.00" |} []
             sample_offer_ids sample_stocks ["B2"]);
      [reflexivity | simpl; auto | discriminate | discriminate
       | reflexivity]. }
  split; [exact Hrun|]. split; [reflexivity|]. split.
  - apply (Hfail _ _ _ _ Hrun).
  - apply (Hreturns "" [sample_watch] sample_offer_ids "").
    intros watch [<-|[]]. left. reflexivity.
Defined.

(** ** [create_prices] on both marketplaces *)

Lemma seller_create_prices_codes w ids :
  map seller.price_offer_id (seller.create_prices w ids)
  = filter (fun c => py_in c ids) (map Kod w).
Proof.
  induction w as [|watch w IH]; simpl; [reflexivity|].
  destruct (py_in (Kod watch) ids); simpl; now rewrite IH.
Qed.

Lemma market_create_prices_loop_values w ids prices out :
  market.create_prices_loop w ids prices = Ok out ->
  map (fun item => (market.id item, market.value (market.price item))) out
  = map (fun item => (market.id item, market.value (market.price item))) prices
    ++ map (fun item => (seller.price_offer_id item,
                         decimal_value (seller.price item)))
           (seller.create_prices w ids).
Proof.
  revert prices.
  induction w as [|watch w IH]; intros prices H; simpl in *.
  - inversion H; subst. now rewrite app_nil_r.
  - destruct (py_in (Kod watch) ids); [|apply (IH _ H)].
    destruct (py_int (price_conversion (Tsena watch))) as [v|e] eqn:Hv;
      [|discriminate].
    rewrite (IH _ H), map_app, <- app_assoc. simpl.
    do 3 f_equal.
    apply (py_int_digits_value _ _ (price_conversion_digits_only _) Hv).
Qed.

(** X8. [create_prices] emits one record for every row of the sheet whose
    code is a known offer id, in the order of the sheet and once per row, also
    for a code that the sheet repeats; and when Yandex Market's version
    returns, its records carry, row by row, the offer ids of Ozon's records
    and the numbers that Ozon's price strings read as. *)
Theorem create_prices_marketplaces_agree :
  forall (w : list watch) (ids : list string),
    map seller.price_offer_id (seller.create_prices w ids)
    = filter (fun c => py_in c ids) (map Kod w)
    /\ forall out,
         market.create_prices w ids = Ok out ->
         map (fun item => (market.id item, market.value (market.price item)))
             out
         = map (fun item => (seller.price_offer_id item,
                             decimal_value (seller.price item)))
               (seller.create_prices w ids).
Proof.
  intros w ids. split; [apply seller_create_prices_codes|].
  intros out H. apply (market_create_prices_loop_values _ _ _ _ H).
Qed.

Lemma create_prices_marketplaces_agree_witness :
  market.create_prices twin_watches ["A1"]
  = Ok [{| market.id := "A1";
           market.price := {| market.value := 100;
                              market.currencyId := "RUR" |} |};
        {| market.id := "A1";
           market.price := {| market.value := 120;
                              market.currencyId := "RUR" |} |}]
  /\ [("A1", 100%Z); ("A1", 120%Z)]
     = map (fun item => (seller.price_offer_id item,
                         decimal_value (seller.price item)))
           (seller.create_prices twin_watches ["A1"]).
Proof.
  split; [reflexivity|].
  apply (proj2 (create_prices_marketplaces_agree twin_watches ["A1"])
           _ eq_refl).
Defined.

(** ** [get_offer_ids] without an end *)

(** X9. Neither [get_offer_ids] bounds the number of pages: when Ozon keeps
    answering with an empty page and a non-zero total, or Yandex Market with
    pages that name a next page, the loop sends request after request and
    returns for no number of requests. *)
Theorem get_offer_ids_without_end :
  (forall w client_id seller_token,
      (forall t last_id, exists page,
          seller.product_list_response w t last_id client_id seller_token
          = Ok page
          /\ seller.result_items page = []
          /\ seller.result_total page <> 0%Z) ->
      forall fuel t,
        seller.get_offer_ids w fuel client_id seller_token t = None)
  /\ (forall w campaign_id market_token,
      (forall t page_token, exists page next,
          market.offer_mapping_response w t page_token campaign_id
            market_token = Ok page
          /\ market.nextPageToken (market.paging page) = Some next
          /\ next <> "") ->
      forall fuel t,
        market.get_offer_ids w fuel campaign_id market_token t = None).
Proof.
  split.
  - intros w client_id seller_token Hw fuel t.
    unfold seller.get_offer_ids, bind.
    assert (Hloop : forall fuel t last_id,
               seller.get_offer_ids_loop w fuel client_id seller_token
                 last_id [] t = None).
    { clear fuel t. induction fuel as [|fuel IH]; intros t last_id;
        [reflexivity|].
      cbn [seller.get_offer_ids_loop].
      unfold bind at 1, seller.get_product_list, call.
      destruct (Hw t last_id) as (page & -> & Hitems & Htotal).
      rewrite Hitems. simpl.
      apply Z.eqb_neq in Htotal. rewrite Htotal. apply IH. }
    now rewrite Hloop.
  - intros w campaign_id market_token Hw fuel t.
    unfold market.get_offer_ids, bind.
    assert (Hloop : forall fuel t page_token product_list,
               market.get_offer_ids_loop w fuel campaign_id market_token
                 page_token product_list t = None).
    { clear fuel t. induction fuel as [|fuel IH];
        intros t page_token product_list; [reflexivity|].
      cbn [market.get_offer_ids_loop].
      unfold bind at 1, market.get_product_list, call.
      destruct (Hw t page_token) as (page & next & -> & -> & Hne).
      apply String.eqb_neq in Hne. rewrite Hne. apply IH. }
    now rewrite Hloop.
Qed.

Lemma get_offer_ids_without_end_witness :
  seller.get_offer_ids stalled_seller_world 1000 "client" "token" [] = None
  /\ market.get_offer_ids endless_market_world 1000 "campaign" "token" []
     = None.
Proof.
  split.
  - apply (proj1 get_offer_ids_without_end stalled_seller_world
             "client" "token").
    intros t last_id. eexists. repeat split. discriminate.
  - apply (proj2 get_offer_ids_without_end endless_market_world
             "campaign" "token").
    intros t page_token. exists first_market_page, "p1".
    repeat split. discriminate.
Defined.

(** ** The records of [create_stocks] and the filter of [upload_stocks] *)

Lemma stock_plan_nonzero w ids plan ids' entry :
  stock_plan w ids = (Ok plan, ids') ->
  In entry plan -> snd entry <> 0%Z ->
  exists watch,
    In watch w /\ Kod watch = fst entry /\ Kolichestvo watch <> "1".
Proof.
  intros H Hentry Hnz. apply stock_plan_inv in H as (matched & Hloop & ->).
  apply in_app_or in Hentry as [Hm|Hz].
  - destruct (stock_plan_loop_origin _ _ _ _ _ _ Hloop Hm)
      as [[]|(watch & Hw & Hk & Hq)].
    exists watch. repeat split; auto.
    intros E. apply quantity_stock_table in Hq as (_ & H1 & _).
    apply Hnz, H1, E.
  - apply in_map_iff in Hz as (x & <- & _). now elim Hnz.
Qed.

Lemma filter_result_ok {A : Type} (test : A -> result bool) (keep : A -> bool)
    (lst : list A) :
  (forall x, In x lst -> test x = Ok (keep x)) ->
  filter_result test lst = Ok (filter keep lst).
Proof.
  induction lst as [|x lst IH]; intros H; simpl; [reflexivity|].
  rewrite (H x) by (simpl; auto).
  rewrite IH by (intros; apply H; simpl; auto).
  reflexivity.
Qed.

Lemma market_create_stocks_shape date w ids wh out ids' item :
  market.create_stocks date w ids wh = (Ok out, ids') ->
  In item out ->
  market.warehouseId item = wh
  /\ (exists z, market.items item
                = [{| market.count := z;
                      market.type_ := "FIT";
                      market.updatedAt := date |}])
  /\ sku_count item <> None.
Proof.
  intros H Hitem.
  rewrite market_create_stocks_plan in H.
  apply map_outcome_ok in H as (plan & _ & ->).
  apply in_map_iff in Hitem as (entry & <- & _).
  simpl. repeat split; [eauto | discriminate].
Qed.

(** X10. Every record that Yandex Market's [create_stocks] returns carries
    the warehouse id it was given and exactly one item, of type "FIT" and
    stamped with the one time read at the start of the call; so the first
    item that [upload_stocks] reads is always there. *)
Theorem market_create_stocks_records :
  forall date w ids wh out ids',
    market.create_stocks date w ids wh = (Ok out, ids') ->
    forall item, In item out ->
      market.warehouseId item = wh
      /\ (exists z, market.items item
                    = [{| market.count := z;
                          market.type_ := "FIT";
                          market.updatedAt := date |}])
      /\ sku_count item <> None.
Proof.
  intros date w ids wh out ids' H item Hitem.
  apply (market_create_stocks_shape _ _ _ _ _ _ _ H Hitem).
Qed.

Lemma market_create_stocks_records_witness :
  market.create_stocks "2024-01-01T00:00:00Z" [sample_watch] sample_offer_ids
    "w1"
  = (Ok [market_sku_stock "2024-01-01T00:00:00Z" "w1" ("A1", 100%Z);
         market_sku_stock "2024-01-01T00:00:00Z" "w1" ("B2", 0%Z)], ["B2"])
  /\ market.warehouseId
       (market_sku_stock "2024-01-01T00:00:00Z" "w1" ("B2", 0%Z)) = "w1"
  /\ (exists z,
        market.items (market_sku_stock "2024-01-01T00:00:00Z" "w1" ("B2", 0%Z))
        = [{| market.count := z;
              market.type_ := "FIT";
              market.updatedAt := "2024-01-01T00:00:00Z" |}])
  /\ sku_count (market_sku_stock "2024-01-01T00:00:00Z" "w1" ("B2", 0%Z))
     <> None.
Proof.
  split; [reflexivity|].
  apply (market_create_stocks_records "2024-01-01T00:00:00Z" [sample_watch]
           sample_offer_ids "w1" _ ["B2"] eq_refl).
  simpl; auto.
Defined.

(** X11. When an awaited [upload_stocks] returns, its first list holds
    exactly the records of its second list whose count is not 0, and each of
    them belongs to a row of the sheet whose quantity is not "1": neither the
    offer ids missing from the sheet nor the rows with quantity "1" are in
    it. *)
Theorem upload_stocks_not_empty :
  (forall w fuel rows client_id seller_token t not_empty stocks t',
      await (seller.upload_stocks w fuel rows client_id seller_token) t
      = Some (Ok (not_empty, stocks), t') ->
      (forall item, In item not_empty <->
                    In item stocks /\ seller.stock item <> 0%Z)
      /\ forall item, In item not_empty ->
           exists watch,
             In watch rows /\ Kod watch = seller.offer_id item
             /\ Kolichestvo watch <> "1")
  /\ (forall w fuel rows campaign_id market_token warehouse_id t
             not_empty stocks t',
      await (market.upload_stocks w fuel rows campaign_id market_token
               warehouse_id) t
      = Some (Ok (not_empty, stocks), t') ->
      (forall item, In item not_empty <->
                    In item stocks /\ sku_count item <> Some 0%Z)
      /\ forall item, In item not_empty ->
           exists watch,
             In watch rows /\ Kod watch = market.sku item
             /\ Kolichestvo watch <> "1").
Proof.
  split.
  - intros w fuel rows client_id seller_token t not_empty stocks t' H.
    simpl in H. unfold bind at 1 in H.
    destruct (seller.get_offer_ids w fuel client_id seller_token t)
      as [[[ids|e] t1]|]; try discriminate.
    destruct (seller.create_stocks rows ids) as [outcome ids'] eqn:Hcs.
    unfold bind at 1, lift at 1 in H.
    destruct outcome as [out|e]; [|discriminate].
    unfold bind at 1, lift at 1 in H.
    destruct (divide out 100) as [chunks|e]; [|discriminate].
    unfold bind at 1 in H.
    destruct (for_each chunks _ t1) as [[[u|e] t2]|]; try discriminate.
    inversion H; subst; clear H.
    assert (Hfilter : forall item,
               In item (filter (fun s => negb (seller.stock s =? 0)%Z) stocks)
               <-> In item stocks /\ seller.stock item <> 0%Z).
    { intros item. rewrite filter_In, negb_true_iff, Z.eqb_neq. reflexivity. }
    split; [exact Hfilter|].
    intros item Hitem. apply Hfilter in Hitem as (Hin & Hnz).
    rewrite seller_create_stocks_plan in Hcs.
    apply map_outcome_ok in Hcs as (plan & Hp & ->).
    apply in_map_iff in Hin as (entry & <- & Hentry).
    apply (stock_plan_nonzero _ _ _ _ _ Hp Hentry Hnz).
  - intros w fuel rows campaign_id market_token warehouse_id t
           not_empty stocks t' H.
    simpl in H. unfold bind at 1 in H.
    destruct (market.get_offer_ids w fuel campaign_id market_token t)
      as [[[ids|e] t1]|]; try discriminate.
    unfold bind at 1, market.clock at 1 in H.
    destruct (market.create_stocks (market.utcnow w t1) rows ids warehouse_id)
      as [outcome ids'] eqn:Hcs.
    unfold bind at 1, lift at 1 in H.
    destruct outcome as [out|e]; [|discriminate].
    unfold bind at 1, lift at 1 in H.
    destruct (divide out 2000) as [chunks|e]; [|discriminate].
    unfold bind at 1 in H.
    destruct (for_each chunks _ t1) as [[[u|e] t2]|]; try discriminate.
    unfold bind at 1, lift at 1 in H.
    rewrite (filter_result_ok _
               (fun s => match sku_count s with
                         | Some z => negb (z =? 0)%Z
                         | None => false
                         end)) in H.
    2:{ intros item Hitem.
        destruct (market_create_stocks_shape _ _ _ _ _ _ _ Hcs Hitem)
          as (_ & (z & Hz) & _).
        unfold sku_count. now rewrite Hz. }
    inversion H; subst; clear H.
    assert (Hfilter : forall item,
               In item (filter (fun s => match sku_count s with
                                         | Some z => negb (z =? 0)%Z
                                         | None => false
                                         end) stocks)
               <-> In item stocks /\ sku_count item <> Some 0%Z).
    { intros item. rewrite filter_In. split; intros (Hin & Hc);
        (split; [exact Hin|]);
        destruct (market_create_stocks_shape _ _ _ _ _ _ _ Hcs Hin)
          as (_ & (z & Hz) & _);
        unfold sku_count in *; rewrite Hz in *.
      - apply negb_true_iff, Z.eqb_neq in Hc. congruence.
      - apply negb_true_iff, Z.eqb_neq. congruence. }
    split; [exact Hfilter|].
    intros item Hitem. apply Hfilter in Hitem as (Hin & Hnz).
    rewrite market_create_stocks_plan in Hcs.
    apply map_outcome_ok in Hcs as (plan & Hp & ->).
    apply in_map_iff in Hin as (entry & <- & Hentry).
    apply (stock_plan_nonzero _ _ _ _ _ Hp Hentry).
    intros E. apply Hnz. unfold sku_count. simpl. now rewrite E.
Qed.

Lemma upload_stocks_not_empty_witness :
  let stocks := [{| seller.offer_id := "A1"; seller.stock := 100 |};
                 {| seller.offer_id := "B2"; seller.stock := 0 |}] in
  let not_empty := [{| seller.offer_id := "A1"; seller.stock := 100 |}] in
  await (seller.upload_stocks sample_seller_world 1 [sample_watch]
           "client" "token") []
  = Some (Ok (not_empty, stocks),
          [seller.ProductListRequest "" "client" "token";
           seller.ImportStocksRequest stocks "client" "token"])
  /\ (forall item, In item not_empty <->
                   In item stocks /\ seller.stock item <> 0%Z)
  /\ forall item, In item not_empty ->
       exists watch,
         In watch [sample_watch] /\ Kod watch = seller.offer_id item
         /\ Kolichestvo watch <> "1".
Proof.
  simpl. split; [reflexivity|].
  apply (proj1 upload_stocks_not_empty sample_seller_world 1 [sample_watch]
           "client" "token" [] _ _ _ eq_refl).
Defined.

(** ** Runs of [main] *)

Section ForEachCalls.
Context {E A : Type} (ev : A -> E) (answer : list E -> A -> result unit).

(** A loop of calls that all succeed sends one request per element. *)
Lemma for_each_calls_ok (l : list A) t :
  (forall t x, In x l -> answer t x = Ok tt) ->
  for_each l (fun x => call (ev x) (fun t => answer t x)) t
  = Some (Ok tt, t ++ map ev l).
Proof.
  revert t. induction l as [|x l IH]; intros t H; simpl.
  - unfold ret. now rewrite app_nil_r.
  - unfold bind, call. rewrite (H t x) by (simpl; auto).
    rewrite IH by (intros; apply H; simpl; auto).
    now rewrite <- app_assoc.
Qed.

End ForEachCalls.

(** X12. When the listing, the download and [create_stocks] succeed and
    Ozon accepts every request, [seller.main] returns normally after sending,
    in this order, the stock list in chunks of [divide stocks 100] and the
    price list, computed from the offer ids that [create_stocks] left, in
    chunks of [divide prices 900]: one request per chunk and nothing else. *)
Theorem seller_main_success :
  forall w fuel client_id seller_token t ids t1 rows stocks ids',
    seller.get_offer_ids w fuel client_id seller_token t = Some (Ok ids, t1) ->
    seller.download_stock_response w t1 = Ok rows ->
    seller.create_stocks rows ids = (Ok stocks, ids') ->
    (forall t s,
        seller.import_stocks_response w t s client_id seller_token = Ok tt) ->
    (forall t p,
        seller.import_prices_response w t p client_id seller_token = Ok tt) ->
    exists chunks price_chunks,
      divide stocks 100 = Ok chunks
      /\ List.concat chunks = stocks
      /\ divide (seller.create_prices rows ids') 900 = Ok price_chunks
      /\ List.concat price_chunks = seller.create_prices rows ids'
      /\ seller.main w fuel client_id seller_token t
         = Some (Ok tt,
                 t1 ++ seller.DownloadStock
                    :: map (fun s => seller.ImportStocksRequest s client_id
                                       seller_token) chunks
                    ++ map (fun p => seller.ImportPricesRequest p client_id
                                       seller_token) price_chunks).
Proof.
  intros w fuel client_id seller_token t ids t1 rows stocks ids'
         Hlist Hdown Hcs Hstocks Hprices.
  destruct (divide_concat stocks 100 ltac:(lia)) as (chunks & Hd & Hcat).
  destruct (divide_concat (seller.create_prices rows ids') 900 ltac:(lia))
    as (price_chunks & Hpd & Hpcat).
  exists chunks, price_chunks. repeat split; auto.
  unfold seller.main, try_except, seller.main_try.
  unfold bind at 1. rewrite Hlist.
  unfold bind at 1, seller.download_stock, call. rewrite Hdown, Hcs.
  unfold bind at 1, lift at 1.
  unfold bind at 1, lift at 1. rewrite Hd.
  unfold bind at 1, seller.update_stocks.
  rewrite (for_each_calls_ok
             (fun s => seller.ImportStocksRequest s client_id seller_token)
             (fun t s => seller.import_stocks_response w t s client_id
                           seller_token))
    by (intros; apply Hstocks).
  cbv zeta. unfold bind at 1, lift at 1. rewrite Hpd.
  unfold seller.update_price.
  rewrite (for_each_calls_ok
             (fun p => seller.ImportPricesRequest p client_id seller_token)
             (fun t p => seller.import_prices_response w t p client_id
                           seller_token))
    by (intros; apply Hprices).
  rewrite <- !app_assoc. reflexivity.
Qed.

Lemma seller_main_success_witness :
  seller.get_offer_ids sample_seller_world 1 "client" "token" []
  = Some (Ok sample_offer_ids, [seller.ProductListRequest "" "client" "token"])
  /\ exists chunks price_chunks,
       divide [{| seller.offer_id := "A1"; seller.stock := 100 |};
               {| seller.offer_id := "B2"; seller.stock := 0 |}] 100
       = Ok chunks
       /\ List.concat chunks
          = [{| seller.offer_id := "A1"; seller.stock := 100 |};
             {| seller.offer_id := "B2"; seller.stock := 0 |}]
       /\ divide (seller.create_prices [sample_watch] ["B2"]) 900
          = Ok price_chunks
       /\ List.concat price_chunks = seller.create_prices [sample_watch] ["B2"]
       /\ seller.main sample_seller_world 1 "client" "token" []
          = Some (Ok tt,
                  [seller.ProductListRequest "" "client" "token"]
                  ++ seller.DownloadStock
                     :: map (fun s => seller.ImportStocksRequest s "client"
                                        "token") chunks
                     ++ map (fun p => seller.ImportPricesRequest p "client"
                                        "token") price_chunks).
Proof.
  split; [reflexivity|].
  apply (seller_main_success sample_seller_world 1 "client" "token" []
           sample_offer_ids _ [sample_watch] _ ["B2"]); reflexivity.
Defined.

(** The stock requests that are accepted when they are made are all sent. *)
Lemma for_each_stock_requests_accepted w client_id seller_token chunks t :
  seller_stock_requests_accepted w client_id seller_token t chunks ->
  for_each chunks
    (fun some_stock => seller.update_stocks w some_stock client_id seller_token)
    t
  = Some (Ok tt,
          t ++ map (fun s => seller.ImportStocksRequest s client_id
                               seller_token) chunks).
Proof.
  revert t. induction chunks as [|c chunks IH]; intros t H; simpl.
  - unfold ret. now rewrite app_nil_r.
  - destruct H as (Hc & Hrest).
    unfold bind at 1, seller.update_stocks at 1, call at 1. rewrite Hc.
    rewrite (IH _ Hrest), <- app_assoc. reflexivity.
Qed.

Lemma for_each_app {E A : Type} (l1 l2 : list A) (body : A -> M E unit) t :
  for_each (l1 ++ l2) body t
  = match for_each l1 body t with
    | Some (Ok _, t1) => for_each l2 body t1
    | other => other
    end.
Proof.
  revert t. induction l1 as [|x l1 IH]; intros t; simpl; [reflexivity|].
  unfold bind. destruct (body x t) as [[[u|e] t1]|]; [apply IH| |];
    reflexivity.
Qed.

(** X13. When a stock request raises in [seller.main], the requests before
    it having been accepted, nothing is sent after it: the chunks that follow
    are not sent and no price request is made; [main] prints one message and
    returns normally. *)
Theorem seller_main_stops_at_failed_stock_request :
  forall w fuel client_id seller_token t ids t1 rows stocks ids'
         sent failed unsent e,
    seller.get_offer_ids w fuel client_id seller_token t = Some (Ok ids, t1) ->
    seller.download_stock_response w t1 = Ok rows ->
    seller.create_stocks rows ids = (Ok stocks, ids') ->
    divide stocks 100 = Ok (sent ++ failed :: unsent) ->
    seller_stock_requests_accepted w client_id seller_token
      (t1 ++ [seller.DownloadStock]) sent ->
    seller.import_stocks_response w
      (t1 ++ seller.DownloadStock
          :: map (fun s => seller.ImportStocksRequest s client_id seller_token)
                 sent)
      failed client_id seller_token
    = Raise e ->
    exists error text,
      seller.main w fuel client_id seller_token t
      = Some (Ok tt,
              t1 ++ seller.DownloadStock
                 :: map (fun s => seller.ImportStocksRequest s client_id
                                    seller_token) (sent ++ [failed])
                 ++ [seller.Print error text]).
Proof.
  intros w fuel client_id seller_token t ids t1 rows stocks ids'
         sent failed unsent e Hlist Hdown Hcs Hd Hok Hfail.
  assert (Htry : seller.main_try w fuel client_id seller_token t
                 = Some (Raise e,
                         t1 ++ seller.DownloadStock
                            :: map (fun s => seller.ImportStocksRequest s
                                               client_id seller_token)
                                   (sent ++ [failed]))).
  { unfold seller.main_try.
    unfold bind at 1. rewrite Hlist.
    unfold bind at 1, seller.download_stock, call. rewrite Hdown, Hcs.
    unfold bind at 1, lift at 1.
    unfold bind at 1, lift at 1. rewrite Hd.
    unfold bind at 1.
    rewrite for_each_app, (for_each_stock_requests_accepted _ _ _ _ _ Hok).
    cbn [for_each]. unfold bind at 1, seller.update_stocks at 1, call.
    rewrite <- app_assoc. cbn [app]. rewrite Hfail.
    rewrite map_app, <- !app_assoc. reflexivity. }
  destruct (seller_main_prints_once _ _ _ _ _ _ _ Htry) as (error & text & ->).
  exists error, text. rewrite <- app_assoc. reflexivity.
Qed.

Lemma seller_main_stops_at_failed_stock_request_witness :
  divide large_stocks 100
  = Ok ([firstn 100 large_stocks]
        ++ firstn 100 (skipn 100 large_stocks)
        :: [skipn 200 large_stocks])
  /\ skipn 200 large_stocks <> []
  /\ seller.create_stocks [sample_watch] large_offer_ids
     = (Ok large_stocks, "A1" :: repeat "B2" 248)
  /\ seller.create_prices [sample_watch] ("A1" :: repeat "B2" 248) <> []
  /\ exists error text,
       seller.main flaky_seller_world 1 "client" "token" []
       = Some (Ok tt,
               [seller.ProductListRequest "" "client" "token"]
               ++ seller.DownloadStock
                  :: map (fun s => seller.ImportStocksRequest s "client"
                                     "token")
                         ([firstn 100 large_stocks]
                          ++ [firstn 100 (skipn 100 large_stocks)])
                  ++ [seller.Print error text]).
Proof.
  split; [vm_compute; reflexivity|].
  split; [vm_compute; discriminate|].
  split; [vm_compute; reflexivity|].
  split; [vm_compute; discriminate|].
  apply (seller_main_stops_at_failed_stock_request flaky_seller_world 1
           "client" "token" [] large_offer_ids
           [seller.ProductListRequest "" "client" "token"] [sample_watch]
           large_stocks ("A1" :: repeat "B2" 248)
           [firstn 100 large_stocks]
           (firstn 100 (skipn 100 large_stocks))
           [skipn 200 large_stocks] ConnectionError).
  - vm_compute; reflexivity.
  - reflexivity.
  - vm_compute; reflexivity.
  - vm_compute; reflexivity.
  - split; [reflexivity | exact I].
  - reflexivity.
Defined.

(** X14. A failure while [market.main] handles the FBS campaign ends the
    run: whether the listing of the FBS offers raises or [create_stocks]
    raises on them, the message is printed and [main] returns without a
    single request for the DBS campaign. *)
Theorem market_main_fbs_failure_skips_dbs :
  (forall w fuel market_token fbs dbs wh_fbs wh_dbs t rows e t1,
      market.download_stock_response w t = Ok rows ->
      market.get_offer_ids w fuel fbs market_token (t ++ [market.DownloadStock])
      = Some (Raise e, t1) ->
      exists error text,
        market.main w fuel market_token fbs dbs wh_fbs wh_dbs t
        = Some (Ok tt, t1 ++ [market.Print error text]))
  /\ (forall w fuel market_token fbs dbs wh_fbs wh_dbs t rows ids t1 e ids',
      market.download_stock_response w t = Ok rows ->
      market.get_offer_ids w fuel fbs market_token (t ++ [market.DownloadStock])
      = Some (Ok ids, t1) ->
      market.create_stocks (market.utcnow w t1) rows ids wh_fbs
      = (Raise e, ids') ->
      market.main w fuel market_token fbs dbs wh_fbs wh_dbs t
      = Some (Ok tt, t1 ++ [market.Print (Some ValueError) "ERROR_2"])).
Proof.
  split.
  - intros w fuel market_token fbs dbs wh_fbs wh_dbs t rows e t1 Hdown Hlist.
    unfold market.main, bind at 1, market.download_stock, call.
    rewrite Hdown. unfold try_except, market.main_try.
    unfold bind at 1. rewrite Hlist.
    destruct e; unfold market.main_except, market.print, call; eauto.
  - intros w fuel market_token fbs dbs wh_fbs wh_dbs t rows ids t1 e ids'
           Hdown Hlist Hcs.
    assert (e = ValueError) as ->.
    { rewrite market_create_stocks_plan in Hcs.
      apply map_outcome_raise, stock_plan_raise in Hcs.
      apply (stock_plan_loop_failure _ _ _ _ _ Hcs). }
    unfold market.main, bind at 1, market.download_stock, call.
    rewrite Hdown. unfold try_except, market.main_try.
    unfold bind at 1. rewrite Hlist.
    unfold bind at 1, market.clock at 1. rewrite Hcs.
    unfold bind at 1, lift at 1. reflexivity.
Qed.

Lemma market_main_fbs_failure_skips_dbs_witness :
  (exists error text,
     market.main failing_market_world 2 "token" "fbs" "dbs" "w1" "w2" []
     = Some (Ok tt,
             [market.DownloadStock;
              market.OfferMappingRequest "" "fbs" "token";
              market.OfferMappingRequest "p1" "fbs" "token"]
             ++ [market.Print error text]))
  /\ market.main bad_quantity_market_world 2 "token" "fbs" "dbs" "w1" "w2" []
     = Some (Ok tt,
             [market.DownloadStock;
              market.OfferMappingRequest "" "fbs" "token";
              market.OfferMappingRequest "p1" "fbs" "token"]
             ++ [market.Print (Some ValueError) "ERROR_2"]).
Proof.
  split.
  - apply (proj1 market_main_fbs_failure_skips_dbs failing_market_world 2
             "token" "fbs" "dbs" "w1" "w2" [] [sample_watch] HTTPError
             [market.DownloadStock;
              market.OfferMappingRequest "" "fbs" "token";
              market.OfferMappingRequest "p1" "fbs" "token"]);
      reflexivity.
  - apply (proj2 market_main_fbs_failure_skips_dbs bad_quantity_market_world 2
             "token" "fbs" "dbs" "w1" "w2" [] [bad_quantity_watch]
             ["A1"; "B2"]
             [market.DownloadStock;
              market.OfferMappingRequest "" "fbs" "token";
              market.OfferMappingRequest "p1" "fbs" "token"]
             ValueError ["A1"; "B2"]); reflexivity.
Defined.

(** X15. Whatever the marketplace, the supplier and the clock answer,
    [market.main] sends no price request. *)
Theorem market_main_sends_no_price_request :
  forall w fuel market_token fbs dbs wh_fbs wh_dbs t r t',
    market.main w fuel market_token fbs dbs wh_fbs wh_dbs t = Some (r, t') ->
    exists evs, t' = t ++ evs /\ Forall market_not_price_request evs.
Proof.
  intros w fuel market_token fbs dbs wh_fbs wh_dbs t r t' H.
  apply (market_main_no_price_request w fuel market_token fbs dbs wh_fbs
           wh_dbs t r t' H).
Qed.

Lemma market_main_sends_no_price_request_witness :
  exists evs,
    [market.DownloadStock;
     market.OfferMappingRequest "" "fbs" "token";
     market.OfferMappingRequest "p1" "fbs" "token";
     market.StocksRequest
       [market_sku_stock "2024-01-01T00:00:00Z" "w1" ("A1", 100%Z);
        market_sku_stock "2024-01-01T00:00:00Z" "w1" ("B2", 0%Z)]
       "fbs" "token";
     market.OfferMappingRequest "" "dbs" "token";
     market.OfferMappingRequest "p1" "dbs" "token";
     market.StocksRequest
       [market_sku_stock "2024-01-01T00:00:00Z" "w2" ("A1", 100%Z);
        market_sku_stock "2024-01-01T00:00:00Z" "w2" ("B2", 0%Z)]
       "dbs" "token"] = [] ++ evs
    /\ Forall market_not_price_request evs.
Proof.
  apply (market_main_sends_no_price_request paged_market_world 2 "token"
           "fbs" "dbs" "w1" "w2" [] (Ok tt)).
  reflexivity.
Defined.

(** X16. [seller.main] never lets an exception out: whenever it returns, it
    returns normally.  [market.main] lets out the exception of the supplier
    download, made before its [try], and no other. *)
Theorem main_outcomes :
  (forall w fuel client_id seller_token t r t',
      seller.main w fuel client_id seller_token t = Some (r, t') ->
      r = Ok tt)
  /\ (forall w fuel market_token fbs dbs wh_fbs wh_dbs t r t',
      market.main w fuel market_token fbs dbs wh_fbs wh_dbs t = Some (r, t') ->
      (forall rows, market.download_stock_response w t = Ok rows ->
                    r = Ok tt)
      /\ (forall e, market.download_stock_response w t = Raise e ->
                    r = Raise e /\ t' = t ++ [market.DownloadStock])).
Proof.
  split.
  - intros w fuel client_id seller_token t r t' H.
    apply (seller_main_swallows _ _ _ _ _ _ _ H).
  - intros w fuel market_token fbs dbs wh_fbs wh_dbs t r t' H.
    pose proof (market_main_outcome _ _ _ _ _ _ _ _ _ _ H) as Hout.
    split.
    + intros rows E. now rewrite E in Hout.
    + intros e E. now rewrite E in Hout.
Qed.

Lemma main_outcomes_witness :
  seller.main failing_seller_world 2 "client" "token" []
  = Some (Ok tt,
          [seller.ProductListRequest "" "client" "token";
           seller.ProductListRequest "p1" "client" "token";
           seller.Print None "Превышено время ожидания..."])
  /\ Ok tt = Ok tt
  /\ market.main offline_supplier_world 2 "token" "fbs" "dbs" "w1" "w2" []
     = Some (Raise ConnectionError, [market.DownloadStock])
  /\ Raise ConnectionError = @Raise unit ConnectionError
  /\ [market.DownloadStock] = [] ++ [market.DownloadStock].
Proof.
  split; [reflexivity|]. split.
  - apply (proj1 main_outcomes failing_seller_world 2 "client" "token" []
             (Ok tt) _ eq_refl).
  - split; [reflexivity|].
    apply (proj2 (proj2 main_outcomes offline_supplier_world 2 "token" "fbs"
                    "dbs" "w1" "w2" [] _ _ eq_refl) ConnectionError eq_refl).
Defined.

(** ** [upload_prices], awaited *)

(** A loop of calls that returns normally has sent one request per
    element. *)
Lemma for_each_calls_trace {E A : Type} (ev : A -> E)
    (answer : list E -> A -> result unit) (l : list A) t u t' :
  for_each l (fun x => call (ev x) (fun t => answer t x)) t = Some (Ok u, t') ->
  t' = t ++ map ev l.
Proof.
  revert t. induction l as [|x l IH]; intros t H; simpl in H.
  - inversion H. now rewrite app_nil_r.
  - unfold bind at 1, call at 1 in H.
    destruct (answer t x); [|discriminate].
    rewrite (IH _ H), <- app_assoc. reflexivity.
Qed.

(** X17. When an awaited [upload_prices] returns, the price list it returns
    is [create_prices] on the offer ids it has just listed, so it holds a
    record for every row of the sheet whose code is listed; and the requests
    it sent after the listing are the chunks of that list, 1000 records a
    chunk for Ozon and 500 for Yandex Market, one request per chunk. *)
Theorem upload_prices_awaited :
  (forall w fuel rows client_id seller_token t prices t',
      await (seller.upload_prices w fuel rows client_id seller_token) t
      = Some (Ok prices, t') ->
      exists ids t1 chunks,
        seller.get_offer_ids w fuel client_id seller_token t
        = Some (Ok ids, t1)
        /\ prices = seller.create_prices rows ids
        /\ divide prices 1000 = Ok chunks
        /\ List.concat chunks = prices
        /\ t' = t1 ++ map (fun p => seller.ImportPricesRequest p client_id
                                      seller_token) chunks)
  /\ (forall w fuel rows campaign_id market_token t prices t',
      await (market.upload_prices w fuel rows campaign_id market_token) t
      = Some (Ok prices, t') ->
      exists ids t1 chunks,
        market.get_offer_ids w fuel campaign_id market_token t
        = Some (Ok ids, t1)
        /\ market.create_prices rows ids = Ok prices
        /\ divide prices 500 = Ok chunks
        /\ List.concat chunks = prices
        /\ t' = t1 ++ map (fun p => market.PricesRequest p campaign_id
                                      market_token) chunks).
Proof.
  split.
  - intros w fuel rows client_id seller_token t prices t' H.
    simpl in H. unfold bind at 1 in H.
    destruct (seller.get_offer_ids w fuel client_id seller_token t)
      as [[[ids|e] t1]|]; try discriminate.
    cbv zeta in H. unfold bind at 1, lift at 1 in H.
    destruct (divide_concat (seller.create_prices rows ids) 1000 ltac:(lia))
      as (chunks & Hd & Hcat).
    rewrite Hd in H. unfold bind at 1 in H.
    destruct (for_each chunks _ t1) as [[[u|e] t2]|] eqn:Hrun;
      try discriminate.
    inversion H; subst; clear H.
    exists ids, t1, chunks. repeat split; auto.
    apply (for_each_calls_trace
             (fun p => seller.ImportPricesRequest p client_id seller_token)
             (fun t p => seller.import_prices_response w t p client_id
                           seller_token) _ _ _ _ Hrun).
  - intros w fuel rows campaign_id market_token t prices t' H.
    simpl in H. unfold bind at 1 in H.
    destruct (market.get_offer_ids w fuel campaign_id market_token t)
      as [[[ids|e] t1]|]; try discriminate.
    unfold bind at 1, lift at 1 in H.
    destruct (market.create_prices rows ids) as [out|e] eqn:Hcp;
      [|discriminate].
    unfold bind at 1, lift at 1 in H.
    destruct (divide_concat out 500 ltac:(lia)) as (chunks & Hd & Hcat).
    rewrite Hd in H. unfold bind at 1 in H.
    destruct (for_each chunks _ t1) as [[[u|e] t2]|] eqn:Hrun;
      try discriminate.
    inversion H; subst; clear H.
    exists ids, t1, chunks. repeat split; auto.
    apply (for_each_calls_trace
             (fun p => market.PricesRequest p campaign_id market_token)
             (fun t p => market.prices_response w t p campaign_id
                           market_token) _ _ _ _ Hrun).
Qed.

Lemma upload_prices_awaited_witness :
  await (market.upload_prices paged_market_world 2 [sample_watch]
           "campaign" "token") []
  = Some (Ok [{| market.id := "A1";
                 market.price := {| market.value := 100;
                                    market.currencyId := "RUR" |} |}],
          [market.OfferMappingRequest "" "campaign" "token";
           market.OfferMappingRequest "p1" "campaign" "token";
           market.PricesRequest
             [{| market.id := "A1";
                 market.price := {| market.value := 100;
                                    market.currencyId := "RUR" |} |}]
             "campaign" "token"])
  /\ exists ids t1 chunks,
       market.get_offer_ids paged_market_world 2 "campaign" "token" []
       = Some (Ok ids, t1)
       /\ market.create_prices [sample_watch] ids
          = Ok [{| market.id := "A1";
                   market.price := {| market.value := 100;
                                      market.currencyId := "RUR" |} |}]
       /\ divide [{| market.id := "A1";
                     market.price := {| market.value := 100;
                                        market.currencyId := "RUR" |} |}] 500
          = Ok chunks
       /\ List.concat chunks
          = [{| market.id := "A1";
                market.price := {| market.value := 100;
                                   market.currencyId := "RUR" |} |}]
       /\ [market.OfferMappingRequest "" "campaign" "token";
           market.OfferMappingRequest "p1" "campaign" "token";
           market.PricesRequest
             [{| market.id := "A1";
                 market.price := {| market.value := 100;
                                    market.currencyId := "RUR" |} |}]
             "campaign" "token"]
          = t1 ++ map (fun p => market.PricesRequest p "campaign" "token")
                      chunks.
Proof.
  split; [reflexivity|].
  apply (proj2 upload_prices_awaited paged_market_world 2 [sample_watch]
           "campaign" "token" [] _ _ eq_refl).
Defined.
